(** * Disclosure-driven order lifecycle: a shallow embedding

    The program is a set of four Python scripts (entry controller
    [buy_main.py], exit controller [sell_main.py], stop-loss controller
    [losscut.py], stale-order reaper [cancel_orders.py]).  This file embeds
    their decision logic and proves properties of it.

    Conventions of the embedding.

    - A Python [int] is a [Z].
    - A Python [float] is modelled by the rational number it denotes ([Q]);
      [int(x)] and [round(x)] are exact on that rational.  [Py.float] takes
      a number to the nearest binary64 number and [Py.fmul] is the binary64
      product; the budget product of [decide_order_plan] and the two
      products of the stop-loss controller are such products.  The
      products and quotients of prices in the entry and exit controllers,
      which go through [round] or [int] before they are used, are taken
      exactly; module [Binary64] re-evaluates the concrete computations
      used below on primitive floats and checks that the results agree.
    - A [str] is a [string] (its UTF-8 bytes); [w in text] is substring
      search, which on valid UTF-8 agrees with search on code points.
    - A [set] of strings is a [gset string], a [dict] keyed by strings is a
      [gmap string _].
    - Calls to the outside (clock, broker, disclosure source) are answered by
      a world record of oracles; orders sent to the broker are collected in
      a trace. *)

From Stdlib Require Import ZArith QArith Qround Qabs Qpower String Ascii Lia Lqa.
From Stdlib Require Import PrimFloat SpecFloat FloatOps Uint63.
From stdpp Require Import gmap strings list fin_maps pretty.

Set Warnings "-inexact-float".
Local Open Scope Z_scope.

(** ** Python primitives *)

Module Py.

(** [int(x)] for a float [x]: truncation toward zero. *)
Definition int (x : Q) : Z := Z.quot (Qnum x) (Z.pos (Qden x)).

(** [round(x)] for a float [x]: the nearest integer, ties to the even one. *)
Definition round (x : Q) : Z :=
  let f := Qfloor x in
  match (x - inject_Z f ?= 1 # 2)%Q with
  | Lt => f
  | Gt => f + 1
  | Eq => if Z.even f then f else f + 1
  end.

(** The integer part of the binary logarithm of a positive rational. *)
Definition ilog2 (x : Q) : Z :=
  let k := Z.log2 (Qnum x) - Z.log2 (Z.pos (Qden x)) in
  if Qle_bool (2 ^ k) x then k else k - 1.

(** [float(x)]: the binary64 number nearest to [x], ties to the even
    significand.  The last place has the exponent [e]: 53 significant bits,
    and no finer than 2^-1074.  A float is its own nearest float.  From
    2^1024 on a float is an infinity, which [Q] does not hold: the model is
    that of the finite floats. *)
Definition float (x : Q) : Q :=
  if Qeq_bool x 0 then 0%Q
  else
    let e := Z.max (ilog2 (Qabs x) - 52) (-1074) in
    (inject_Z (round (x / 2 ^ e)) * 2 ^ e)%Q.

(** [x * y] where one operand is a float: an [int] operand is converted, and
    the exact product of the two floats is rounded. *)
Definition fmul (x y : Q) : Q := float (float x * float y).

(** [w in text] for two strings. *)
Fixpoint contains (w text : string) : bool :=
  String.prefix w text ||
  match text with
  | EmptyString => false
  | String _ rest => contains w rest
  end.

(** [any(w in text for w in words)]. *)
Definition any_in (words : list string) (text : string) : bool :=
  existsb (fun w => contains w text) words.

(** Exceptions that the embedded code can raise. *)
Inductive exn := ZeroDivisionError.

(** A computation that returns or raises. *)
Inductive result (A : Type) :=
| Ok (a : A)
| Raise (e : exn).
Arguments Ok {A} a.
Arguments Raise {A} e.

(** [a // b] on ints. *)
Definition floordiv (a b : Z) : result Z :=
  if b =? 0 then Raise ZeroDivisionError else Ok (a / b).

End Py.

(** ** Price quantizer ([losscut.py], [sell_main.py], [buy_main.py]) *)

Module Tick.

(** [losscut.adjust_price_to_tick]. *)
Definition adjust_price_to_tick (price : Q) : Z :=
  let p := Py.int price in
  let tick := if p <=? 3000 then 1 else if p <=? 5000 then 5 else 10 in
  (p / tick) * tick.

(** [sell_main.round_sell_price_for_rules]. *)
Definition round_sell_price_for_rules (price : Q) : Z :=
  let p := Py.int price in
  if 5000 <? p then (p / 10) * 10
  else if 3000 <? p then (p / 5) * 5
  else p.

(** The price that [buy_main.send_buy_order] puts in the order: the first
    statement and the inline rounding block. *)
Definition send_buy_order_price (limit_price : Q) : Z :=
  let limit_price := Py.round limit_price in
  if 5000 <? limit_price then limit_price - limit_price mod 10
  else if 3000 <? limit_price then limit_price - limit_price mod 5
  else limit_price.

End Tick.

(** ** Budget and material classifier ([buy_main.py]) *)

Module Budget.
Import Py.

Definition BUDGET_UPPER_REVISION_PLUS_ZOHAI : Z := 1500000.
Definition BUDGET_RYOKO : Z := 1500000.
Definition BUDGET_BUSINESS_ALLIANCE : Z := 1000000.
Definition BUDGET_CAPITAL_ALLIANCE : Z := 1000000.
Definition BUDGET_SELF_STOCK : Z := 500000.
Definition BUDGET_NEW_YUTAI : Z := 1000000.
Definition BUDGET_UPPER_REVISION : Z := 1000000.
Definition BUDGET_KANSEI : Z := 1000000.
Definition BUDGET_SAITAKU : Z := 1000000.
Definition BUDGET_SELF_STOCK_CANCEL : Z := 1250000.
Definition BUDGET_SELF_STOCK_ACQUIRE_AND_CANCEL : Z := 1500000.

(** [market_cap >= c] for an integer literal [c]. *)
Definition cap_ge (market_cap : Q) (c : Z) : bool := Qle_bool (inject_Z c) market_cap.

(** [get_budget_multiplier]: the executed cascade (the docstring and the
    commented-out table of the source list other values). *)
Definition get_budget_multiplier (market_cap : Q) : Q :=
  if cap_ge market_cap 10000000000000 then 6 # 1
  else if cap_ge market_cap 9000000000000 then 5 # 1
  else if cap_ge market_cap 8000000000000 then 5 # 1
  else if cap_ge market_cap 7000000000000 then 5 # 1
  else if cap_ge market_cap 6000000000000 then 4 # 1
  else if cap_ge market_cap 5000000000000 then 4 # 1
  else if cap_ge market_cap 4000000000000 then 4 # 1
  else if cap_ge market_cap 3000000000000 then 3 # 1
  else if cap_ge market_cap 2000000000000 then 3 # 1
  else if cap_ge market_cap 1000000000000 then 3 # 1
  else if cap_ge market_cap 900000000000 then 8 # 10
  else if cap_ge market_cap 800000000000 then 7 # 10
  else if cap_ge market_cap 700000000000 then 6 # 10
  else if cap_ge market_cap 600000000000 then 5 # 10
  else if cap_ge market_cap 500000000000 then 4 # 10
  else if cap_ge market_cap 400000000000 then 3 # 10
  else if cap_ge market_cap 300000000000 then 25 # 100
  else if cap_ge market_cap 200000000000 then 25 # 100
  else if cap_ge market_cap 100000000000 then 25 # 100
  else if cap_ge market_cap 60000000000 then 25 # 100
  else if cap_ge market_cap 30000000000 then 25 # 100
  else if cap_ge market_cap 15000000000 then 25 # 100
  else 2 # 10.

(** A step table read from the top: the first threshold that the argument
    reaches gives the value, [low] is the value below all thresholds. *)
Fixpoint cascade (table : list (Z * Q)) (low : Q) (x : Q) : Q :=
  match table with
  | [] => low
  | (c, v) :: rest => if cap_ge x c then v else cascade rest low x
  end.

(** Every value of the table, and [low], is at most [v]. *)
Definition all_below (v : Q) (table : list (Z * Q)) (low : Q) : bool :=
  forallb (fun cv => Qle_bool cv.2 v) table && Qle_bool low v.

(** From the top of the table down, the values do not increase. *)
Fixpoint descending (table : list (Z * Q)) (low : Q) : bool :=
  match table with
  | [] => true
  | (c, v) :: rest => all_below v rest low && descending rest low
  end.

(** The bands of [get_budget_multiplier], from the top. *)
Definition multiplier_table : list (Z * Q) :=
  [(10000000000000, 6 # 1); (9000000000000, 5 # 1); (8000000000000, 5 # 1);
   (7000000000000, 5 # 1); (6000000000000, 4 # 1); (5000000000000, 4 # 1);
   (4000000000000, 4 # 1); (3000000000000, 3 # 1); (2000000000000, 3 # 1);
   (1000000000000, 3 # 1); (900000000000, 8 # 10); (800000000000, 7 # 10);
   (700000000000, 6 # 10); (600000000000, 5 # 10); (500000000000, 4 # 10);
   (400000000000, 3 # 10); (300000000000, 25 # 100); (200000000000, 25 # 100);
   (100000000000, 25 # 100); (60000000000, 25 # 100); (30000000000, 25 # 100);
   (15000000000, 25 # 100)].

(** The result of [decide_order_plan]: [(qty, reason, budget_label)]. *)
Definition plan : Type := Z * string * string.

(** The body shared by the eleven matched arms of [decide_order_plan], from
    the comparison with [adjusted_budget] on.  The arms differ in the budget,
    the label, the text [head] that opens the reason and the wording
    [mid ... tail] of the reason of the zero-lot return. *)
Definition arm_plan (adjusted_budget : Z) (budget_label head mid tail : string)
    (cost_per_100 : Z) : result plan :=
  if adjusted_budget <? cost_per_100 then
    Ok (100, head +:+ " => 上限" +:+ pretty adjusted_budget +:+ "円超 => 1単元のみ",
        budget_label)
  else
    match floordiv adjusted_budget cost_per_100 with
    | Raise e => Raise e
    | Ok lots =>
        if lots <=? 0 then
          Ok (0, head +:+ mid +:+ pretty adjusted_budget +:+ tail, budget_label)
        else
          Ok (lots * 100,
              head +:+ " => 合計 " +:+ pretty lots +:+ "単元 (adjusted_budget="
                   +:+ pretty adjusted_budget +:+ ")",
              budget_label)
    end.

(** A matched arm: [adjusted_budget = int(base_budget * factor)], then the
    body above. *)
Definition tier_arm (base_budget : Z) (budget_label head mid tail : string)
    (cost_per_100 : Z) (factor : Q) : result plan :=
  let adjusted_budget := int (fmul (inject_Z base_budget) factor) in
  arm_plan adjusted_budget budget_label head mid tail cost_per_100.

Definition self_stock_words : list string :=
  ["自己株式取得"; "自己株式の取得"; "自己株式の買"; "自己投資口"].

(** [decide_order_plan(title_text, cost_per_100, factor)]. *)
Definition decide_order_plan (title_text : string) (cost_per_100 : Z) (factor : Q)
    : result plan :=
  let text := title_text in
  if contains "消却" text && any_in self_stock_words text then
    tier_arm BUDGET_SELF_STOCK_ACQUIRE_AND_CANCEL "自己株式取得 + 消却"
      "自己株式取得 + 消却" " => 調整後上限" "円以内で買えない => 発注なし"
      cost_per_100 factor
  else if contains "自己株式の消却" text then
    tier_arm BUDGET_SELF_STOCK_CANCEL "自己株式の消却"
      "自己株式の消却" " => 調整後上限" "円以内で買えない => 発注なし"
      cost_per_100 factor
  else if any_in self_stock_words text then
    tier_arm BUDGET_SELF_STOCK "自己株式取得系"
      "自己株式取得系" " => 調整後の上限" "円以内=>発注なし"
      cost_per_100 factor
  else if contains "上方" text && contains "増配" text then
    tier_arm BUDGET_UPPER_REVISION_PLUS_ZOHAI "上方修正 + 増配"
      "上方+増配" " => 調整後の上限" "円以内で買えない => 発注なし"
      cost_per_100 factor
  else if contains "良好" text then
    tier_arm BUDGET_RYOKO "良好"
      "良好" " => 調整後の上限" "円以内で買えない => 発注なし"
      cost_per_100 factor
  else if contains "株主優待" text
          && (contains "新設" text || contains "導入" text || contains "再開" text) then
    tier_arm BUDGET_NEW_YUTAI "優待(新設/導入/再開)"
      "優待(新設/導入/再開)" " => 調整後の上限" "円以内=>発注なし"
      cost_per_100 factor
  else if contains "業務提携" text then
    tier_arm BUDGET_BUSINESS_ALLIANCE "業務提携"
      "業務提携" " => 上限" "円以内=>発注なし"
      cost_per_100 factor
  else if contains "資本提携" text then
    tier_arm BUDGET_CAPITAL_ALLIANCE "資本提携"
      "資本提携" " => 調整後の上限" "円以内=>発注なし"
      cost_per_100 factor
  else if contains "完成" text then
    tier_arm BUDGET_KANSEI "完成"
      "完成" " => 調整後の上限" "円以内=>発注なし"
      cost_per_100 factor
  else if contains "採択" text then
    tier_arm BUDGET_SAITAKU "採択"
      "採択" " => 調整後の上限" "円以内=>発注なし"
      cost_per_100 factor
  else if contains "上方" text then
    tier_arm BUDGET_UPPER_REVISION "上方修正(単独)"
      "上方単独" " => 調整後の上限" "円以内=>発注なし"
      cost_per_100 factor
  else
    Ok (0, "ポジティブ条件該当なし => 発注なし", "未該当").

(** The budget tier that a headline matches, if any: the conditions of
    [decide_order_plan] in its order, each with the base budget of its arm. *)
Definition matched_base_budget (title_text : string) : option Z :=
  let text := title_text in
  if contains "消却" text && any_in self_stock_words text then
    Some BUDGET_SELF_STOCK_ACQUIRE_AND_CANCEL
  else if contains "自己株式の消却" text then Some BUDGET_SELF_STOCK_CANCEL
  else if any_in self_stock_words text then Some BUDGET_SELF_STOCK
  else if contains "上方" text && contains "増配" text then
    Some BUDGET_UPPER_REVISION_PLUS_ZOHAI
  else if contains "良好" text then Some BUDGET_RYOKO
  else if contains "株主優待" text
          && (contains "新設" text || contains "導入" text || contains "再開" text) then
    Some BUDGET_NEW_YUTAI
  else if contains "業務提携" text then Some BUDGET_BUSINESS_ALLIANCE
  else if contains "資本提携" text then Some BUDGET_CAPITAL_ALLIANCE
  else if contains "完成" text then Some BUDGET_KANSEI
  else if contains "採択" text then Some BUDGET_SAITAKU
  else if contains "上方" text then Some BUDGET_UPPER_REVISION
  else None.

(** [calc_material_multiplier(title_text)]. *)
Definition calc_material_multiplier (title_text : string) : Q :=
  let text := title_text in
  let multiplier := 1%Q in
  if contains "上方" text && contains "増配" text then (multiplier * (103 # 100))%Q
  else if contains "良好" text then (multiplier * (103 # 100))%Q
  else if contains "業務提携" text then (multiplier * (103 # 100))%Q
  else if contains "資本提携" text then (multiplier * (103 # 100))%Q
  else if contains "完成" text then (multiplier * (103 # 100))%Q
  else if contains "採択" text then (multiplier * (103 # 100))%Q
  else multiplier.

End Budget.

(** ** Dates, times and their text forms ([datetime], [str]) *)

Module Clock.

(** A naive [datetime.datetime]. *)
Record datetime := {
  year : Z; month : Z; day : Z;
  hour : Z; minute : Z; second : Z; microsecond : Z
}.

Definition is_leap (y : Z) : bool :=
  (y mod 4 =? 0) && (negb (y mod 100 =? 0) || (y mod 400 =? 0)).

Definition days_in_month (y m : Z) : Z :=
  if m =? 2 then (if is_leap y then 29 else 28)
  else if (m =? 4) || (m =? 6) || (m =? 9) || (m =? 11) then 30
  else 31.

Definition days_before_year (y : Z) : Z :=
  let y := y - 1 in y * 365 + y / 4 - y / 100 + y / 400.

Definition days_before_month (y m : Z) : Z :=
  fold_right Z.add 0
    (map (days_in_month y) (map Z.of_nat (seq 1 (Z.to_nat (m - 1))))).

(** The proleptic Gregorian ordinal of a date. *)
Definition ymd2ord (y m d : Z) : Z :=
  days_before_year y + days_before_month y m + d.

(** [datetime.datetime(y, mo, d, h, mi)]; [None] stands for [ValueError]. *)
Definition make (y mo d h mi : Z) : option datetime :=
  if (1 <=? y) && (y <=? 9999) && (1 <=? mo) && (mo <=? 12)
     && (1 <=? d) && (d <=? days_in_month y mo)
     && (0 <=? h) && (h <=? 23) && (0 <=? mi) && (mi <=? 59)
  then Some {| year := y; month := mo; day := d; hour := h; minute := mi;
               second := 0; microsecond := 0 |}
  else None.

(** Microseconds since the start of the proleptic calendar. *)
Definition to_microseconds (t : datetime) : Z :=
  ((ymd2ord (year t) (month t) (day t) * 86400
    + hour t * 3600 + minute t * 60 + second t) * 1000000)
  + microsecond t.

(** [(a - b).total_seconds()], as an exact rational. *)
Definition diff_seconds (a b : datetime) : Q :=
  (to_microseconds a - to_microseconds b) # 1000000.

(** Decimal text of a non-negative number, zero-padded to [width]. *)
Definition pad (width : nat) (z : Z) : string :=
  let s := pretty z in
  String.concat "" (replicate (width - String.length s) "0") +:+ s.

(** [str(t.date())], as in [str(datetime.date.today())]: YYYY-MM-DD. *)
Definition str_date (t : datetime) : string :=
  pad 4 (year t) +:+ "-" +:+ pad 2 (month t) +:+ "-" +:+ pad 2 (day t).

(** [t.strftime("%Y-%m-%d %H:%M:%S")] (years of four digits). *)
Definition strftime_seconds (t : datetime) : string :=
  str_date t +:+ " " +:+ pad 2 (hour t) +:+ ":" +:+ pad 2 (minute t)
             +:+ ":" +:+ pad 2 (second t).

(** [t.strftime("%Y/%m/%d")]. *)
Definition strftime_slashes (t : datetime) : string :=
  pad 4 (year t) +:+ "/" +:+ pad 2 (month t) +:+ "/" +:+ pad 2 (day t).

(** [s.split(sep)] for a separator of one character. *)
Fixpoint split (sep : ascii) (s : string) : list string :=
  match s with
  | EmptyString => [EmptyString]
  | String c rest =>
      if Ascii.eqb c sep then EmptyString :: split sep rest
      else match split sep rest with
           | [] => [String c EmptyString]
           | w :: ws => String c w :: ws
           end
  end.

(** The ASCII characters that [int(s)] strips from both ends of [s]. *)
Definition is_space (c : ascii) : bool :=
  let n := N_of_ascii c in
  ((9 <=? n) && (n <=? 13) || (28 <=? n) && (n <=? 32))%N.

Definition digit_of (c : ascii) : option Z :=
  let n := N_of_ascii c in
  if ((48 <=? n) && (n <=? 57))%N then Some (Z.of_N n - 48) else None.

Fixpoint lstrip (s : string) : string :=
  match s with
  | String c rest => if is_space c then lstrip rest else s
  | EmptyString => s
  end.

Definition strip (s : string) : string :=
  String.rev (lstrip (String.rev (lstrip s))).

(** The digits of a decimal literal, read left to right; one underscore is
    allowed between two digits.  [after_digit] says whether the previous
    character was a digit, [acc] is the value read so far. *)
Fixpoint digits (s : string) (after_digit : bool) (acc : Z) : option Z :=
  match s with
  | EmptyString => if after_digit then Some acc else None
  | String c rest =>
      match digit_of c with
      | Some d => digits rest true (acc * 10 + d)
      | None =>
          if Ascii.eqb c "_" && after_digit then digits rest false acc
          else None
      end
  end.

(** [int(s)] for an ASCII string [s]; [None] stands for [ValueError]. *)
Definition int_of_str (s : string) : option Z :=
  match strip s with
  | String "+" rest => digits rest false 0
  | String "-" rest => Z.opp <$> digits rest false 0
  | t => digits t false 0
  end.

End Clock.

(** ** Files shared by the controllers *)

Module Disk.

(** One row of [purchased_log.csv], as [log_purchased_orders] writes it:
    time, symbol, budget label, headline, reason, limit price, quantity,
    total cost, market capitalization. *)
Record purchased_row := {
  row_time : string;
  row_symbol : string;
  row_budget_label : string;
  row_title_text : string;
  row_reason : string;
  row_limit_price : Z;
  row_qty : Z;
  row_total_cost : Z;
  row_market_cap : Q
}.

(** The files: [processed_orders.json], a mapping from a date to the list of
    symbols recorded on it, and the rows of [purchased_log.csv]. *)
Record t := {
  processed_orders : gmap string (list string);
  purchased_log : list purchased_row
}.

Definition empty : t := {| processed_orders := ∅; purchased_log := [] |}.

End Disk.

(** ** Entry controller ([buy_main.py]) *)

Module Entry.
Import Py.

Record disclosure := {
  symbol : string;
  company_name : string;
  title_text : string;
  time_text : string
}.

(** [parse_announcement_datetime(time_text)]; [now] is the clock reading of
    its first line.  Every exception is swallowed into [None].  The text is
    ASCII, as the disclosure page gives it, so that its length in bytes is
    its [len]. *)
Definition parse_announcement_datetime (now : Clock.datetime) (time_text : string)
    : option Clock.datetime :=
  if (String.length time_text <=? 5)%nat && contains ":" time_text then
    match Clock.int_of_str <$> Clock.split ":" time_text with
    | [Some hour; Some minute] =>
        Clock.make (Clock.year now) (Clock.month now) (Clock.day now) hour minute
    | _ => None
    end
  else if (16 <=? String.length time_text)%nat
          && contains "/" time_text && contains ":" time_text then
    match Clock.split " " time_text with
    | [date_part; hm_part] =>
        match Clock.int_of_str <$> Clock.split "/" date_part,
              Clock.int_of_str <$> Clock.split ":" hm_part with
        | [Some y; Some mo; Some d], [Some hour; Some minute] =>
            Clock.make y mo d hour minute
        | _, _ => None
        end
    | _ => None
    end
  else None.

(** [is_within_10_seconds_of_now(announcement_dt)]: the window is 25 s. *)
Definition is_within_10_seconds_of_now (now : Clock.datetime)
    (announcement_dt : option Clock.datetime) : bool :=
  match announcement_dt with
  | None => false
  | Some dt =>
      let diff_seconds := Clock.diff_seconds now dt in
      Qle_bool 0 diff_seconds && Qle_bool diff_seconds 25
  end.

(** The fields of the order object of [send_buy_order] that vary. *)
Record buy_order := {
  bo_Symbol : string;
  bo_Price : Z;
  bo_Qty : Z
}.

(** [send_buy_order(symbol, limit_price, qty)]: the order posted to the
    broker.  A failed request is caught and printed inside the function. *)
Definition send_buy_order (symbol : string) (limit_price : Q) (qty : Z) : buy_order :=
  {| bo_Symbol := symbol;
     bo_Price := Tick.send_buy_order_price limit_price;
     bo_Qty := qty |}.

(** An element of [purchased_orders]. *)
Record purchased := {
  p_symbol : string;
  p_title_text : string;
  p_budget_label : string;
  p_limit_price : Z;
  p_qty : Z;
  p_total_cost : Z;
  p_reason : string;
  p_market_cap : Q
}.

(** What the outside answers while one disclosure is processed: the clock,
    [get_current_price] ([None] when the quote is absent or the request
    failed) and the ["TotalMarketValue"] of [get_symbol_info] ([None] when
    the key is absent, as in the empty dict of a failed request).  The clock
    is read once per disclosure. *)
Record observation := {
  now : Clock.datetime;
  current_price : option Q;
  total_market_value : option Q
}.

(** The memory of one process: the module-level set [ordered_symbols]. *)
Record process := { ordered_symbols : gset string }.

Definition fresh_process : process := {| ordered_symbols := ∅ |}.

(** The state of one call of [main_prod]. *)
Record cycle_state := {
  proc : process;
  purchased_orders : list purchased;
  sent : list buy_order
}.

(** The body of the loop [for info in disclosures] of [main_prod]. *)
Definition main_prod_body (obs : observation) (info : disclosure) (st : cycle_state)
    : result cycle_state :=
  let symbol := symbol info in
  let title_text := title_text info in
  let time_text := time_text info in
  if bool_decide (symbol ∈ ordered_symbols (proc st)) then Ok st
  else
    let ann_dt := parse_announcement_datetime (now obs) time_text in
    if negb (is_within_10_seconds_of_now (now obs) ann_dt) then Ok st
    else
      match current_price obs with
      | None => Ok st
      | Some current_price =>
          if Qle_bool current_price 0 then Ok st
          else
            let market_cap := default 0%Q (total_market_value obs) in
            let raw_limit_price :=
              if Budget.cap_ge market_cap 30000000000
              then (current_price * (101 # 100))%Q
              else (current_price * (98 # 100))%Q in
            let material_factor := Budget.calc_material_multiplier title_text in
            let raw_limit_price := (raw_limit_price * material_factor)%Q in
            let limit_price := round raw_limit_price in
            let factor := Budget.get_budget_multiplier market_cap in
            let cost_per_100 := limit_price * 100 in
            match Budget.decide_order_plan title_text cost_per_100 factor with
            | Raise e => Raise e
            | Ok (qty, reason, budget_label) =>
                if qty <=? 0 then Ok st
                else
                  let total_cost := limit_price * qty in
                  Ok {| proc := {| ordered_symbols :=
                                     {[symbol]} ∪ ordered_symbols (proc st) |};
                        purchased_orders :=
                          purchased_orders st ++
                          [{| p_symbol := symbol; p_title_text := title_text;
                              p_budget_label := budget_label;
                              p_limit_price := limit_price; p_qty := qty;
                              p_total_cost := total_cost; p_reason := reason;
                              p_market_cap := market_cap |}];
                        sent := sent st ++
                                [send_buy_order symbol (inject_Z limit_price) qty] |}
            end
      end.

(** The loop of [main_prod] from its [i]-th disclosure on.  An exception
    leaves the loop; what was sent before stands. *)
Fixpoint main_prod_loop (obs : nat -> observation) (i : nat)
    (disclosures : list disclosure) (st : cycle_state) : cycle_state * option exn :=
  match disclosures with
  | [] => (st, None)
  | info :: rest =>
      match main_prod_body (obs i) info st with
      | Ok st' => main_prod_loop obs (S i) rest st'
      | Raise e => (st, Some e)
      end
  end.

(** The end of [scrape_tdnet_self_stock_acquisition]: of the rows collected
    from the page, the first one of each symbol is kept ([unique_map]). *)
Fixpoint unique_by_symbol (seen : gset string) (target_disclosures : list disclosure)
    : list disclosure :=
  match target_disclosures with
  | [] => []
  | d :: rest =>
      if bool_decide (symbol d ∈ seen) then unique_by_symbol seen rest
      else d :: unique_by_symbol ({[symbol d]} ∪ seen) rest
  end.

(** [log_purchased_orders(purchased_list)] at clock reading [now]. *)
Definition log_purchased_orders (now : Clock.datetime) (purchased_list : list purchased)
    (disk : Disk.t) : Disk.t :=
  let now_str := Clock.strftime_seconds now in
  {| Disk.processed_orders := Disk.processed_orders disk;
     Disk.purchased_log :=
       Disk.purchased_log disk ++
       map (fun info =>
              {| Disk.row_time := now_str;
                 Disk.row_symbol := p_symbol info;
                 Disk.row_budget_label := p_budget_label info;
                 Disk.row_title_text := p_title_text info;
                 Disk.row_reason := p_reason info;
                 Disk.row_limit_price := p_limit_price info;
                 Disk.row_qty := p_qty info;
                 Disk.row_total_cost := p_total_cost info;
                 Disk.row_market_cap := p_market_cap info |})
           purchased_list |}.

(** What the outside gives to one cycle: the rows that
    [process_disclosure_page] collects, the answers per disclosure, the clock
    when the purchase log is written, and whether the 40 s deadline of
    [run_with_timeout] falls inside the cycle ([Some k]: the child is
    terminated when [k] disclosures have been processed). *)
Record cycle_world := {
  page_rows : list disclosure;
  observe : nat -> observation;
  log_time : Clock.datetime;
  deadline : option nat
}.

(** The outcome of a cycle: the process memory at its end, the files, the
    orders posted and the exception that ended it, if any. *)
Record outcome := {
  out_proc : process;
  out_disk : Disk.t;
  out_sent : list buy_order;
  out_exn : option exn
}.

(** [main_prod()] in a process whose memory is [p]. *)
Definition main_prod (w : cycle_world) (p : process) (disk : Disk.t) : outcome :=
  let disclosures := unique_by_symbol ∅ (page_rows w) in
  let start := {| proc := p; purchased_orders := []; sent := [] |} in
  match deadline w with
  | Some k =>
      let '(st, e) := main_prod_loop (observe w) 0 (take k disclosures) start in
      {| out_proc := proc st; out_disk := disk; out_sent := sent st; out_exn := e |}
  | None =>
      match main_prod_loop (observe w) 0 disclosures start with
      | (st, None) =>
          {| out_proc := proc st;
             out_disk := log_purchased_orders (log_time w) (purchased_orders st) disk;
             out_sent := sent st; out_exn := None |}
      | (st, Some e) =>
          {| out_proc := proc st; out_disk := disk; out_sent := sent st;
             out_exn := Some e |}
      end
  end.

Definition main_logic := main_prod.

(** [run_with_timeout()] in the scheduling process, whose memory is [parent].
    [main_logic] runs in a child process ([multiprocessing.Process]): the
    child starts from the parent's memory and its own memory is gone when it
    ends; the files and the orders posted remain.  The result is the parent's
    memory, the files, the orders of the cycle and the returned flag. *)
Definition run_with_timeout (w : cycle_world) (parent : process) (disk : Disk.t)
    : process * Disk.t * list buy_order * bool :=
  let child := main_logic w parent disk in
  let finished := match deadline w with Some _ => false | None => true end in
  (parent, out_disk child, out_sent child, finished).

(** The scheduling loop of the script, for the cycles of [ws] in turn: every
    order posted during the run, in order, and the files at the end. *)
Fixpoint run (ws : list cycle_world) (parent : process) (disk : Disk.t)
    : list buy_order * Disk.t :=
  match ws with
  | [] => ([], disk)
  | w :: rest =>
      let '(parent', disk', orders, _) := run_with_timeout w parent disk in
      let '(later, disk'') := run rest parent' disk' in
      (orders ++ later, disk'')
  end.

(** The orders of a list that are for [sym]. *)
Definition orders_for (sym : string) (l : list buy_order) : list buy_order :=
  filter (fun o => bo_Symbol o = sym) l.

(** The symbols of the orders sent are in [ordered_symbols], each once. *)
Definition sent_once (st : cycle_state) : Prop :=
  NoDup (bo_Symbol <$> sent st) /\
  forall o, o ∈ sent st -> bo_Symbol o ∈ ordered_symbols (proc st).

End Entry.

(** ** Broker records read by the exit and stop-loss controllers *)

Module Broker.

(** One element of ["Details"] of an order.  The price and the quantity are
    the fields that the code tests against [None]. *)
Record detail := {
  RecType : Z;
  Price : option Q;
  Qty : option Q
}.

(** One element of the answer of [get_orders()], with the fields that the
    controllers read; the broker fills them all. *)
Record order := {
  ID : string;
  Side : string;
  State : Z;
  CumQty : Q;
  OrderQty : Q;
  Symbol : string;
  Details : list detail
}.

(** One element of the answer of [get_positions()].  The symbol and the two
    prices are the fields that the code tests for absence. *)
Record position := {
  pos_Symbol : option string;
  pos_Side : string;
  pos_Price : option Q;
  pos_CurrentPrice : option Q
}.

End Broker.

(** ** Exit controller ([sell_main.py]) *)

Module Exit.
Import Py Broker.

Definition LABEL_RATIO_MAP : gmap string Q :=
  list_to_map
    [("上方修正 + 増配", 102 # 100);
     ("自己株式取得 + 消却", 1015 # 1000);
     ("自己株式の消却", 100 # 100);
     ("良好", 103 # 100);
     ("業務提携", 101 # 100);
     ("資本提携", 101 # 100);
     ("優待(新設/導入/再開)", 102 # 100);
     ("自己株式取得系", 101 # 100);
     ("上方修正(単独)", 101 # 100);
     ("完成", 103 # 100);
     ("採択", 103 # 100)].

(** [get_additional_ratio_for_label(label)]. *)
Definition get_additional_ratio_for_label (label : string) : Q :=
  default 1%Q (LABEL_RATIO_MAP !! label).

(** [load_processed_symbols_for_today()] when [str(date.today())] is
    [today_str]. *)
Definition load_processed_symbols_for_today (today_str : string) (disk : Disk.t)
    : gset string :=
  let data := Disk.processed_orders disk in
  let symbols_today := default [] (data !! today_str) in
  list_to_set symbols_today.

(** [save_processed_symbol_for_today(symbol)] when [str(date.today())] is
    [today_str]. *)
Definition save_processed_symbol_for_today (today_str : string) (symbol : string)
    (disk : Disk.t) : Disk.t :=
  let data := Disk.processed_orders disk in
  let data :=
    match data !! today_str with
    | None => <[today_str := []]> data
    | Some _ => data
    end in
  let today_list := default [] (data !! today_str) in
  let data :=
    if bool_decide (symbol ∈ today_list) then data
    else <[today_str := today_list ++ [symbol]]> data in
  {| Disk.processed_orders := data; Disk.purchased_log := Disk.purchased_log disk |}.

(** [load_purchased_info_for_today()] when [str(date.today())] is
    [today_str]: a later row of a symbol replaces an earlier one. *)
Definition load_purchased_info_for_today (today_str : string) (disk : Disk.t)
    : gmap string string :=
  fold_left
    (fun symbol_to_label row =>
       let dt_str := Disk.row_time row in
       if (10 <=? String.length dt_str)%nat then
         let date_part := String.substring 0 10 dt_str in
         if bool_decide (date_part = today_str)
         then <[Disk.row_symbol row := Disk.row_budget_label row]> symbol_to_label
         else symbol_to_label
       else symbol_to_label)
    (Disk.purchased_log disk) ∅.

(** The fields of the order object of [send_cash_sell_order] that vary. *)
Record sell_order := {
  so_Symbol : string;
  so_Qty : Z;
  so_Price : Z
}.

(** The variables of [main] that live across iterations, with the files and
    the sell orders posted so far. *)
Record state := {
  current_date : string;
  processed_symbols_today : gset string;
  processed_order_ids : gset string;
  disk : Disk.t;
  sent : list sell_order
}.

(** The sums of the loop [for d in details]: [(total_price, total_fill_qty)]. *)
Definition fill_totals (details : list detail) : Q * Q :=
  fold_left
    (fun '(total_price, total_fill_qty) d =>
       match Price d, Qty d with
       | Some exec_price, Some exec_qty =>
           if RecType d =? 8
           then ((total_price + exec_price * exec_qty)%Q,
                 (total_fill_qty + exec_qty)%Q)
           else (total_price, total_fill_qty)
       | _, _ => (total_price, total_fill_qty)
       end)
    details (0%Q, 0%Q).

(** The price before the final rounding ([tmp_price]) for an average fill
    price and the label recorded at purchase, if any. *)
Definition tmp_price (avg_fill_price : Q) (budget_label : option string) : Q :=
  let ratio := (103 # 100)%Q in
  let ratio :=
    match budget_label with
    | Some label =>
        if bool_decide (label = "") then ratio
        else (ratio * get_additional_ratio_for_label label)%Q
    | None => ratio
    end in
  (avg_fill_price * ratio)%Q.

(** The body of the loop [for order in orders] of [main]. *)
Definition main_body (today_str : string) (purchased_labels_today : gmap string string)
    (order : order) (st : state) : state :=
  let order_id := ID order in
  let cum_qty := CumQty order in
  let symbol := Symbol order in
  if bool_decide (Side order = "2") && (State order =? 5)
     && Qeq_bool cum_qty (OrderQty order) then
    if bool_decide (order_id ∈ processed_order_ids st) then st
    else
      let '(total_price, total_fill_qty) := fill_totals (Details order) in
      if Qeq_bool total_fill_qty 0 then st
      else
        let avg_fill_price := (total_price / total_fill_qty)%Q in
        let budget_label := purchased_labels_today !! symbol in
        let limit_price :=
          Tick.round_sell_price_for_rules (tmp_price avg_fill_price budget_label) in
        let qty_to_sell := int cum_qty in
        {| current_date := current_date st;
           processed_symbols_today := {[symbol]} ∪ processed_symbols_today st;
           processed_order_ids := {[order_id]} ∪ processed_order_ids st;
           disk := save_processed_symbol_for_today today_str symbol (disk st);
           sent := sent st ++ [{| so_Symbol := symbol; so_Qty := qty_to_sell;
                                  so_Price := limit_price |}] |}
  else st.

(** The start of [main], before its loop. *)
Definition main_start (today_str : string) (disk : Disk.t) : state :=
  {| current_date := today_str;
     processed_symbols_today := load_processed_symbols_for_today today_str disk;
     processed_order_ids := ∅;
     disk := disk;
     sent := [] |}.

(** One iteration of [while True] of [main], when [str(date.today())] is
    [today_str] throughout it and [get_orders()] answers [orders]. *)
Definition main_iteration (today_str : string) (orders : list order) (st : state)
    : state :=
  let purchased_labels_today := load_purchased_info_for_today today_str (disk st) in
  let st :=
    if bool_decide (today_str ≠ current_date st) then
      {| current_date := today_str;
         processed_symbols_today := load_processed_symbols_for_today today_str (disk st);
         processed_order_ids := ∅;
         disk := disk st;
         sent := sent st |}
    else st in
  fold_left (fun st order => main_body today_str purchased_labels_today order st)
            orders st.

(** Two states of [main] that differ at most in the ledger of symbols: in
    [processed_symbols_today] and in the file [processed_orders.json]. *)
Definition same_but_ledger (st1 st2 : state) : Prop :=
  current_date st1 = current_date st2 /\
  processed_order_ids st1 = processed_order_ids st2 /\
  Disk.purchased_log (disk st1) = Disk.purchased_log (disk st2) /\
  sent st1 = sent st2.

End Exit.

(** ** Stop-loss controller ([losscut.py]) *)

Module Losscut.
Import Py Broker.

(** What the controller asks of the outside, in order.  Printing and the
    order log are left out. *)
Inductive action :=
| cancel_order (order_id : string)
| sleep (seconds : Z)
| send_order (symbol : string) (qty : Z) (price : Z).

(** A value of [position_dict]. *)
Record pos_info := {
  buy_price : Q;
  current_price : Q;
  side : string
}.

(** The loop [for pos in positions_data]: a later position of a symbol
    replaces an earlier one; the two prices are stored as floats. *)
Definition build_position_dict (positions_data : list position)
    : gmap string pos_info :=
  fold_left
    (fun position_dict pos =>
       match pos_Symbol pos, pos_Price pos, pos_CurrentPrice pos with
       | Some symbol, Some buy_price, Some curr_price =>
           if bool_decide (symbol = "") then position_dict
           else <[symbol := {| buy_price := float buy_price;
                               current_price := float curr_price;
                               side := pos_Side pos |}]> position_dict
       | _, _, _ => position_dict
       end)
    positions_data ∅.

(** [send_cash_sell_order(symbol, qty, price)]: the pause, then the order. *)
Definition send_cash_sell_order (symbol : string) (qty price : Z) : list action :=
  [sleep 1; send_order symbol qty price].

(** The body of the loop [for od in orders] of [main]. *)
Definition main_body (position_dict : gmap string pos_info) (od : order)
    : list action :=
  let order_id := ID od in
  let cum_qty := CumQty od in
  let order_qty := OrderQty od in
  let symbol := Symbol od in
  if bool_decide (Side od = "1") then
    if negb (State od =? 5) || negb (Qle_bool order_qty cum_qty) then
      match position_dict !! symbol with
      | None => []
      | Some pos_info =>
          let buy_price := buy_price pos_info in
          let current_price := current_price pos_info in
          let threshold := fmul buy_price (97 # 100) in
          if Qle_bool current_price threshold then
            let new_sell_price :=
              Tick.adjust_price_to_tick (fmul buy_price (95 # 100)) in
            let remain_qty := int (order_qty - cum_qty)%Q in
            [cancel_order order_id] ++
            (if 0 <? remain_qty
             then send_cash_sell_order symbol remain_qty new_sell_price
             else [])
          else []
      end
    else []
  else [].

(** One iteration of [while True] of [main], inside its [try]. *)
Definition main_iteration (positions_data : list position) (orders : list order)
    : list action :=
  let position_dict := build_position_dict positions_data in
  flat_map (main_body position_dict) orders ++ [sleep 2].

End Losscut.

(** ** IEEE binary64, for checking concrete computations *)

Module Binary64.

(** The rational that a float denotes; [None] for an infinity or a NaN. *)
Definition to_Q (x : float) : option Q :=
  match Prim2SF x with
  | S754_zero _ => Some 0%Q
  | S754_finite s m e =>
      let n := if s then Z.neg m else Z.pos m in
      Some (if 0 <=? e then inject_Z (n * 2 ^ e)
            else n # Pos.pow 2 (Z.to_pos (- e)))
  | S754_infinity _ | S754_nan => None
  end.

(** [int(x)] and [round(x)] of a float, through the rational it denotes. *)
Definition int (x : float) : option Z := Py.int <$> to_Q x.
Definition round (x : float) : option Z := Py.round <$> to_Q x.

(** The float of an integer below 2^53. *)
Definition of_Z (n : Z) : float := PrimFloat.of_uint63 (Uint63.of_Z n).

(** The float [x] is finite and denotes the rational [q]. *)
Definition denotes (q : Q) (x : float) : bool :=
  match to_Q x with
  | Some v => Qeq_bool q v
  | None => false
  end.

(** Entry prices from 0.1 yen to 5970.1 yen in steps of 30 yen, in tenths
    of a yen. *)
Definition sample_prices : list Z :=
  map (fun i => 1 + 300 * Z.of_nat i) (seq 0 200).

(** For an entry price of [n] tenths of a yen: the two products of the
    stop-loss controller, and its test at a current price of exactly 97% of
    the entry price, are the same in [Py.fmul] and on primitive floats. *)
Definition stop_loss_agrees (n : Z) : bool :=
  let entry := (of_Z n / 10)%float in
  denotes (Py.fmul (Py.float (n # 10)) (97 # 100)) (entry * 0.97)%float
  && denotes (Py.fmul (Py.float (n # 10)) (95 # 100)) (entry * 0.95)%float
  && Bool.eqb (Qle_bool (Py.float (97 * n # 1000))
                        (Py.fmul (Py.float (n # 10)) (97 # 100)))
              (of_Z (97 * n) / 1000 <=? entry * 0.97)%float.

(** For a base budget and a factor of [k] hundredths: the budget product is
    the same in [Py.fmul] and on primitive floats. *)
Definition budget_agrees (base k : Z) : bool :=
  denotes (Py.fmul (inject_Z base) (k # 100)) (of_Z base * (of_Z k / 100))%float.

End Binary64.

(** ** Concrete runs used below *)

Module Scenario.
Import Clock Entry Broker.

(** A clock reading on 2025-03-03. *)
Definition on_the_day (h mi s us : Z) : datetime :=
  {| year := 2025; month := 3; day := 3;
     hour := h; minute := mi; second := s; microsecond := us |}.

(** Two disclosures of one symbol, a minute apart. *)
Definition alliance : disclosure :=
  {| symbol := "7203"; company_name := "A社";
     title_text := "業務提携に関するお知らせ"; time_text := "09:00" |}.

Definition revision : disclosure :=
  {| symbol := "7203"; company_name := "A社";
     title_text := "業績予想の上方修正に関するお知らせ"; time_text := "09:01" |}.

(** The answers for symbol 7203, 3.5 s after the minute: a quote of 1000 yen
    and the capitalization [cap], if the symbol information has one. *)
Definition seen_at (h mi : Z) (cap : option Q) : observation :=
  {| now := on_the_day h mi 3 500000;
     current_price := Some (1000 # 1);
     total_market_value := cap |}.

Definition cycle_0900 : cycle_world :=
  {| page_rows := [alliance];
     observe := fun _ => seen_at 9 0 (Some (50000000000 # 1));
     log_time := on_the_day 9 0 5 0;
     deadline := None |}.

Definition cycle_0901 : cycle_world :=
  {| page_rows := [revision; alliance];
     observe := fun _ => seen_at 9 1 (Some (50000000000 # 1));
     log_time := on_the_day 9 1 5 0;
     deadline := None |}.

(** A ledger file that records symbol 7203 on 2025-03-03. *)
Definition ledger_with_7203 : Disk.t :=
  {| Disk.processed_orders := {[ "2025-03-03" := ["7203"] ]};
     Disk.purchased_log := [] |}.

(** A disclosure of symbol 6758 in the tier "上方修正 + 増配", with a quote of
    1002 yen and a capitalization of 10e9 yen. *)
Definition revision_and_dividend : disclosure :=
  {| symbol := "6758"; company_name := "B社";
     title_text := "業績予想の上方修正及び増配に関するお知らせ"; time_text := "09:00" |}.

Definition cycle_6758 : cycle_world :=
  {| page_rows := [revision_and_dividend];
     observe := fun _ => {| now := on_the_day 9 0 3 500000;
                            current_price := Some (1002 # 1);
                            total_market_value := Some (10000000000 # 1) |};
     log_time := on_the_day 9 0 5 0;
     deadline := None |}.

(** The buy order of 6758 as the broker lists it once it is filled: 100
    shares at 1000 and 100 shares at 1010, after the records of its receipt
    and placement. *)
Definition filled_buy : order :=
  {| ID := "20250303A02N00000001"; Side := "2"; State := 5;
     CumQty := 200 # 1; OrderQty := 200 # 1; Symbol := "6758";
     Details :=
       [{| RecType := 1; Price := Some (1011 # 1); Qty := Some (200 # 1) |};
        {| RecType := 4; Price := Some (1011 # 1); Qty := Some (200 # 1) |};
        {| RecType := 8; Price := Some (1000 # 1); Qty := Some (100 # 1) |};
        {| RecType := 8; Price := Some (1010 # 1); Qty := Some (100 # 1) |}] |}.

(** The files after the entry cycle for 6758. *)
Definition disk_after_6758 : Disk.t :=
  out_disk (main_prod cycle_6758 fresh_process Disk.empty).

(** A position in 8035 bought at 4000 and now at 3880, and the sell orders
    the broker lists for it: one open for 300 shares of which 100 are sold,
    one finished. *)
Definition falling_position : position :=
  {| pos_Symbol := Some "8035"; pos_Side := "2";
     pos_Price := Some (4000 # 1); pos_CurrentPrice := Some (3880 # 1) |}.

Definition open_sell : order :=
  {| ID := "20250303A02N00000007"; Side := "1"; State := 3;
     CumQty := 100 # 1; OrderQty := 300 # 1; Symbol := "8035"; Details := [] |}.

Definition finished_sell : order :=
  {| ID := "20250303A02N00000005"; Side := "1"; State := 5;
     CumQty := 100 # 1; OrderQty := 100 # 1; Symbol := "8035"; Details := [] |}.

(** A second position in 8035, bought at 3900, listed after the first. *)
Definition later_position : position :=
  {| pos_Symbol := Some "8035"; pos_Side := "2";
     pos_Price := Some (3900 # 1); pos_CurrentPrice := Some (3880 # 1) |}.

(** A position in 8035 bought at 560 and now at 543.2, which is 97% of 560. *)
Definition position_at_97_percent : position :=
  {| pos_Symbol := Some "8035"; pos_Side := "2";
     pos_Price := Some (560 # 1); pos_CurrentPrice := Some (2716 # 5) |}.

End Scenario.

(** ** The disclosure page ([buy_main.py]) *)

Module Page.
Import Py Entry.

(** The keyword lists of [scrape_tdnet_self_stock_acquisition]. *)
Definition include_keywords : list string :=
  ["自己株式取得"; "自己株式の取得"; "自己株式の買"; "自己投資口";
   "増配"; "上方"; "株主優待"; "新設"; "導入"; "再開";
   "業務提携"; "資本提携"; "完成"; "採択"; "良好";
   "消却"; "自己株式の消却"].

Definition exclude_keywords : list string :=
  ["終了"; "結果"; "状況"; "訂正"; "中止"; "無配"; "廃止";
   "下方"; "見送"; "損失"; "業績目標"; "補足"; "減配"; "解消"; "完了"; "一部変更"].

(** [datetime.time(hour, minute)] exists. *)
Definition valid_time (hour minute : Z) : bool :=
  (0 <=? hour) && (hour <=? 23) && (0 <=? minute) && (minute <=? 59).

(** [time(hour, minute)] lies in one of the two sessions, 8:55 to 11:30 and
    12:30 to 15:40, ends included. *)
Definition in_session (hour minute : Z) : bool :=
  let t := hour * 60 + minute in
  ((8 * 60 + 55 <=? t) && (t <=? 11 * 60 + 30))
  || ((12 * 60 + 30 <=? t) && (t <=? 15 * 60 + 40)).

(** [is_market_hours_timestr(time_str)]. *)
Definition is_market_hours_timestr (time_str : string) : bool :=
  if (String.length time_str <? 5)%nat || negb (contains ":" time_str) then false
  else
    match Clock.int_of_str <$> Clock.split ":" time_str with
    | [Some hour; Some minute] =>
        if valid_time hour minute then in_session hour minute else false
    | _ => false
    end.

(** [is_today_announcement(time_text)] at the clock reading [now]. *)
Definition is_today_announcement (now : Clock.datetime) (time_text : string) : bool :=
  let now_date_str := Clock.strftime_slashes now in
  if contains ":" time_text then
    if (String.length time_text <=? 5)%nat then true
    else contains now_date_str time_text
  else false.

(** [s.replace(c, "")] for a character [c]. *)
Fixpoint remove_char (c : ascii) (s : string) : string :=
  match s with
  | EmptyString => EmptyString
  | String a rest =>
      if Ascii.eqb a c then remove_char c rest else String a (remove_char c rest)
  end.

(** The code of a row as [process_disclosure_page] normalizes it. *)
Definition normalize_code (code_text : string) : string :=
  let normalized_code := remove_char "-" (remove_char " " code_text) in
  if (4 <? String.length normalized_code)%nat
  then String.substring 0 4 normalized_code
  else normalized_code.

(** The body of the loop over the rows of the table.  A row is the list of
    the stripped texts of its cells. *)
Definition collect_row (now : Clock.datetime) (include exclude : list string)
    (cols : list string) : option disclosure :=
  match cols with
  | time_text :: code_text :: company_name :: title_text :: _ =>
      if negb (is_today_announcement now time_text) then None
      else if negb (is_market_hours_timestr time_text) then None
      else if any_in exclude title_text then None
      else if any_in include title_text then
        Some {| symbol := normalize_code code_text;
                company_name := company_name;
                title_text := title_text;
                time_text := time_text |}
      else None
  | _ => None
  end.

(** The loop from row [i] on; [clock i] is the clock reading at row [i]. *)
Fixpoint collect_rows (clock : nat -> Clock.datetime) (include exclude : list string)
    (i : nat) (rows : list (list string)) : list disclosure :=
  match rows with
  | [] => []
  | cols :: rest =>
      match collect_row (clock i) include exclude cols with
      | Some d => d :: collect_rows clock include exclude (S i) rest
      | None => collect_rows clock include exclude (S i) rest
      end
  end.

(** The first row looks like a header. *)
Definition maybe_header (first_row : list string) : bool :=
  any_in ["時刻"; "コード"; "会社"; "表題"] (String.concat " " first_row).

(** [process_disclosure_page], from the rows of the table on:
    [target_disclosures] with what the page adds to it. *)
Definition process_disclosure_page (clock : nat -> Clock.datetime)
    (include exclude : list string) (target_disclosures : list disclosure)
    (rows : list (list string)) : list disclosure :=
  match rows with
  | [] => target_disclosures
  | first_row :: _ =>
      let start_index := if maybe_header first_row then 1%nat else 0%nat in
      target_disclosures
      ++ collect_rows clock include exclude start_index (drop start_index rows)
  end.

(** What [scrape_tdnet_self_stock_acquisition] returns for the rows of the
    first page. *)
Definition scrape (clock : nat -> Clock.datetime) (rows : list (list string))
    : list disclosure :=
  unique_by_symbol ∅
    (process_disclosure_page clock include_keywords exclude_keywords [] rows).

End Page.

(** ** The scheduling loop ([buy_main.py]) *)

Module Scheduler.
Import Clock.

(** A reading of the clock: a date that exists, a time of day in range. *)
Definition valid (t : datetime) : bool :=
  (1 <=? year t) && (year t <=? 9999) && (1 <=? month t) && (month t <=? 12)
  && (1 <=? day t) && (day t <=? days_in_month (year t) (month t))
  && (0 <=? hour t) && (hour t <=? 23) && (0 <=? minute t) && (minute t <=? 59)
  && (0 <=? second t) && (second t <=? 59)
  && (0 <=? microsecond t) && (microsecond t <=? 999999).

(** [t + datetime.timedelta(minutes=1)]. *)
Definition plus_one_minute (t : datetime) : datetime :=
  if minute t <? 59 then
    {| year := year t; month := month t; day := day t; hour := hour t;
       minute := minute t + 1; second := second t; microsecond := microsecond t |}
  else if hour t <? 23 then
    {| year := year t; month := month t; day := day t; hour := hour t + 1;
       minute := 0; second := second t; microsecond := microsecond t |}
  else if day t <? days_in_month (year t) (month t) then
    {| year := year t; month := month t; day := day t + 1; hour := 0;
       minute := 0; second := second t; microsecond := microsecond t |}
  else if month t <? 12 then
    {| year := year t; month := month t + 1; day := 1; hour := 0;
       minute := 0; second := second t; microsecond := microsecond t |}
  else
    {| year := year t + 1; month := 1; day := 1; hour := 0;
       minute := 0; second := second t; microsecond := microsecond t |}.

(** [t.replace(second=1, microsecond=500000)]. *)
Definition replace_second (t : datetime) : datetime :=
  {| year := year t; month := month t; day := day t; hour := hour t;
     minute := minute t; second := 1; microsecond := 500000 |}.

(** [next_run] of the loop for the clock reading [now]. *)
Definition next_run (now : datetime) : datetime :=
  replace_second (plus_one_minute now).

(** [wait_seconds] of the loop. *)
Definition wait_seconds (now : datetime) : Q := diff_seconds (next_run now) now.

(** What one turn of the loop does before the cycle, for the reading [now]:
    [None] when it takes the [continue]; otherwise the time it sleeps, if it
    sleeps, and the target until which it polls the clock. *)
Definition turn (now : datetime) : option (option Q * datetime) :=
  let wait := wait_seconds now in
  if Qle_bool wait 0 then None
  else Some (if Qle_bool wait 20 then None else Some (wait - 20)%Q, next_run now).

End Scheduler.

(** ** Stale-order reaper ([cancel_orders.py]) *)

Module Reaper.
Import Broker.

(** What [datetime.fromisoformat] makes of a text: a [ValueError], a time
    without offset, or a time with an offset, as microseconds of UTC. *)
Inductive iso :=
| iso_error
| iso_naive
| iso_aware (utc : Z).

(** An order of the list with its ["RecvTime"], if it has one. *)
Record listed := {
  order : Broker.order;
  RecvTime : option string
}.

(** How a pass over the orders ends. *)
Inductive ending :=
| finished
| type_error.

(** One order in the loop of [main_loop]: the order to cancel, if any, or the
    [TypeError] of subtracting a time without offset from [now]. *)
Definition examine (fromisoformat : string -> iso) (threshold : Z) (now : Z)
    (o : listed) : option (option string) :=
  if bool_decide (Side (order o) = "2") then
    if Qeq_bool (CumQty (order o)) 0 && negb (State (order o) =? 5) then
      match RecvTime o with
      | None => Some None
      | Some recv_time_str =>
          if bool_decide (recv_time_str = "") then Some None
          else
            match fromisoformat recv_time_str with
            | iso_error => Some None
            | iso_naive => None
            | iso_aware recv_time =>
                let diff_sec := (now - recv_time) # 1000000 in
                if Qle_bool (inject_Z threshold) diff_sec
                then Some (Some (ID (order o)))
                else Some None
            end
      end
    else Some None
  else Some None.

(** The loop over the orders inside the [try] of [main_loop], at the clock
    reading [now] (microseconds of UTC) with [CANCEL_THRESHOLD_SECONDS] =
    [threshold]: the ids passed to [cancel_order], in order, and how the pass
    ends. *)
Fixpoint sweep (fromisoformat : string -> iso) (threshold : Z) (now : Z)
    (orders : list listed) : list string * ending :=
  match orders with
  | [] => ([], finished)
  | o :: rest =>
      match examine fromisoformat threshold now o with
      | None => ([], type_error)
      | Some None => sweep fromisoformat threshold now rest
      | Some (Some order_id) =>
          let '(ids, e) := sweep fromisoformat threshold now rest in
          (order_id :: ids, e)
      end
  end.

(** An order that the reaper is after: a buy order without any fill, not
    terminal, received at [recv_time], [threshold] seconds ago or more. *)
Definition stale (fromisoformat : string -> iso) (threshold : Z) (now : Z)
    (o : listed) : Prop :=
  Side (order o) = "2" /\ (CumQty (order o) == 0)%Q /\ State (order o) <> 5 /\
  exists recv_time_str recv_time,
    RecvTime o = Some recv_time_str /\ recv_time_str <> "" /\
    fromisoformat recv_time_str = iso_aware recv_time /\
    threshold * 1000000 <= now - recv_time.

End Reaper.

(** ** Facts about the Python primitives *)

Section PyFacts.

Lemma int_inject_Z (z : Z) : Py.int (inject_Z z) = z.
Proof. unfold Py.int; simpl. apply Z.quot_1_r. Qed.

Lemma int_nonneg_floor (x : Q) : (0 <= x)%Q -> Py.int x = Qfloor x.
Proof.
  destruct x as [n d]. unfold Qle, Py.int, Qfloor; simpl. intros H.
  apply Z.quot_div_nonneg; lia.
Qed.

Lemma int_nonneg_bounds (x : Q) :
  (0 <= x)%Q -> (inject_Z (Py.int x) <= x)%Q /\ (x < inject_Z (Py.int x + 1))%Q.
Proof.
  intros H. rewrite (int_nonneg_floor x H). split.
  - apply Qfloor_le.
  - apply Qlt_floor.
Qed.

Lemma round_inject_Z (z : Z) : Py.round (inject_Z z) = z.
Proof.
  unfold Py.round. rewrite Qfloor_Z.
  assert (E : (inject_Z z - inject_Z z ?= 1 # 2)%Q = Lt).
  { unfold Qcompare; simpl. apply Z.compare_lt_iff. lia. }
  now rewrite E.
Qed.

(** [round] is within a half of its argument. *)
Lemma round_error (x : Q) :
  (x - (1 # 2) <= inject_Z (Py.round x))%Q /\ (inject_Z (Py.round x) <= x + (1 # 2))%Q.
Proof.
  unfold Py.round. pose proof (Qfloor_le x) as Hlo. pose proof (Qlt_floor x) as Hhi.
  rewrite inject_Z_plus in Hhi. change (inject_Z 1) with 1%Q in Hhi.
  destruct (x - inject_Z (Qfloor x) ?= 1 # 2)%Q eqn:C.
  - apply Qeq_alt in C. destruct (Z.even (Qfloor x));
      rewrite ?inject_Z_plus; change (inject_Z 1) with 1%Q; split; lra.
  - apply Qlt_alt in C. split; lra.
  - apply Qgt_alt in C. rewrite inject_Z_plus. change (inject_Z 1) with 1%Q.
    split; lra.
Qed.

(** Powers of two are positive. *)
Lemma two_power_pos (e : Z) : (0 < 2 ^ e)%Q.
Proof. now apply Qpower_0_lt. Qed.

(** [ilog2] does not exceed the binary logarithm. *)
Lemma ilog2_le (x : Q) : (0 < x)%Q -> (2 ^ Py.ilog2 x <= x)%Q.
Proof.
  intros Hx. unfold Py.ilog2.
  destruct (Qle_bool (2 ^ (Z.log2 (Qnum x) - Z.log2 (Z.pos (Qden x)))) x) eqn:E;
    [now apply Qle_bool_iff|].
  destruct x as [n d]. cbn [Qnum Qden].
  assert (Hn : 0 < n) by (unfold Qlt in Hx; simpl in Hx; lia).
  pose proof (Z.log2_spec n Hn) as [Hn1 _].
  pose proof (Z.log2_spec (Z.pos d) (Pos2Z.is_pos d)) as [_ Hd2].
  pose proof (Z.log2_nonneg n) as Ha. pose proof (Z.log2_nonneg (Z.pos d)) as Hb.
  set (a := Z.log2 n) in *. set (b := Z.log2 (Z.pos d)) in *.
  replace (a - b - 1) with (a - (b + 1)) by lia.
  rewrite Qpower_minus by discriminate.
  change 2%Q with (inject_Z 2).
  rewrite <- !Zpower_Qpower by lia.
  rewrite (Qmake_Qdiv n d).
  assert (Hp : (0 < inject_Z (2 ^ (b + 1)))%Q).
  { change 0%Q with (inject_Z 0). rewrite <- Zlt_Qlt. apply Z.pow_pos_nonneg; lia. }
  assert (Hdq : (0 < inject_Z (Z.pos d))%Q)
    by (change 0%Q with (inject_Z 0); now rewrite <- Zlt_Qlt).
  apply Qle_shift_div_r; [exact Hp|].
  unfold Qdiv. rewrite <- Qmult_assoc, (Qmult_comm (/ _)), Qmult_assoc.
  apply Qle_shift_div_l; [exact Hdq|].
  rewrite <- !inject_Z_mult, <- Zle_Qle.
  replace (Z.succ b) with (b + 1) in Hd2 by lia.
  nia.
Qed.

Lemma float_nonneg (x : Q) : (0 <= x)%Q -> (0 <= Py.float x)%Q.
Proof.
  intros Hx. unfold Py.float. destruct (Qeq_bool x 0); [apply Qle_refl|].
  set (e := Z.max _ _). pose proof (two_power_pos e) as He.
  apply Qmult_le_0_compat; [|now apply Qlt_le_weak].
  assert (H0 : (0 <= x / 2 ^ e)%Q).
  { apply Qle_shift_div_l; [exact He|]. now rewrite Qmult_0_l. }
  destruct (round_error (x / 2 ^ e)) as [Hlo _].
  change 0%Q with (inject_Z 0). rewrite <- Zle_Qle.
  assert (Hr : (inject_Z (-1) < inject_Z (Py.round (x / 2 ^ e)))%Q).
  { change (inject_Z (-1)) with (-1 # 1)%Q. lra. }
  rewrite <- Zlt_Qlt in Hr. lia.
Qed.

Lemma float_nonpos (x : Q) : (x <= 0)%Q -> (Py.float x <= 0)%Q.
Proof.
  intros Hx. unfold Py.float. destruct (Qeq_bool x 0); [apply Qle_refl|].
  set (e := Z.max _ _). pose proof (two_power_pos e) as He.
  assert (H0 : (x / 2 ^ e <= 0)%Q).
  { apply Qle_shift_div_r; [exact He|]. now rewrite Qmult_0_l. }
  destruct (round_error (x / 2 ^ e)) as [_ Hhi].
  assert (Hr : (inject_Z (Py.round (x / 2 ^ e)) < inject_Z 1)%Q).
  { change (inject_Z 1) with 1%Q. lra. }
  rewrite <- Zlt_Qlt in Hr.
  assert (Hq : (inject_Z (Py.round (x / 2 ^ e)) <= 0)%Q).
  { change 0%Q with (inject_Z 0). rewrite <- Zle_Qle. lia. }
  apply Qle_trans with (0 * 2 ^ e)%Q; [|rewrite Qmult_0_l; apply Qle_refl].
  apply Qmult_le_compat_r; [exact Hq|now apply Qlt_le_weak].
Qed.

(** The relative error of rounding is at most 2^-53, but for the last place
    of the subnormal numbers, 2^-1074. *)
Lemma float_upper (x : Q) :
  (0 <= x)%Q -> (Py.float x <= x * (1 + 2 ^ (-53)) + 2 ^ (-1075))%Q.
Proof.
  intros Hx. unfold Py.float. destruct (Qeq_bool x 0) eqn:E0.
  - pose proof (two_power_pos (-53)). pose proof (two_power_pos (-1075)).
    assert (0 <= x * (1 + 2 ^ (-53)))%Q by (apply Qmult_le_0_compat; lra). lra.
  - assert (Hpos : (0 < x)%Q).
    { destruct (Qle_lt_or_eq _ _ Hx) as [H | H]; [exact H|].
      symmetry in H. apply Qeq_bool_iff in H. congruence. }
    assert (Eabs : Qabs x = x).
    { destruct x as [n d]. unfold Qle in Hx; simpl in Hx. unfold Qabs.
      rewrite Z.abs_eq by lia. reflexivity. }
    rewrite Eabs.
    set (e := Z.max _ _). pose proof (two_power_pos e) as He.
    destruct (round_error (x / 2 ^ e)) as [_ Hhi].
    assert (Hr : (inject_Z (Py.round (x / 2 ^ e)) * 2 ^ e <= x + (1 # 2) * 2 ^ e)%Q).
    { apply Qle_trans with ((x / 2 ^ e + (1 # 2)) * 2 ^ e)%Q.
      - apply Qmult_le_compat_r; [exact Hhi|now apply Qlt_le_weak].
      - apply Qle_lteq. right. field. intros H. rewrite H in He.
        now apply Qlt_irrefl in He. }
    assert (Hulp : ((1 # 2) * 2 ^ e <= x * 2 ^ (-53) + 2 ^ (-1075))%Q).
    { pose proof (two_power_pos (-1075)) as Ht.
      assert (Hx53 : (0 <= x * 2 ^ (-53))%Q).
      { apply Qmult_le_0_compat; [exact Hx|]. apply Qlt_le_weak, two_power_pos. }
      unfold e. destruct (Z.max_spec (Py.ilog2 x - 52) (-1074)) as [[_ ->] | [_ ->]].
      - assert (E : ((1 # 2) * 2 ^ (-1074) == 2 ^ (-1075))%Q) by reflexivity.
        rewrite E. lra.
      - assert (E : ((1 # 2) * 2 ^ (Py.ilog2 x - 52) == 2 ^ Py.ilog2 x * 2 ^ (-53))%Q).
        { replace (Py.ilog2 x - 52) with (Py.ilog2 x + (-52)) by lia.
          rewrite Qpower_plus by discriminate.
          assert (E2 : ((1 # 2) * 2 ^ (-52) == 2 ^ (-53))%Q) by reflexivity.
          rewrite <- E2. ring. }
        rewrite E.
        assert (2 ^ Py.ilog2 x * 2 ^ (-53) <= x * 2 ^ (-53))%Q.
        { apply Qmult_le_compat_r; [now apply ilog2_le|].
          apply Qlt_le_weak, two_power_pos. }
        lra. }
    rewrite Qmult_plus_distr_r, Qmult_1_r. lra.
Qed.

End PyFacts.




(** ** Facts about the quantizers *)

Section TickFacts.

(** Comparisons of a rational with an integer, read on its integer part. *)
Lemma floor_ge (a : Z) (x : Q) : (inject_Z a <= x)%Q -> a <= Qfloor x.
Proof. intros H. rewrite <- (Qfloor_Z a). now apply Qfloor_resp_le. Qed.

Lemma floor_gt (a : Z) (x : Q) : (inject_Z a < x)%Q -> a <= Qfloor x.
Proof. intros H. apply floor_ge. now apply Qlt_le_weak. Qed.

Lemma floor_le (a : Z) (x : Q) : (x <= inject_Z a)%Q -> Qfloor x <= a.
Proof. intros H. rewrite <- (Qfloor_Z a). now apply Qfloor_resp_le. Qed.

Lemma le_inject (a b : Z) (x : Q) : a <= b -> (inject_Z b <= x)%Q -> (inject_Z a <= x)%Q.
Proof.
  intros Hab Hb. apply Qle_trans with (inject_Z b); [|exact Hb].
  now rewrite <- Zle_Qle.
Qed.

Lemma lt_inject (a b : Z) (x : Q) : a <= b -> (x < inject_Z a)%Q -> (x < inject_Z b)%Q.
Proof.
  intros Hab Ha. apply Qlt_le_trans with (inject_Z a); [exact Ha|].
  now rewrite <- Zle_Qle.
Qed.

(** The two sell-side quantizers are the same function. *)
Lemma round_sell_is_adjust (price : Q) :
  Tick.round_sell_price_for_rules price = Tick.adjust_price_to_tick price.
Proof.
  unfold Tick.round_sell_price_for_rules, Tick.adjust_price_to_tick.
  set (p := Py.int price).
  destruct (Z.leb_spec p 3000), (Z.leb_spec p 5000),
           (Z.ltb_spec 5000 p), (Z.ltb_spec 3000 p); try lia.
  now rewrite Z.div_1_r, Z.mul_1_r.
Qed.

(** The quantizer on an integer price. *)
Lemma adjust_inject_Z (n : Z) :
  Tick.adjust_price_to_tick (inject_Z n) =
  (n / (if n <=? 3000 then 1 else if n <=? 5000 then 5 else 10))
  * (if n <=? 3000 then 1 else if n <=? 5000 then 5 else 10).
Proof. unfold Tick.adjust_price_to_tick. now rewrite int_inject_Z. Qed.

Lemma adjust_inject_Z_le (n : Z) : Tick.adjust_price_to_tick (inject_Z n) <= n.
Proof.
  rewrite adjust_inject_Z.
  destruct (Z.leb_spec n 3000), (Z.leb_spec n 5000);
    Z.div_mod_to_equations; lia.
Qed.

Lemma adjust_idempotent (price : Q) :
  Tick.adjust_price_to_tick (inject_Z (Tick.adjust_price_to_tick price))
  = Tick.adjust_price_to_tick price.
Proof.
  rewrite adjust_inject_Z. unfold Tick.adjust_price_to_tick.
  set (p := Py.int price).
  destruct (Z.leb_spec p 3000), (Z.leb_spec p 5000); try lia.
  - rewrite Z.div_1_r, Z.mul_1_r.
    destruct (Z.leb_spec p 3000); [|lia]. now rewrite Z.div_1_r, Z.mul_1_r.
  - destruct (Z.leb_spec (p / 5 * 5) 3000), (Z.leb_spec (p / 5 * 5) 5000);
      Z.div_mod_to_equations; lia.
  - destruct (Z.leb_spec (p / 10 * 10) 3000), (Z.leb_spec (p / 10 * 10) 5000);
      Z.div_mod_to_equations; lia.
Qed.

(** The buy-side block on an integer price is the sell-side quantizer. *)
Lemma buy_block_is_adjust (n : Z) :
  Tick.send_buy_order_price (inject_Z n) = Tick.adjust_price_to_tick (inject_Z n).
Proof.
  rewrite adjust_inject_Z. unfold Tick.send_buy_order_price.
  rewrite round_inject_Z.
  destruct (Z.leb_spec n 3000), (Z.leb_spec n 5000),
           (Z.ltb_spec 5000 n), (Z.ltb_spec 3000 n);
    Z.div_mod_to_equations; lia.
Qed.

(** The buy side rounds to the nearest integer before it floors. *)
Lemma buy_block_rounds_first (price : Q) :
  Tick.send_buy_order_price price
  = Tick.adjust_price_to_tick (inject_Z (Py.round price)).
Proof.
  rewrite <- buy_block_is_adjust. unfold Tick.send_buy_order_price.
  now rewrite round_inject_Z.
Qed.

End TickFacts.

(** ** Claims about the quantizers *)

(** C3. For every price [p] (a non-negative amount), the tick quantizer,
    in either of its two sell-side forms, is idempotent, returns at most
    [p], and follows the tick bands: up to 3000 the price keeps its 1-yen
    grid, above 3000 and up to 5000 it is floored to a multiple of 5, above
    5000 it is floored to a multiple of 10; 5012 gives 5010, 4327 gives 4325
    and 2999 gives 2999. *)
Theorem quantize_idempotent_floor_bands (p : Q) (Hp : (0 <= p)%Q) :
  let q := Tick.adjust_price_to_tick p in
  Tick.round_sell_price_for_rules p = q /\
  Tick.adjust_price_to_tick (inject_Z q) = q /\
  Tick.round_sell_price_for_rules (inject_Z q) = q /\
  (inject_Z q <= p)%Q /\
  ((p <= 3000)%Q -> (inject_Z q <= p)%Q /\ (p < inject_Z (q + 1))%Q) /\
  ((3000 < p)%Q -> (p <= 5000)%Q ->
   q mod 5 = 0 /\ (inject_Z q <= p)%Q /\ (p < inject_Z (q + 5))%Q) /\
  ((5000 < p)%Q ->
   q mod 10 = 0 /\ (inject_Z q <= p)%Q /\ (p < inject_Z (q + 10))%Q) /\
  Tick.adjust_price_to_tick 5012 = 5010 /\
  Tick.adjust_price_to_tick 4327 = 4325 /\
  Tick.adjust_price_to_tick 2999 = 2999.
Proof.
  intros q.
  destruct (int_nonneg_bounds p Hp) as [Hlo Hhi].
  assert (Hn : 0 <= Py.int p).
  { rewrite (int_nonneg_floor p Hp). now apply (floor_ge 0). }
  assert (Hq : q = Tick.adjust_price_to_tick p) by reflexivity.
  unfold Tick.adjust_price_to_tick in Hq.
  set (n := Py.int p) in *.
  assert (Hqn : q <= n).
  { rewrite Hq. destruct (Z.leb_spec n 3000), (Z.leb_spec n 5000);
      Z.div_mod_to_equations; lia. }
  split; [apply round_sell_is_adjust|].
  split; [apply adjust_idempotent|].
  split; [rewrite round_sell_is_adjust; apply adjust_idempotent|].
  split; [now apply (le_inject q n)|].
  split; [|split; [|split]].
  - intros H3. split; [now apply (le_inject q n)|].
    assert (n <= 3000).
    { unfold n. rewrite (int_nonneg_floor p Hp). now apply (floor_le 3000). }
    apply (lt_inject (n + 1)); [|exact Hhi].
    rewrite Hq. destruct (Z.leb_spec n 3000); [|lia].
    rewrite Z.div_1_r. lia.
  - intros H3 H5.
    assert (3000 <= n <= 5000).
    { unfold n. rewrite (int_nonneg_floor p Hp). split.
      - now apply (floor_gt 3000).
      - now apply (floor_le 5000). }
    assert (q mod 5 = 0 /\ n + 1 <= q + 5) as [Hm Hb].
    { rewrite Hq. destruct (Z.leb_spec n 3000), (Z.leb_spec n 5000);
        Z.div_mod_to_equations; lia. }
    split; [exact Hm|]. split; [now apply (le_inject q n)|].
    now apply (lt_inject (n + 1)).
  - intros H5.
    assert (5000 <= n).
    { unfold n. rewrite (int_nonneg_floor p Hp). now apply (floor_gt 5000). }
    assert (q mod 10 = 0 /\ n + 1 <= q + 10) as [Hm Hb].
    { rewrite Hq. destruct (Z.leb_spec n 3000), (Z.leb_spec n 5000);
        Z.div_mod_to_equations; lia. }
    split; [exact Hm|]. split; [now apply (le_inject q n)|].
    now apply (lt_inject (n + 1)).
  - repeat split; reflexivity.
Qed.

(** The quantizer at the price 4327.5. *)
Lemma quantize_idempotent_floor_bands_witness :
  (0 <= 8655 # 2)%Q /\
  Tick.adjust_price_to_tick (8655 # 2) = 4325 /\
  Tick.round_sell_price_for_rules (8655 # 2) = 4325 /\
  (inject_Z (Tick.adjust_price_to_tick (8655 # 2)) <= 8655 # 2)%Q.
Proof.
  assert (H : (0 <= 8655 # 2)%Q) by (unfold Qle; simpl; lia).
  split; [exact H|].
  destruct (quantize_idempotent_floor_bands (8655 # 2) H) as (E1 & _ & _ & E4 & _).
  split; [reflexivity|]. split; [reflexivity|]. exact E4.
Defined.

(** C4, as the code has it. On every integer raw price, which is what
    [main_prod] passes after its own [round], the inline block of
    [send_buy_order] and the two sell-side quantizers return the same
    integer, and none of them returns more than the price. On any raw price
    the buy side is the sell-side quantizer applied to the price rounded to
    the nearest integer. *)
Theorem buy_and_sell_quantizers_agree_on_integers :
  (forall n : Z,
      Tick.send_buy_order_price (inject_Z n) = Tick.adjust_price_to_tick (inject_Z n) /\
      Tick.round_sell_price_for_rules (inject_Z n) = Tick.adjust_price_to_tick (inject_Z n) /\
      Tick.adjust_price_to_tick (inject_Z n) <= n) /\
  (forall price : Q,
      Tick.send_buy_order_price price
      = Tick.adjust_price_to_tick (inject_Z (Py.round price)) /\
      Tick.round_sell_price_for_rules price = Tick.adjust_price_to_tick price).
Proof.
  split.
  - intros n. split; [apply buy_block_is_adjust|].
    split; [apply round_sell_is_adjust|apply adjust_inject_Z_le].
  - intros price. split; [apply buy_block_rounds_first|apply round_sell_is_adjust].
Qed.

(** C4 fails as stated: at the raw price 2999.6 the buy side returns 3000,
    above the price, and the sell side returns 2999. *)
Lemma buy_rounds_up_at_2999_6 :
  Tick.send_buy_order_price (14998 # 5) = 3000 /\
  Tick.adjust_price_to_tick (14998 # 5) = 2999 /\
  Tick.round_sell_price_for_rules (14998 # 5) = 2999 /\
  (14998 # 5 < inject_Z (Tick.send_buy_order_price (14998 # 5)))%Q /\
  ~ (Tick.send_buy_order_price (14998 # 5) = Tick.adjust_price_to_tick (14998 # 5)).
Proof.
  repeat split; try reflexivity. intros H. vm_compute in H. discriminate H.
Qed.

(** ** Facts about the classifier *)

Section BudgetFacts.
Import Py Budget.

Lemma int_nonpos (x : Q) : (x <= 0)%Q -> int x <= 0.
Proof.
  destruct x as [n d]. unfold Qle, int; simpl. intros H.
  assert (Hn : n <= 0) by lia.
  replace n with (- (- n)) by lia. rewrite Z.quot_opp_l by lia.
  assert (0 <= (- n) ÷ Z.pos d) by (apply Z.quot_pos; lia). lia.
Qed.

(** Below a positive cost, [int] and the floor agree on "less than". *)
Lemma floor_lt_int_lt (x : Q) (c : Z) : 0 < c -> Qfloor x < c -> int x < c.
Proof.
  intros Hc Hf. destruct (Qlt_le_dec x 0) as [Hneg | Hpos].
  - assert (int x <= 0) by (apply int_nonpos; now apply Qlt_le_weak). lia.
  - now rewrite int_nonneg_floor.
Qed.

(** Whatever the adjusted budget, the body of an arm returns at least one
    lot for a positive cost: the quotient it divides out is at least 1. *)
Lemma arm_plan_spec (adj : Z) (lbl head mid tail : string) (cost : Z) :
  0 < cost ->
  exists qty reason,
    arm_plan adj lbl head mid tail cost = Ok (qty, reason, lbl) /\
    100 <= qty /\
    (adj < cost -> qty = 100) /\
    (cost <= adj -> 1 <= adj / cost /\ qty = adj / cost * 100).
Proof.
  intros Hc. unfold arm_plan.
  destruct (Z.ltb_spec adj cost) as [Hlt | Hge].
  - eexists _, _. split; [reflexivity|]. repeat split; lia.
  - unfold floordiv. destruct (Z.eqb_spec cost 0) as [E | _]; [lia|].
    assert (Hl : 1 <= adj / cost) by (apply Z.div_le_lower_bound; lia).
    destruct (Z.leb_spec (adj / cost) 0) as [H0 | _]; [lia|].
    eexists _, _. split; [reflexivity|]. repeat split; lia.
Qed.

(** Three roundings with relative error [u] and absolute error [t] keep a
    product that is below [c] below [2 * c]. *)
Lemma rounded_product_below_twice (c x f t u F X R : Q) :
  (1 <= c)%Q -> (1 <= x)%Q -> (0 < f)%Q -> (x * f < c)%Q ->
  (0 < u)%Q -> (u <= 1 # 32)%Q -> (0 < t)%Q -> (x * t <= 1 # 32)%Q ->
  (0 <= X)%Q -> (X <= x * (1 + u) + t)%Q ->
  (0 <= F)%Q -> (F <= f * (1 + u) + t)%Q ->
  (R <= X * F * (1 + u) + t)%Q ->
  (R < 2 * c)%Q.
Proof.
  intros Hc Hx Hf Hxf Hu0 Hu Ht0 Hxt HX0 HX HF0 HF HR.
  assert (Ht : (t <= 1 # 32)%Q) by nra.
  assert (A1 : (X <= x * (17 # 16))%Q) by nra.
  assert (A2 : (F <= f * (33 # 32) + t)%Q) by nra.
  assert (A3 : (X * F <= x * (17 # 16) * (f * (33 # 32) + t))%Q) by nra.
  assert (A4 : (X * F <= (561 # 512) * c + (17 # 512))%Q) by nra.
  assert (A5 : (0 <= X * F)%Q) by nra.
  assert (A6 : (X * F * (1 + u) <= X * F * (33 # 32))%Q) by nra.
  lra.
Qed.

(** With a base budget of the table, the adjusted budget of a product that
    is exactly below an integer cost stays below twice the cost. *)
Lemma fmul_below_twice (base cost : Z) (factor : Q) :
  0 < base <= 1500000 -> 0 < cost ->
  (inject_Z base * factor < inject_Z cost)%Q ->
  int (fmul (inject_Z base) factor) < 2 * cost.
Proof.
  intros [Hb1 Hb2] Hc Hlt. unfold fmul.
  assert (Hx1 : (1 <= inject_Z base)%Q)
    by (change 1%Q with (inject_Z 1); rewrite <- Zle_Qle; lia).
  assert (Hx2 : (inject_Z base <= 1500000)%Q)
    by (change 1500000%Q with (inject_Z 1500000); rewrite <- Zle_Qle; lia).
  assert (Hc1 : (1 <= inject_Z cost)%Q)
    by (change 1%Q with (inject_Z 1); rewrite <- Zle_Qle; lia).
  pose proof (float_nonneg (inject_Z base)) as HX0.
  destruct (Qlt_le_dec 0 factor) as [Hf | Hf].
  - pose proof (float_upper (inject_Z base)) as HX.
    pose proof (float_nonneg factor) as HF0. pose proof (float_upper factor) as HF.
    assert (HP0 : (0 <= float (inject_Z base) * float factor)%Q)
      by (apply Qmult_le_0_compat; [apply HX0|apply HF0]; lra).
    pose proof (float_nonneg _ HP0) as HR0. pose proof (float_upper _ HP0) as HR.
    assert (Hu : (2 ^ (-53) <= 1 # 32)%Q) by (apply Qle_bool_iff; vm_compute; reflexivity).
    assert (Ht : (1500000 * 2 ^ (-1075) <= 1 # 32)%Q)
      by (apply Qle_bool_iff; vm_compute; reflexivity).
    pose proof (two_power_pos (-53)) as Hu0. pose proof (two_power_pos (-1075)) as Ht0.
    assert (Hxt : (inject_Z base * 2 ^ (-1075) <= 1 # 32)%Q).
    { apply Qle_trans with (1500000 * 2 ^ (-1075))%Q; [|exact Ht].
      apply Qmult_le_compat_r; [exact Hx2|now apply Qlt_le_weak]. }
    assert (Hlt2 : (float (float (inject_Z base) * float factor) < 2 * inject_Z cost)%Q).
    { apply (rounded_product_below_twice (inject_Z cost) (inject_Z base) factor
               (2 ^ (-1075)) (2 ^ (-53)) (float factor) (float (inject_Z base)));
        first [assumption | lra | apply HX; lra | apply HF0; lra | apply HF; lra]. }
    rewrite (int_nonneg_floor _ HR0).
    assert (Hfl : (inject_Z (Qfloor (float (float (inject_Z base) * float factor)))
                   < inject_Z (2 * cost))%Q).
    { apply Qle_lt_trans with (float (float (inject_Z base) * float factor));
        [apply Qfloor_le|]. now rewrite inject_Z_mult. }
    now rewrite <- Zlt_Qlt in Hfl.
  - assert (HF : (float factor <= 0)%Q) by (now apply float_nonpos).
    assert (HP : (float (inject_Z base) * float factor <= 0)%Q).
    { assert (H0 : (0 <= float (inject_Z base))%Q) by (apply HX0; lra). nra. }
    assert (int (float (float (inject_Z base) * float factor)) <= 0)
      by (now apply int_nonpos, float_nonpos).
    lia.
Qed.

Lemma matched_base_budget_range (title : string) (base : Z) :
  matched_base_budget title = Some base -> 0 < base <= 1500000.
Proof.
  unfold matched_base_budget.
  repeat match goal with
         | |- (if ?c then Some _ else _) = Some _ -> _ =>
             destruct c;
             [intros H; injection H as <-;
              split; [reflexivity|intros C; discriminate C]|]
         end.
  intros H. discriminate H.
Qed.

Lemma tier_arm_spec (base : Z) (lbl head mid tail : string) (cost : Z) (factor : Q) :
  0 < cost ->
  exists qty reason,
    tier_arm base lbl head mid tail cost factor = Ok (qty, reason, lbl) /\
    100 <= qty /\
    (int (fmul (inject_Z base) factor) < cost -> qty = 100) /\
    (cost <= int (fmul (inject_Z base) factor) ->
     qty = int (fmul (inject_Z base) factor) / cost * 100).
Proof.
  intros Hc. unfold tier_arm.
  destruct (arm_plan_spec (int (fmul (inject_Z base) factor)) lbl head mid tail cost Hc)
    as (qty & reason & E & H100 & Hlt & Hge).
  exists qty, reason. repeat split; try assumption. intros H. now apply Hge.
Qed.

Ltac first_condition :=
  match goal with
  | |- context [(if ?c then Some _ else _) = None] => destruct c
  end.

(** The cascade of [decide_order_plan], arm by arm. *)
Lemma decide_order_plan_arm (title : string) (cost : Z) (factor : Q) :
  (exists base lbl head mid tail,
      matched_base_budget title = Some base /\ lbl <> "未該当" /\
      decide_order_plan title cost factor
      = tier_arm base lbl head mid tail cost factor) \/
  (matched_base_budget title = None /\
   decide_order_plan title cost factor
   = Ok (0, "ポジティブ条件該当なし => 発注なし", "未該当")).
Proof.
  unfold decide_order_plan, matched_base_budget.
  repeat (first_condition;
          [left; eexists _, _, _, _, _;
           split; [reflexivity|split; [|reflexivity]]; discriminate|]).
  right. split; reflexivity.
Qed.

Lemma cascade_below (v : Q) (table : list (Z * Q)) (low x : Q) :
  all_below v table low = true -> (cascade table low x <= v)%Q.
Proof.
  unfold all_below. induction table as [| [c u] rest IH]; simpl; intros H.
  - now apply Qle_bool_iff.
  - apply andb_prop in H as [H Hlow]. apply andb_prop in H as [Hu Hrest].
    destruct (cap_ge x c).
    + now apply Qle_bool_iff.
    + apply IH. now rewrite Hrest, Hlow.
Qed.

Lemma cascade_mono (table : list (Z * Q)) (low a b : Q) :
  descending table low = true -> (a <= b)%Q ->
  (cascade table low a <= cascade table low b)%Q.
Proof.
  intros Hd Hab. induction table as [| [c v] rest IH]; simpl in *.
  - apply Qle_refl.
  - apply andb_prop in Hd as [Hbelow Hd]. unfold cap_ge in *.
    destruct (Qle_bool (inject_Z c) b) eqn:Hb.
    + destruct (Qle_bool (inject_Z c) a); [apply Qle_refl|].
      now apply cascade_below.
    + destruct (Qle_bool (inject_Z c) a) eqn:Ha; [|now apply IH].
      apply Qle_bool_iff in Ha.
      assert (Hcb : (inject_Z c <= b)%Q) by (now apply Qle_trans with a).
      apply Qle_bool_iff in Hcb. congruence.
Qed.

Lemma get_budget_multiplier_cascade (market_cap : Q) :
  get_budget_multiplier market_cap = cascade multiplier_table (2 # 10) market_cap.
Proof. reflexivity. Qed.

Lemma get_budget_multiplier_mono (a b : Q) :
  (a <= b)%Q -> (get_budget_multiplier a <= get_budget_multiplier b)%Q.
Proof.
  intros Hab. rewrite !get_budget_multiplier_cascade.
  apply cascade_mono; [reflexivity|exact Hab].
Qed.

(** The bands of [get_budget_multiplier] and their values. *)
Lemma get_budget_multiplier_bands (a : Q) :
  ((a < 15000000000)%Q ->
   get_budget_multiplier a = 2 # 10) /\
  ((15000000000 <= a)%Q -> (a < 400000000000)%Q ->
   get_budget_multiplier a = 25 # 100) /\
  ((400000000000 <= a)%Q -> (a < 500000000000)%Q ->
   get_budget_multiplier a = 3 # 10) /\
  ((500000000000 <= a)%Q -> (a < 600000000000)%Q ->
   get_budget_multiplier a = 4 # 10) /\
  ((600000000000 <= a)%Q -> (a < 700000000000)%Q ->
   get_budget_multiplier a = 5 # 10) /\
  ((700000000000 <= a)%Q -> (a < 800000000000)%Q ->
   get_budget_multiplier a = 6 # 10) /\
  ((800000000000 <= a)%Q -> (a < 900000000000)%Q ->
   get_budget_multiplier a = 7 # 10) /\
  ((900000000000 <= a)%Q -> (a < 1000000000000)%Q ->
   get_budget_multiplier a = 8 # 10) /\
  ((1000000000000 <= a)%Q -> (a < 4000000000000)%Q ->
   get_budget_multiplier a = 3 # 1) /\
  ((4000000000000 <= a)%Q -> (a < 7000000000000)%Q ->
   get_budget_multiplier a = 4 # 1) /\
  ((7000000000000 <= a)%Q -> (a < 10000000000000)%Q ->
   get_budget_multiplier a = 5 # 1) /\
  ((10000000000000 <= a)%Q ->
   get_budget_multiplier a = 6 # 1).
Proof.
  destruct a as [n d].
  unfold get_budget_multiplier, cap_ge, Qle_bool, Qle, Qlt.
  cbn [Qnum Qden inject_Z].
  repeat split; intros;
    repeat match goal with
           | |- (if Z.leb ?x ?y then _ else _) = _ => destruct (Z.leb_spec x y)
           end;
    first [reflexivity | lia].
Qed.

End BudgetFacts.

(** ** Claims about the classifier *)

(** C5. For a headline that matches a budget tier with base budget [base],
    a positive [cost_per_100] and any factor: when [cost_per_100] exceeds
    [floor (base * factor)], [decide_order_plan] returns the quantity 100
    (one round lot), with the label of a matched tier. *)
Theorem minimum_lot_when_over_budget (title : string) (cost : Z) (factor : Q) (base : Z)
    (Hmatch : Budget.matched_base_budget title = Some base)
    (Hcost : 0 < cost)
    (Hover : Qfloor (inject_Z base * factor) < cost) :
  exists reason label,
    Budget.decide_order_plan title cost factor = Py.Ok (100, reason, label) /\
    label <> "未該当".
Proof.
  destruct (decide_order_plan_arm title cost factor)
    as [(b & lbl & head & mid & tail & Hb & Hl & Hd) | [Hnone _]];
    [|congruence].
  assert (b = base) by congruence. subst b.
  destruct (tier_arm_spec base lbl head mid tail cost factor Hcost)
    as (qty & reason & Harm & _ & Hq & Hge).
  exists reason, lbl. split; [|exact Hl]. rewrite Hd, Harm.
  assert (Hlt : (inject_Z base * factor < inject_Z cost)%Q).
  { apply Qlt_le_trans with (inject_Z (Qfloor (inject_Z base * factor) + 1));
      [apply Qlt_floor|]. rewrite <- Zle_Qle. lia. }
  pose proof (fmul_below_twice base cost factor
                (matched_base_budget_range title base Hmatch) Hcost Hlt) as Htwice.
  destruct (Z.lt_ge_cases (Py.int (Py.fmul (inject_Z base) factor)) cost)
    as [Hadj | Hadj].
  - now rewrite Hq.
  - rewrite (Hge Hadj).
    replace (Py.int (Py.fmul (inject_Z base) factor) / cost) with 1; [reflexivity|].
    apply Z.div_unique with (Py.int (Py.fmul (inject_Z base) factor) - cost); lia.
Qed.

(** A headline of the tier "上方修正 + 増配" at factor 0.2: the adjusted budget
    is 300000, a lot costs 450000. *)
Lemma minimum_lot_when_over_budget_witness :
  exists reason label,
    Budget.decide_order_plan "業績予想の上方修正及び増配のお知らせ" 450000 (2 # 10)
    = Py.Ok (100, reason, label) /\ label <> "未該当".
Proof.
  apply (minimum_lot_when_over_budget _ 450000 (2 # 10) 1500000).
  - reflexivity.
  - reflexivity.
  - reflexivity.
Defined.

(** C10. For every headline, every strictly positive [cost_per_100] and
    every factor, [decide_order_plan] returns.  In a matched arm, whatever
    the adjusted budget, the lots computed in the branch that divides are at
    least 1, so the return for [lots <= 0] is never taken and the arm returns
    at least 100; when a tier matches the quantity is at least 100, and the
    quantity 0 comes only from a headline that matches no tier, with the
    label "未該当". *)
Theorem zero_lot_branches_unreachable (title : string) (cost : Z) (factor : Q)
    (Hcost : 0 < cost) :
  (forall adjusted_budget lbl head mid tail,
      exists qty reason,
        Budget.arm_plan adjusted_budget lbl head mid tail cost
        = Py.Ok (qty, reason, lbl) /\
        100 <= qty /\
        (cost <= adjusted_budget -> 1 <= adjusted_budget / cost)) /\
  exists qty reason label,
    Budget.decide_order_plan title cost factor = Py.Ok (qty, reason, label) /\
    (is_Some (Budget.matched_base_budget title) -> 100 <= qty /\ label <> "未該当") /\
    (qty = 0 -> Budget.matched_base_budget title = None /\ label = "未該当").
Proof.
  split.
  - intros adj lbl head mid tail.
    destruct (arm_plan_spec adj lbl head mid tail cost Hcost)
      as (qty & reason & Harm & Hq & _ & Hlots).
    exists qty, reason. repeat split; try assumption. intros H. now apply Hlots.
  - destruct (decide_order_plan_arm title cost factor)
      as [(b & lbl & head & mid & tail & Hb & Hl & Hd) | [Hnone Hd]].
    + destruct (tier_arm_spec b lbl head mid tail cost factor Hcost)
        as (qty & reason & Harm & Hq & _).
      exists qty, reason, lbl. split; [now rewrite Hd|].
      split; [now intros _|]. intros H0. lia.
    + exists 0, "ポジティブ条件該当なし => 発注なし", "未該当".
      split; [exact Hd|]. split.
      * rewrite Hnone. intros [x Hx]. discriminate Hx.
      * now intros _.
Qed.

(** A lot that costs exactly the adjusted budget of the tier "業務提携". *)
Lemma zero_lot_branches_unreachable_witness :
  exists qty reason label,
    Budget.decide_order_plan "業務提携に関するお知らせ" 200000 (2 # 10)
    = Py.Ok (qty, reason, label) /\
    (is_Some (Budget.matched_base_budget "業務提携に関するお知らせ") ->
     100 <= qty /\ label <> "未該当") /\
    (qty = 0 ->
     Budget.matched_base_budget "業務提携に関するお知らせ" = None /\ label = "未該当").
Proof.
  apply (zero_lot_branches_unreachable "業務提携に関するお知らせ" 200000 (2 # 10)).
  reflexivity.
Defined.

(** C6, as the code has it. [get_budget_multiplier] is a step function of
    the capitalization that never decreases: 0.2 below 15e9, 0.25 from 15e9,
    0.3 from 400e9, 0.4 from 500e9, 0.5 from 600e9, 0.6 from 700e9, 0.7 from
    800e9, 0.8 from 900e9, 3 from 1e12, 4 from 4e12, 5 from 7e12 and 6 from
    10e12 on. *)
Theorem budget_multiplier_is_monotone :
  (forall a b : Q,
      (a <= b)%Q ->
      (Budget.get_budget_multiplier a <= Budget.get_budget_multiplier b)%Q) /\
  (forall a : Q,
      (2 # 10 <= Budget.get_budget_multiplier a)%Q /\
      (Budget.get_budget_multiplier a <= 6)%Q) /\
  Budget.get_budget_multiplier 14999999999 = 2 # 10 /\
  Budget.get_budget_multiplier 15000000000 = 25 # 100 /\
  Budget.get_budget_multiplier 999999999999 = 8 # 10 /\
  Budget.get_budget_multiplier 1000000000000 = 3 # 1 /\
  Budget.get_budget_multiplier 6999999999999 = 4 # 1 /\
  Budget.get_budget_multiplier 7000000000000 = 5 # 1 /\
  Budget.get_budget_multiplier 9999999999999 = 5 # 1 /\
  Budget.get_budget_multiplier 10000000000000 = 6 # 1 /\
  (forall a : Q,
    ((a < 15000000000)%Q ->
     Budget.get_budget_multiplier a = 2 # 10) /\
    ((15000000000 <= a)%Q -> (a < 400000000000)%Q ->
     Budget.get_budget_multiplier a = 25 # 100) /\
    ((400000000000 <= a)%Q -> (a < 500000000000)%Q ->
     Budget.get_budget_multiplier a = 3 # 10) /\
    ((500000000000 <= a)%Q -> (a < 600000000000)%Q ->
     Budget.get_budget_multiplier a = 4 # 10) /\
    ((600000000000 <= a)%Q -> (a < 700000000000)%Q ->
     Budget.get_budget_multiplier a = 5 # 10) /\
    ((700000000000 <= a)%Q -> (a < 800000000000)%Q ->
     Budget.get_budget_multiplier a = 6 # 10) /\
    ((800000000000 <= a)%Q -> (a < 900000000000)%Q ->
     Budget.get_budget_multiplier a = 7 # 10) /\
    ((900000000000 <= a)%Q -> (a < 1000000000000)%Q ->
     Budget.get_budget_multiplier a = 8 # 10) /\
    ((1000000000000 <= a)%Q -> (a < 4000000000000)%Q ->
     Budget.get_budget_multiplier a = 3 # 1) /\
    ((4000000000000 <= a)%Q -> (a < 7000000000000)%Q ->
     Budget.get_budget_multiplier a = 4 # 1) /\
    ((7000000000000 <= a)%Q -> (a < 10000000000000)%Q ->
     Budget.get_budget_multiplier a = 5 # 1) /\
    ((10000000000000 <= a)%Q ->
     Budget.get_budget_multiplier a = 6 # 1)).
Proof.
  split; [exact get_budget_multiplier_mono|].
  split; [|repeat (split; [reflexivity|]); exact get_budget_multiplier_bands].
  intros a. split.
  - destruct (Qlt_le_dec a 0) as [Hneg | Hpos].
    + assert (E : Budget.get_budget_multiplier a = 2 # 10).
      { unfold Budget.get_budget_multiplier, Budget.cap_ge.
        repeat match goal with
               | |- context [Qle_bool (inject_Z ?c) a] =>
                   let H := fresh in
                   destruct (Qle_bool (inject_Z c) a) eqn:H;
                   [apply Qle_bool_iff in H; exfalso;
                    apply (Qlt_irrefl 0);
                    apply Qle_lt_trans with a; [|exact Hneg];
                    apply Qle_trans with (inject_Z c); [easy|exact H]|]
               end.
        reflexivity. }
      rewrite E. apply Qle_refl.
    + change (2 # 10) with (Budget.get_budget_multiplier 0).
      now apply get_budget_multiplier_mono.
  - rewrite get_budget_multiplier_cascade. now apply cascade_below.
Qed.

(** A capitalization of 450e9 yen, in the band of 0.3, against one of 5e12
    yen. *)
Lemma budget_multiplier_is_monotone_witness :
  Budget.get_budget_multiplier 450000000000 = 3 # 10 /\
  (Budget.get_budget_multiplier 450000000000
   <= Budget.get_budget_multiplier 5000000000000)%Q.
Proof.
  destruct budget_multiplier_is_monotone
    as (Hmono & _ & _ & _ & _ & _ & _ & _ & _ & _ & Hbands).
  split.
  - destruct (Hbands 450000000000%Q) as (_ & _ & H & _).
    apply H; unfold Qle, Qlt; simpl; lia.
  - apply Hmono. unfold Qle; simpl; lia.
Defined.

(** C6 fails as stated: no capitalization has a multiplier below that of a
    smaller capitalization, so no band lies below both of its neighbours. *)
Lemma budget_multiplier_has_no_dip :
  ~ (exists a b : Q,
        (a <= b)%Q /\
        (Budget.get_budget_multiplier b < Budget.get_budget_multiplier a)%Q) /\
  ~ (exists a b c : Q,
        (a < b)%Q /\ (b < c)%Q /\
        (Budget.get_budget_multiplier b < Budget.get_budget_multiplier a)%Q /\
        (Budget.get_budget_multiplier b < Budget.get_budget_multiplier c)%Q).
Proof.
  split.
  - intros (a & b & Hab & Hlt).
    apply (Qlt_irrefl (Budget.get_budget_multiplier b)).
    apply Qlt_le_trans with (Budget.get_budget_multiplier a); [exact Hlt|].
    now apply get_budget_multiplier_mono.
  - intros (a & b & c & Hab & _ & Hlt & _).
    apply (Qlt_irrefl (Budget.get_budget_multiplier b)).
    apply Qlt_le_trans with (Budget.get_budget_multiplier a); [exact Hlt|].
    apply get_budget_multiplier_mono. now apply Qlt_le_weak.
Qed.


(** ** Facts about the entry controller *)

Section EntryFacts.
Import Py Entry.

(** What one pass of the loop body can do. *)
Lemma main_prod_body_cases (obs : observation) (info : disclosure) (st : cycle_state) :
  main_prod_body obs info st = Ok st \/
  (exists e, main_prod_body obs info st = Raise e) \/
  (exists st' o,
      main_prod_body obs info st = Ok st' /\
      (symbol info ∉ ordered_symbols (proc st)) /\
      (ordered_symbols (proc st') = {[symbol info]} ∪ ordered_symbols (proc st)) /\
      (sent st' = sent st ++ [o]) /\ bo_Symbol o = symbol info /\ 0 < bo_Qty o).
Proof.
  unfold main_prod_body. case_bool_decide as Hin; [now left|].
  destruct (is_within_10_seconds_of_now _ _); simpl; [|now left].
  destruct (current_price obs) as [price|]; [|now left].
  destruct (Qle_bool price 0); [now left|].
  destruct (Budget.decide_order_plan _ _ _) as [[[qty reason] label]|e];
    [|right; left; now exists e].
  destruct (Z.leb_spec qty 0); [now left|].
  right; right. eexists _, _. split; [reflexivity|]. simpl.
  repeat split; [exact Hin|exact H].
Qed.

Lemma main_prod_body_sent_once (obs : observation) (info : disclosure)
    (st st' : cycle_state) :
  sent_once st -> main_prod_body obs info st = Ok st' -> sent_once st'.
Proof.
  intros [Hnd Hin] Hb.
  destruct (main_prod_body_cases obs info st)
    as [H | [[e H] | (st1 & o & H & Hnew & Hord & Hsent & Hsym & _)]];
    rewrite H in Hb; [| discriminate |]; injection Hb as <-; [now split|].
  split.
  - rewrite Hsent, fmap_app. apply NoDup_app. split; [exact Hnd|].
    split; [|apply NoDup_singleton].
    intros x Hx Hx'. apply list_elem_of_fmap in Hx as (o' & -> & Ho').
    apply list_elem_of_singleton in Hx'. apply Hnew.
    rewrite <- Hsym, <- Hx'. now apply Hin.
  - intros o'. rewrite Hsent, Hord. intros Ho'.
    apply elem_of_app in Ho' as [Ho' | Ho'].
    + apply elem_of_union_r. now apply Hin.
    + apply list_elem_of_singleton in Ho'. subst o'. rewrite Hsym.
      apply elem_of_union_l. now apply elem_of_singleton.
Qed.

Lemma main_prod_loop_sent_once (obs : nat -> observation) (l : list disclosure) :
  forall (i : nat) (st : cycle_state),
    sent_once st -> sent_once (main_prod_loop obs i l st).1.
Proof.
  induction l as [| info rest IH]; intros i st Hst; simpl; [exact Hst|].
  destruct (main_prod_body (obs i) info st) as [st'|e] eqn:Hb; [|exact Hst].
  apply IH. now apply (main_prod_body_sent_once (obs i) info st).
Qed.

(** Within one call of [main_prod] no symbol is ordered twice. *)
Lemma main_prod_orders_each_symbol_once (w : cycle_world) (p : process) (disk : Disk.t) :
  NoDup (bo_Symbol <$> out_sent (main_prod w p disk)).
Proof.
  assert (H0 : sent_once {| proc := p; purchased_orders := []; sent := [] |}).
  { split; simpl; [apply NoDup_nil_2|]. intros o Ho. now apply elem_of_nil in Ho. }
  unfold main_prod. destruct (deadline w) as [k|].
  - pose proof (main_prod_loop_sent_once (observe w)
                  (take k (unique_by_symbol ∅ (page_rows w))) 0 _ H0) as [H _].
    now destruct (main_prod_loop _ _ _ _) as [st e].
  - pose proof (main_prod_loop_sent_once (observe w)
                  (unique_by_symbol ∅ (page_rows w)) 0 _ H0) as [H _].
    now destruct (main_prod_loop _ _ _ _) as [st [e|]].
Qed.

(** The orders of a call of [main_prod] do not depend on the files. *)
Lemma main_prod_ignores_disk (w : cycle_world) (p : process) (disk1 disk2 : Disk.t) :
  out_sent (main_prod w p disk1) = out_sent (main_prod w p disk2).
Proof.
  unfold main_prod. destruct (deadline w) as [k|].
  - now destruct (main_prod_loop _ _ _ _) as [st e].
  - now destruct (main_prod_loop _ _ _ _) as [st [e|]].
Qed.

(** [main_prod] leaves [processed_orders.json] as it found it. *)
Lemma main_prod_keeps_ledger (w : cycle_world) (p : process) (disk : Disk.t) :
  Disk.processed_orders (out_disk (main_prod w p disk)) = Disk.processed_orders disk.
Proof.
  unfold main_prod. destruct (deadline w) as [k|].
  - now destruct (main_prod_loop _ _ _ _) as [st e].
  - now destruct (main_prod_loop _ _ _ _) as [st [e|]].
Qed.

(** What the child did to [ordered_symbols] does not reach the parent. *)
Lemma run_with_timeout_keeps_parent (w : cycle_world) (parent : process) (disk : Disk.t) :
  (run_with_timeout w parent disk).1.1.1 = parent.
Proof. reflexivity. Qed.

(** The orders of a run are those of its cycles, each started from the
    memory of the parent. *)
Lemma run_cons (w : cycle_world) (ws : list cycle_world) (parent : process)
    (disk : Disk.t) :
  (run (w :: ws) parent disk).1
  = out_sent (main_prod w parent disk)
    ++ (run ws parent (out_disk (main_prod w parent disk))).1.
Proof.
  simpl. unfold main_logic.
  now destruct (run ws parent (out_disk (main_prod w parent disk))).
Qed.

(** The defects of the data after which the body does nothing. *)
Lemma skip_without_quote (obs : observation) (info : disclosure) (st : cycle_state) :
  current_price obs = None -> main_prod_body obs info st = Ok st.
Proof.
  intros H. unfold main_prod_body. rewrite H.
  case_bool_decide; [reflexivity|]. now destruct (negb _).
Qed.

Lemma skip_nonpositive_quote (obs : observation) (info : disclosure) (st : cycle_state)
    (price : Q) :
  current_price obs = Some price -> (price <= 0)%Q ->
  main_prod_body obs info st = Ok st.
Proof.
  intros H Hle. unfold main_prod_body. rewrite H.
  apply Qle_bool_iff in Hle. rewrite Hle.
  case_bool_decide; [reflexivity|]. now destruct (negb _).
Qed.

Lemma skip_malformed_time (obs : observation) (info : disclosure) (st : cycle_state) :
  parse_announcement_datetime (now obs) (time_text info) = None ->
  main_prod_body obs info st = Ok st.
Proof.
  intros H. unfold main_prod_body. rewrite H. simpl.
  now case_bool_decide.
Qed.

End EntryFacts.

(** ** Facts about the exit controller *)

Section ExitFacts.
Import Py Broker Exit.

(** The symbols that [save_processed_symbol_for_today] leaves under each
    date. *)
Lemma lookup_save (d d' s : string) (disk : Disk.t) :
  default [] (Disk.processed_orders (save_processed_symbol_for_today d s disk) !! d')
  = if decide (d = d') then
      let l := default [] (Disk.processed_orders disk !! d) in
      if bool_decide (s ∈ l) then l else l ++ [s]
    else default [] (Disk.processed_orders disk !! d').
Proof.
  unfold save_processed_symbol_for_today; simpl.
  destruct (Disk.processed_orders disk !! d) as [l|] eqn:Hd; simpl.
  - rewrite Hd; simpl. case_bool_decide.
    + destruct (decide (d = d')) as [<-|]; [now rewrite Hd|reflexivity].
    + destruct (decide (d = d')) as [<-|].
      * now rewrite lookup_insert_eq.
      * now rewrite lookup_insert_ne.
  - rewrite lookup_insert_eq; simpl.
    destruct (decide (d = d')) as [<-|].
    + now rewrite lookup_insert_eq.
    + now rewrite !lookup_insert_ne.
Qed.

Lemma load_save_same (d s : string) (disk : Disk.t) :
  s ∈ load_processed_symbols_for_today d (save_processed_symbol_for_today d s disk).
Proof.
  unfold load_processed_symbols_for_today. rewrite lookup_save.
  rewrite decide_True by reflexivity. simpl.
  apply elem_of_list_to_set. case_bool_decide as H; [exact H|].
  apply elem_of_app. right. now apply list_elem_of_singleton.
Qed.

Lemma load_save_keeps (d s s' : string) (disk : Disk.t) :
  s' ∈ load_processed_symbols_for_today d disk ->
  s' ∈ load_processed_symbols_for_today d (save_processed_symbol_for_today d s disk).
Proof.
  unfold load_processed_symbols_for_today. rewrite lookup_save.
  rewrite decide_True by reflexivity. simpl.
  rewrite !elem_of_list_to_set. intros H. case_bool_decide; [exact H|].
  apply elem_of_app. now left.
Qed.

Lemma load_save_other (d d' s : string) (disk : Disk.t) :
  d <> d' ->
  load_processed_symbols_for_today d' (save_processed_symbol_for_today d s disk)
  = load_processed_symbols_for_today d' disk.
Proof.
  intros Hne. unfold load_processed_symbols_for_today. rewrite lookup_save.
  now rewrite decide_False.
Qed.

(** An order whose execution records sum to no quantity is passed over. *)
Lemma main_body_skips_empty_fill (today : string) (labels : gmap string string)
    (order : order) (st : state) :
  ((fill_totals (Details order)).2 == 0)%Q ->
  main_body today labels order st = st.
Proof.
  intros H. unfold main_body.
  destruct (_ && _); [|reflexivity].
  case_bool_decide; [reflexivity|].
  destruct (fill_totals (Details order)) as [tp tq]. simpl in H.
  apply Qeq_bool_iff in H. now rewrite H.
Qed.

(** The ledger of symbols has no part in what [main] sends. *)
Lemma main_body_same_but_ledger (today : string) (labels : gmap string string)
    (order : order) (st1 st2 : state) :
  same_but_ledger st1 st2 ->
  same_but_ledger (main_body today labels order st1)
                  (main_body today labels order st2).
Proof.
  intros (Hd & Hi & Hl & Hs). unfold main_body.
  destruct (_ && _); [|now repeat split].
  rewrite Hi. case_bool_decide; [now repeat split|].
  destruct (fill_totals (Details order)) as [tp tq].
  destruct (Qeq_bool tq 0); [now repeat split|].
  unfold same_but_ledger; simpl. now rewrite Hd, Hl, Hs.
Qed.

Lemma main_loop_same_but_ledger (today : string) (labels : gmap string string)
    (orders : list order) :
  forall st1 st2 : state,
    same_but_ledger st1 st2 ->
    same_but_ledger
      (fold_left (fun st order => main_body today labels order st) orders st1)
      (fold_left (fun st order => main_body today labels order st) orders st2).
Proof.
  induction orders as [| o rest IH]; intros st1 st2 H; simpl; [exact H|].
  apply IH. now apply main_body_same_but_ledger.
Qed.

Lemma main_iteration_same_but_ledger (today : string) (orders : list order)
    (st1 st2 : state) :
  same_but_ledger st1 st2 ->
  same_but_ledger (main_iteration today orders st1) (main_iteration today orders st2).
Proof.
  intros (Hd & Hi & Hl & Hs). unfold main_iteration.
  assert (E : load_purchased_info_for_today today (disk st1)
              = load_purchased_info_for_today today (disk st2)).
  { unfold load_purchased_info_for_today. now rewrite Hl. }
  rewrite E, Hd. apply main_loop_same_but_ledger.
  case_bool_decide; now repeat split.
Qed.

(** A sale records its symbol under the day's date. *)
Lemma main_body_records_symbol (today : string) (labels : gmap string string)
    (order : order) (st : state) :
  sent (main_body today labels order st) <> sent st ->
  Symbol order ∈ load_processed_symbols_for_today today
                   (disk (main_body today labels order st)).
Proof.
  unfold main_body.
  destruct (_ && _); [|congruence].
  case_bool_decide; [congruence|].
  destruct (fill_totals (Details order)) as [tp tq].
  destruct (Qeq_bool tq 0); [congruence|].
  intros _. simpl. apply load_save_same.
Qed.

End ExitFacts.

(** ** Claims about the entry controller and the ledger *)

(** Membership in a concrete set, by evaluation of its decision. *)
Ltac decide_by_computation :=
  match goal with
  | |- ?P => apply (@bool_decide_unpack P _); vm_compute; exact I
  end.

(** C1, at a failing run. Two cycles a minute apart each see a fresh
    disclosure of symbol 7203 (the second page still lists the first
    disclosure below the new one). Each cycle posts a buy order for 7203: the
    run posts two. The memory of the scheduling process is the same after a
    cycle as before it, and every cycle of a run starts [main_prod] from
    that memory. *)
Theorem same_symbol_ordered_in_two_cycles :
  (Entry.run [Scenario.cycle_0900; Scenario.cycle_0901]
             Entry.fresh_process Disk.empty).1
  = [{| Entry.bo_Symbol := "7203"; Entry.bo_Price := 1040; Entry.bo_Qty := 200 |};
     {| Entry.bo_Symbol := "7203"; Entry.bo_Price := 1010; Entry.bo_Qty := 200 |}] /\
  length (Entry.orders_for "7203"
            (Entry.run [Scenario.cycle_0900; Scenario.cycle_0901]
                       Entry.fresh_process Disk.empty).1) = 2%nat /\
  (Entry.run_with_timeout Scenario.cycle_0900 Entry.fresh_process Disk.empty).1.1.1
  = Entry.fresh_process /\
  (forall (w : Entry.cycle_world) (ws : list Entry.cycle_world)
          (parent : Entry.process) (disk : Disk.t),
      (Entry.run (w :: ws) parent disk).1
      = Entry.out_sent (Entry.main_prod w parent disk)
        ++ (Entry.run ws parent (Entry.out_disk (Entry.main_prod w parent disk))).1).
Proof.
  split; [vm_compute; reflexivity|].
  split; [vm_compute; reflexivity|].
  split; [reflexivity|exact run_cons].
Qed.

(** What the code does with the ledger. A symbol saved under a date is in
    the set loaded for that date from then on, whatever else is saved, and a
    save under one date leaves the set of every other date as it was; a
    restart loads that set; the exit controller saves the symbol of every
    order it sends. No order depends on the set: the orders of the entry
    controller do not depend on the files, which it leaves unchanged as to
    the ledger, and the orders of the exit controller are the same for two
    states that differ in the ledger only. *)
Theorem ledger_kept_but_never_consulted :
  (forall (d s : string) (disk : Disk.t),
      s ∈ Exit.load_processed_symbols_for_today d
            (Exit.save_processed_symbol_for_today d s disk)) /\
  (forall (d s s' : string) (disk : Disk.t),
      s' ∈ Exit.load_processed_symbols_for_today d disk ->
      s' ∈ Exit.load_processed_symbols_for_today d
             (Exit.save_processed_symbol_for_today d s disk)) /\
  (forall (d d' s : string) (disk : Disk.t),
      d <> d' ->
      Exit.load_processed_symbols_for_today d'
        (Exit.save_processed_symbol_for_today d s disk)
      = Exit.load_processed_symbols_for_today d' disk) /\
  (forall (today : string) (disk : Disk.t),
      Exit.processed_symbols_today (Exit.main_start today disk)
      = Exit.load_processed_symbols_for_today today disk) /\
  (forall (today : string) (labels : gmap string string) (order : Broker.order)
          (st : Exit.state),
      Exit.sent (Exit.main_body today labels order st) <> Exit.sent st ->
      Broker.Symbol order ∈
        Exit.load_processed_symbols_for_today today
          (Exit.disk (Exit.main_body today labels order st))) /\
  (forall (w : Entry.cycle_world) (p : Entry.process) (disk1 disk2 : Disk.t),
      Entry.out_sent (Entry.main_prod w p disk1)
      = Entry.out_sent (Entry.main_prod w p disk2)) /\
  (forall (w : Entry.cycle_world) (p : Entry.process) (disk : Disk.t),
      Disk.processed_orders (Entry.out_disk (Entry.main_prod w p disk))
      = Disk.processed_orders disk) /\
  (forall (today : string) (orders : list Broker.order) (st1 st2 : Exit.state),
      Exit.same_but_ledger st1 st2 ->
      Exit.sent (Exit.main_iteration today orders st1)
      = Exit.sent (Exit.main_iteration today orders st2)).
Proof.
  split; [exact load_save_same|].
  split; [exact load_save_keeps|].
  split; [exact load_save_other|].
  split; [reflexivity|].
  split; [exact main_body_records_symbol|].
  split; [exact main_prod_ignores_disk|].
  split; [exact main_prod_keeps_ledger|].
  intros today orders st1 st2 H.
  now destruct (main_iteration_same_but_ledger today orders st1 st2 H) as (_ & _ & _ & E).
Qed.

(** The ledger at work on 2025-03-03 and 2025-03-04, and a restart of the
    exit controller whose ledger records 6758: it sends what a controller
    with an empty ledger sends. *)
Lemma ledger_kept_but_never_consulted_witness :
  "7203" ∈ Exit.load_processed_symbols_for_today "2025-03-03"
             (Exit.save_processed_symbol_for_today "2025-03-03" "6758"
                Scenario.ledger_with_7203) /\
  Exit.load_processed_symbols_for_today "2025-03-04"
    (Exit.save_processed_symbol_for_today "2025-03-03" "6758" Scenario.ledger_with_7203)
  = Exit.load_processed_symbols_for_today "2025-03-04" Scenario.ledger_with_7203 /\
  Exit.sent (Exit.main_iteration "2025-03-03" [Scenario.filled_buy]
               (Exit.main_start "2025-03-03"
                  (Exit.save_processed_symbol_for_today "2025-03-03" "6758" Disk.empty)))
  = Exit.sent (Exit.main_iteration "2025-03-03" [Scenario.filled_buy]
                 (Exit.main_start "2025-03-03" Disk.empty)).
Proof.
  destruct ledger_kept_but_never_consulted as (_ & Hkeep & Hother & _ & _ & _ & _ & Hsame).
  split; [|split].
  - apply Hkeep. decide_by_computation.
  - apply Hother. discriminate.
  - apply Hsame. repeat split.
Defined.

(** C2, at a failing run. The exit controller is restarted on 2025-03-03
    with 6758 recorded under that date in the ledger; the set that it loads
    holds 6758, and it posts a sell order for 6758 all the same, for the
    filled buy order that the broker lists. The entry controller does no
    better: with 7203 recorded under 2025-03-03, the cycle of 09:00 on that
    day posts a buy order for 7203. *)
Lemma recorded_symbol_is_ordered_again :
  "7203" ∈ Exit.load_processed_symbols_for_today "2025-03-03" Scenario.ledger_with_7203 /\
  Clock.str_date (Entry.now (Entry.observe Scenario.cycle_0900 0)) = "2025-03-03" /\
  Entry.out_sent (Entry.main_prod Scenario.cycle_0900 Entry.fresh_process
                    Scenario.ledger_with_7203)
  = [{| Entry.bo_Symbol := "7203"; Entry.bo_Price := 1040; Entry.bo_Qty := 200 |}] /\
  "6758" ∈ Exit.processed_symbols_today
             (Exit.main_start "2025-03-03"
                (Exit.save_processed_symbol_for_today "2025-03-03" "6758" Disk.empty)) /\
  Exit.sent (Exit.main_iteration "2025-03-03" [Scenario.filled_buy]
               (Exit.main_start "2025-03-03"
                  (Exit.save_processed_symbol_for_today "2025-03-03" "6758" Disk.empty)))
  = [{| Exit.so_Symbol := "6758"; Exit.so_Qty := 200; Exit.so_Price := 1035 |}].
Proof.
  split; [decide_by_computation|].
  split; [vm_compute; reflexivity|].
  split; [vm_compute; reflexivity|].
  split; [decide_by_computation|].
  vm_compute; reflexivity.
Qed.

(** C9, as the code has it. A missing quote, a quote that is not positive
    and a disclosure time that does not parse each make the entry loop pass
    to the next disclosure with its state unchanged; a filled buy order whose
    execution records sum to no quantity makes the exit loop pass to the next
    order with its state unchanged. A missing capitalization is not such a
    defect: the body runs as it does for a capitalization of 0. *)
Theorem data_defects_skip_one_element :
  (forall (obs : nat -> Entry.observation) (i : nat) (info : Entry.disclosure)
          (rest : list Entry.disclosure) (st : Entry.cycle_state),
      Entry.current_price (obs i) = None ->
      Entry.main_prod_loop obs i (info :: rest) st
      = Entry.main_prod_loop obs (S i) rest st) /\
  (forall (obs : nat -> Entry.observation) (i : nat) (info : Entry.disclosure)
          (rest : list Entry.disclosure) (st : Entry.cycle_state) (price : Q),
      Entry.current_price (obs i) = Some price -> (price <= 0)%Q ->
      Entry.main_prod_loop obs i (info :: rest) st
      = Entry.main_prod_loop obs (S i) rest st) /\
  (forall (obs : nat -> Entry.observation) (i : nat) (info : Entry.disclosure)
          (rest : list Entry.disclosure) (st : Entry.cycle_state),
      Entry.parse_announcement_datetime (Entry.now (obs i)) (Entry.time_text info) = None ->
      Entry.main_prod_loop obs i (info :: rest) st
      = Entry.main_prod_loop obs (S i) rest st) /\
  (forall now : Clock.datetime,
      Entry.parse_announcement_datetime now "" = None /\
      Entry.parse_announcement_datetime now "0900" = None /\
      Entry.parse_announcement_datetime now "9:x5" = None /\
      Entry.parse_announcement_datetime now "1:2:3" = None /\
      Entry.parse_announcement_datetime now "2025/03/03 9:05" = None /\
      Entry.parse_announcement_datetime now "2025/02/30 09:00" = None /\
      Entry.parse_announcement_datetime now "2025/03/03 24:00" = None) /\
  (forall (today : string) (labels : gmap string string) (order : Broker.order)
          (rest : list Broker.order) (st : Exit.state),
      ((Exit.fill_totals (Broker.Details order)).2 == 0)%Q ->
      fold_left (fun st order => Exit.main_body today labels order st) (order :: rest) st
      = fold_left (fun st order => Exit.main_body today labels order st) rest st) /\
  (forall (obs : Entry.observation) (info : Entry.disclosure) (st : Entry.cycle_state),
      Entry.total_market_value obs = None ->
      Entry.main_prod_body obs info st
      = Entry.main_prod_body
          {| Entry.now := Entry.now obs;
             Entry.current_price := Entry.current_price obs;
             Entry.total_market_value := Some 0%Q |} info st).
Proof.
  split; [|split; [|split; [|split; [|split]]]].
  - intros obs i info rest st H. simpl. now rewrite skip_without_quote.
  - intros obs i info rest st price H Hle. simpl.
    now rewrite (skip_nonpositive_quote _ _ _ price).
  - intros obs i info rest st H. simpl. now rewrite skip_malformed_time.
  - intros now. repeat split; reflexivity.
  - intros today labels order rest st H. simpl.
    now rewrite main_body_skips_empty_fill.
  - intros obs info st H. unfold Entry.main_prod_body; simpl. now rewrite H.
Qed.

(** The defects on concrete data: the disclosure of 7203 with no quote, and
    a filled buy order without execution records. *)
Lemma data_defects_skip_one_element_witness :
  Entry.main_prod_loop
    (fun _ => {| Entry.now := Scenario.on_the_day 9 0 3 500000;
                 Entry.current_price := None;
                 Entry.total_market_value := Some (50000000000 # 1) |})
    0 [Scenario.alliance; Scenario.revision]
    {| Entry.proc := Entry.fresh_process; Entry.purchased_orders := [];
       Entry.sent := [] |}
  = Entry.main_prod_loop
      (fun _ => {| Entry.now := Scenario.on_the_day 9 0 3 500000;
                   Entry.current_price := None;
                   Entry.total_market_value := Some (50000000000 # 1) |})
      1 [Scenario.revision]
      {| Entry.proc := Entry.fresh_process; Entry.purchased_orders := [];
         Entry.sent := [] |} /\
  fold_left (fun st order => Exit.main_body "2025-03-03" ∅ order st)
    [{| Broker.ID := "B1"; Broker.Side := "2"; Broker.State := 5;
        Broker.CumQty := 100 # 1; Broker.OrderQty := 100 # 1;
        Broker.Symbol := "6758"; Broker.Details := [] |}; Scenario.filled_buy]
    (Exit.main_start "2025-03-03" Disk.empty)
  = fold_left (fun st order => Exit.main_body "2025-03-03" ∅ order st)
      [Scenario.filled_buy] (Exit.main_start "2025-03-03" Disk.empty).
Proof.
  destruct data_defects_skip_one_element as (Hquote & _ & _ & _ & Hfill & _).
  split.
  - apply Hquote. reflexivity.
  - apply Hfill. reflexivity.
Defined.

(** C9 fails as stated: for the fresh disclosure of 7203 with a quote of
    1000 yen and no capitalization in the symbol information, the entry loop
    posts a buy order: 100 shares at 1009 yen. *)
Lemma missing_capitalization_is_ordered :
  Entry.total_market_value (Scenario.seen_at 9 0 None) = None /\
  exists st,
    Entry.main_prod_body (Scenario.seen_at 9 0 None) Scenario.alliance
      {| Entry.proc := Entry.fresh_process; Entry.purchased_orders := [];
         Entry.sent := [] |} = Py.Ok st /\
    Entry.sent st
    = [{| Entry.bo_Symbol := "7203"; Entry.bo_Price := 1009; Entry.bo_Qty := 100 |}].
Proof.
  split; [reflexivity|]. eexists. split; [vm_compute; reflexivity|reflexivity].
Qed.

(** ** Claims about the exit price *)

Section ExitPrice.
Import Py Broker Exit.

(** Only the execution records (RecType 8) count in the sums. *)
Lemma fill_totals_filter (details : list detail) :
  fill_totals details = fill_totals (filter (fun d => RecType d = 8) details).
Proof.
  unfold fill_totals. generalize (0%Q, 0%Q).
  induction details as [| d rest IH]; intros acc; [reflexivity|].
  rewrite filter_cons. case_decide as H8; simpl.
  - apply IH.
  - rewrite IH. f_equal. destruct acc as [tp tq].
    destruct (Price d), (Qty d); try reflexivity.
    destruct (Z.eqb_spec (RecType d) 8); [contradiction|reflexivity].
Qed.

End ExitPrice.

(** C7, as the code has it. For a buy order of 200 shares, fully filled,
    not yet converted, whose execution records are 100 shares at 1000 and 100
    shares at 1010, bought under a label whose multiplier is 1.02: the
    fill-weighted average is 1005, the raw sell price is
    1005 * 1.03 * 1.02 = 1055.853, and the exit controller posts one sell
    order for 200 shares at the quantized price 1055. *)
Theorem exit_price_of_two_fills (today : string) (labels : gmap string string)
    (label : string) (order : Broker.order) (st : Exit.state)
    (Hside : Broker.Side order = "2")
    (Hstate : Broker.State order = 5)
    (Hcum : Broker.CumQty order = 200 # 1)
    (Hqty : Broker.OrderQty order = 200 # 1)
    (Hfills : filter (fun d => Broker.RecType d = 8) (Broker.Details order)
              = [{| Broker.RecType := 8; Broker.Price := Some (1000 # 1);
                    Broker.Qty := Some (100 # 1) |};
                 {| Broker.RecType := 8; Broker.Price := Some (1010 # 1);
                    Broker.Qty := Some (100 # 1) |}])
    (Hnew : Broker.ID order ∉ Exit.processed_order_ids st)
    (Hlabel : labels !! Broker.Symbol order = Some label)
    (Hratio : Exit.LABEL_RATIO_MAP !! label = Some (102 # 100)) :
  let totals := Exit.fill_totals (Broker.Details order) in
  (totals.1 / totals.2 == 1005 # 1)%Q /\
  (Exit.tmp_price (totals.1 / totals.2) (Some label) == 1055853 # 1000)%Q /\
  Exit.sent (Exit.main_body today labels order st)
  = Exit.sent st ++ [{| Exit.so_Symbol := Broker.Symbol order;
                        Exit.so_Qty := 200; Exit.so_Price := 1055 |}] /\
  Broker.ID order ∈ Exit.processed_order_ids (Exit.main_body today labels order st).
Proof.
  assert (Hne : label <> "").
  { intros ->. vm_compute in Hratio. discriminate Hratio. }
  assert (Htmp : forall avg, Exit.tmp_price avg (Some label)
                             = (avg * ((103 # 100) * (102 # 100)))%Q).
  { intros avg. unfold Exit.tmp_price, Exit.get_additional_ratio_for_label.
    rewrite Hratio. now rewrite bool_decide_false. }
  assert (Htot : Exit.fill_totals (Broker.Details order)
                 = ((0 + (1000 # 1) * (100 # 1) + (1010 # 1) * (100 # 1))%Q,
                    (0 + (100 # 1) + (100 # 1))%Q)).
  { rewrite fill_totals_filter, Hfills. reflexivity. }
  intros totals. unfold totals. rewrite Htot. simpl fst. simpl snd.
  split; [reflexivity|]. split; [rewrite Htmp; reflexivity|].
  unfold Exit.main_body.
  rewrite Hside, Hstate, Hcum, Hqty, Htot, Hlabel, Htmp.
  rewrite (bool_decide_false (Broker.ID order ∈ _)) by exact Hnew.
  rewrite (bool_decide_true ("2" = "2")) by reflexivity. simpl.
  split; [reflexivity|]. apply elem_of_union_l. now apply elem_of_singleton.
Qed.

(** From the disclosure to the exit: the entry cycle for 6758 buys under the
    label "上方修正 + 増配" and logs it; the exit controller, started the same
    day, finds the order filled at 1000 and 1010 and posts the sale. *)
Lemma exit_price_of_two_fills_witness :
  Exit.sent (Exit.main_body "2025-03-03"
               (Exit.load_purchased_info_for_today "2025-03-03" Scenario.disk_after_6758)
               Scenario.filled_buy
               (Exit.main_start "2025-03-03" Scenario.disk_after_6758))
  = [{| Exit.so_Symbol := "6758"; Exit.so_Qty := 200; Exit.so_Price := 1055 |}].
Proof.
  refine (proj1 (proj2 (proj2
    (exit_price_of_two_fills "2025-03-03"
       (Exit.load_purchased_info_for_today "2025-03-03" Scenario.disk_after_6758)
       "上方修正 + 増配" Scenario.filled_buy
       (Exit.main_start "2025-03-03" Scenario.disk_after_6758) _ _ _ _ _ _ _ _)))).
  - reflexivity.
  - reflexivity.
  - reflexivity.
  - reflexivity.
  - reflexivity.
  - apply not_elem_of_empty.
  - vm_compute. reflexivity.
  - vm_compute. reflexivity.
Defined.

(** C7 fails as stated: the raw sell price of the example is 1055.853, more
    than 0.7 below the 1056.6 of the claim, and its quantized price is 1055,
    where 1056.6 would give 1056. *)
Lemma exit_raw_price_is_not_1056_6 :
  (Exit.tmp_price (1005 # 1) (Some "上方修正 + 増配") == 1055853 # 1000)%Q /\
  ~ ((10566 # 10) - (7 # 10) <= Exit.tmp_price (1005 # 1) (Some "上方修正 + 増配"))%Q /\
  Tick.round_sell_price_for_rules (Exit.tmp_price (1005 # 1) (Some "上方修正 + 増配"))
  = 1055 /\
  Tick.round_sell_price_for_rules (10566 # 10) = 1056.
Proof.
  split; [vm_compute; reflexivity|].
  split; [|split; vm_compute; reflexivity].
  intros H. vm_compute in H. apply H. reflexivity.
Qed.

(** ** Facts about the stop-loss controller *)

Section LosscutFacts.
Import Py Broker Losscut.

Lemma int_opp (x : Q) : int (- x) = - int x.
Proof. destruct x as [n d]. unfold int; simpl. apply Z.quot_opp_l. lia. Qed.

(** [int] gives one result on equal rationals. *)
Lemma int_Qeq (x y : Q) : (x == y)%Q -> int x = int y.
Proof.
  intros E. destruct (Qlt_le_dec x 0) as [Hneg | Hpos].
  - assert (Hx : (0 <= - x)%Q).
    { apply Qlt_le_weak in Hneg. apply Qopp_le_compat in Hneg. exact Hneg. }
    assert (Hy : (0 <= - y)%Q) by (now rewrite <- E).
    assert (H : int (- x) = int (- y)).
    { rewrite !int_nonneg_floor by assumption. apply Qfloor_comp. now rewrite E. }
    rewrite !int_opp in H. lia.
  - assert (Hy : (0 <= y)%Q) by (now rewrite <- E).
    rewrite !int_nonneg_floor by assumption. now apply Qfloor_comp.
Qed.

(** Positions that the loop does not store leave the entry of a symbol as
    it is. *)
Lemma build_position_dict_skips (sym : string) (l : list position) :
  (forall p, p ∈ l -> pos_Symbol p = Some sym ->
             pos_Price p = None \/ pos_CurrentPrice p = None) ->
  forall m : gmap string pos_info,
    fold_left
      (fun position_dict pos =>
         match pos_Symbol pos, pos_Price pos, pos_CurrentPrice pos with
         | Some symbol, Some buy_price, Some curr_price =>
             if bool_decide (symbol = "") then position_dict
             else <[symbol := {| buy_price := float buy_price;
                                 current_price := float curr_price;
                                 side := pos_Side pos |}]> position_dict
         | _, _, _ => position_dict
         end) l m !! sym
    = m !! sym.
Proof.
  induction l as [| a rest IH]; intros Hl m; simpl; [reflexivity|].
  rewrite IH by (intros p Hp; apply Hl, elem_of_cons; now right).
  destruct (pos_Symbol a) as [s|] eqn:Hs; [|reflexivity].
  destruct (pos_Price a) as [bp|] eqn:Hp; [|reflexivity].
  destruct (pos_CurrentPrice a) as [cp|] eqn:Hc; [|reflexivity].
  case_bool_decide; [reflexivity|].
  destruct (decide (s = sym)) as [-> | Hne].
  - assert (Ha : a ∈ a :: rest) by (apply elem_of_cons; now left).
    destruct (Hl a Ha Hs) as [H' | H']; congruence.
  - now rewrite lookup_insert_ne.
Qed.

(** The position that the dictionary holds for a symbol is the last one
    listed with that symbol and both prices, with its prices as floats. *)
Lemma build_position_dict_last (before after : list position) (pos : position)
    (sym : string) (bp cp : Q) :
  pos_Symbol pos = Some sym -> sym <> "" ->
  pos_Price pos = Some bp -> pos_CurrentPrice pos = Some cp ->
  (forall p, p ∈ after -> pos_Symbol p = Some sym ->
             pos_Price p = None \/ pos_CurrentPrice p = None) ->
  build_position_dict (before ++ pos :: after) !! sym
  = Some {| buy_price := float bp; current_price := float cp;
            side := pos_Side pos |}.
Proof.
  intros Hs Hne Hp Hc Hafter. unfold build_position_dict.
  rewrite fold_left_app; simpl. rewrite Hs, Hp, Hc.
  rewrite bool_decide_false by exact Hne.
  rewrite (build_position_dict_skips sym after Hafter). apply lookup_insert_eq.
Qed.

(** The actions of an iteration are those of its orders, in their order. *)
Lemma main_iteration_contains (positions : list position) (orders : list order)
    (od : order) :
  od ∈ orders ->
  exists before after,
    main_iteration positions orders
    = before ++ main_body (build_position_dict positions) od ++ after.
Proof.
  intros Hin. apply list_elem_of_split in Hin as (l1 & l2 & ->).
  unfold main_iteration. rewrite flat_map_app; simpl.
  exists (flat_map (main_body (build_position_dict positions)) l1),
         (flat_map (main_body (build_position_dict positions)) l2 ++ [sleep 2]).
  now rewrite <- !app_assoc.
Qed.

(** The body of the loop on an order that is not fully filled, when the
    entry of its symbol passes the test of the threshold. *)
Lemma main_body_breached (position_dict : gmap string pos_info) (od : order)
    (pos : pos_info) (remainder : Z) :
  Side od = "1" ->
  position_dict !! Symbol od = Some pos ->
  (current_price pos <= fmul (buy_price pos) (97 # 100))%Q ->
  (CumQty od < OrderQty od)%Q ->
  (OrderQty od - CumQty od == inject_Z remainder)%Q ->
  main_body position_dict od
  = [cancel_order (ID od); sleep 1;
     send_order (Symbol od) remainder
       (Tick.adjust_price_to_tick (fmul (buy_price pos) (95 # 100)))].
Proof.
  intros Hside Hpos Hbreach Hopen Hrem. unfold main_body.
  rewrite bool_decide_true by exact Hside.
  assert (Hlt : Qle_bool (OrderQty od) (CumQty od) = false).
  { destruct (Qle_bool _ _) eqn:E; [|reflexivity]. apply Qle_bool_iff in E.
    exfalso. apply (Qlt_irrefl (CumQty od)).
    now apply Qlt_le_trans with (OrderQty od). }
  rewrite Hlt, orb_true_r. rewrite Hpos.
  apply Qle_bool_iff in Hbreach. rewrite Hbreach.
  rewrite (int_Qeq _ _ Hrem), int_inject_Z.
  assert (Hr : 0 < remainder).
  { rewrite Zlt_Qlt. change (inject_Z 0) with 0%Q. rewrite <- Hrem. lra. }
  destruct (Z.ltb_spec 0 remainder); [reflexivity|lia].
Qed.

End LosscutFacts.

(** ** Claims about the stop-loss controller *)

(** C8, as the code has it. The controller keeps one position per symbol,
    the last one listed with a symbol and both prices, with the prices as
    floats. For a sell order of a symbol whose kept position passes the test
    of the code, the current price at or below the binary64 product of the
    entry price and 0.97: if the order is not terminal and not fully filled,
    the controller cancels it, pauses one second and sends a sell order for
    the unfilled remainder (a whole number of shares) at the binary64 product
    of the entry price and 0.95, quantized. No new order is sent when the
    remainder is zero or less, and a sell order that is terminal and fully
    filled causes no action. The actions of each order appear, in order, in
    those of the iteration. *)
Theorem stop_loss_cancels_and_replaces_remainder :
  (forall (position_dict : gmap string Losscut.pos_info) (od : Broker.order)
          (pos : Losscut.pos_info) (remainder : Z),
      Broker.Side od = "1" ->
      position_dict !! Broker.Symbol od = Some pos ->
      (Losscut.current_price pos <= Py.fmul (Losscut.buy_price pos) (97 # 100))%Q ->
      Broker.State od <> 5 ->
      (Broker.CumQty od < Broker.OrderQty od)%Q ->
      (Broker.OrderQty od - Broker.CumQty od == inject_Z remainder)%Q ->
      Losscut.main_body position_dict od
      = [Losscut.cancel_order (Broker.ID od);
         Losscut.sleep 1;
         Losscut.send_order (Broker.Symbol od) remainder
           (Tick.adjust_price_to_tick (Py.fmul (Losscut.buy_price pos) (95 # 100)))]) /\
  (forall (position_dict : gmap string Losscut.pos_info) (od : Broker.order),
      (Broker.OrderQty od - Broker.CumQty od <= 0)%Q ->
      forall (symbol : string) (qty price : Z),
        Losscut.send_order symbol qty price ∉ Losscut.main_body position_dict od) /\
  (forall (position_dict : gmap string Losscut.pos_info) (od : Broker.order),
      Broker.State od = 5 ->
      (Broker.OrderQty od <= Broker.CumQty od)%Q ->
      Losscut.main_body position_dict od = []) /\
  (forall (positions : list Broker.position) (orders : list Broker.order)
          (od : Broker.order),
      od ∈ orders ->
      exists before after,
        Losscut.main_iteration positions orders
        = before ++ Losscut.main_body (Losscut.build_position_dict positions) od
                 ++ after) /\
  (forall (before after : list Broker.position) (pos : Broker.position)
          (sym : string) (bp cp : Q),
      Broker.pos_Symbol pos = Some sym -> sym <> "" ->
      Broker.pos_Price pos = Some bp -> Broker.pos_CurrentPrice pos = Some cp ->
      (forall p, p ∈ after -> Broker.pos_Symbol p = Some sym ->
                 Broker.pos_Price p = None \/ Broker.pos_CurrentPrice p = None) ->
      Losscut.build_position_dict (before ++ pos :: after) !! sym
      = Some {| Losscut.buy_price := Py.float bp; Losscut.current_price := Py.float cp;
                Losscut.side := Broker.pos_Side pos |}) /\
  (forall (before after : list Broker.position) (pos : Broker.position)
          (bp cp : Q) (orders : list Broker.order) (od : Broker.order)
          (remainder : Z),
      Broker.pos_Symbol pos = Some (Broker.Symbol od) -> Broker.Symbol od <> "" ->
      Broker.pos_Price pos = Some bp -> Broker.pos_CurrentPrice pos = Some cp ->
      (forall p, p ∈ after -> Broker.pos_Symbol p = Some (Broker.Symbol od) ->
                 Broker.pos_Price p = None \/ Broker.pos_CurrentPrice p = None) ->
      (Py.float cp <= Py.fmul (Py.float bp) (97 # 100))%Q ->
      od ∈ orders ->
      Broker.Side od = "1" ->
      Broker.State od <> 5 ->
      (Broker.CumQty od < Broker.OrderQty od)%Q ->
      (Broker.OrderQty od - Broker.CumQty od == inject_Z remainder)%Q ->
      exists earlier later,
        Losscut.main_iteration (before ++ pos :: after) orders
        = earlier
          ++ [Losscut.cancel_order (Broker.ID od);
              Losscut.sleep 1;
              Losscut.send_order (Broker.Symbol od) remainder
                (Tick.adjust_price_to_tick (Py.fmul (Py.float bp) (95 # 100)))]
          ++ later).
Proof.
  split; [|split; [|split; [|split; [|split]]]].
  - intros pd od pos r Hside Hpos Hbreach _ Hopen Hrem.
    now apply main_body_breached.
  - intros pd od Hrem symbol qty price. unfold Losscut.main_body.
    assert (Hint : Py.int (Broker.OrderQty od - Broker.CumQty od) <= 0)
      by (now apply int_nonpos).
    destruct (Z.ltb_spec 0 (Py.int (Broker.OrderQty od - Broker.CumQty od)));
      [lia|].
    case_bool_decide; [|apply not_elem_of_nil].
    destruct (_ || _); [|apply not_elem_of_nil].
    destruct (pd !! Broker.Symbol od); [|apply not_elem_of_nil].
    destruct (Qle_bool _ _); [|apply not_elem_of_nil].
    simpl. intros Hin. apply list_elem_of_singleton in Hin. discriminate Hin.
  - intros pd od Hstate Hfull. unfold Losscut.main_body.
    case_bool_decide; [|reflexivity].
    rewrite Hstate. apply Qle_bool_iff in Hfull. now rewrite Hfull.
  - exact main_iteration_contains.
  - exact build_position_dict_last.
  - intros before after pos bp cp orders od r Hs Hne Hp Hc Hafter Hbreach Hod
           Hside _ Hopen Hrem.
    destruct (main_iteration_contains (before ++ pos :: after) orders od Hod)
      as (earlier & later & E).
    exists earlier, later. rewrite E. f_equal. f_equal.
    apply (main_body_breached _ od
             {| Losscut.buy_price := Py.float bp; Losscut.current_price := Py.float cp;
                Losscut.side := Broker.pos_Side pos |} r);
      try assumption.
    now apply build_position_dict_last.
Qed.

(** The position in 8035 (entry 4000, now 3880; the product of 4000 and 0.97
    is the float 3880) with its open sell order of 300 shares, 100 of them
    sold, and its finished one: the open one is cancelled and replaced by 200
    shares at 3800. *)
Lemma stop_loss_cancels_and_replaces_remainder_witness :
  Losscut.main_body (Losscut.build_position_dict [Scenario.falling_position])
    Scenario.open_sell
  = [Losscut.cancel_order "20250303A02N00000007";
     Losscut.sleep 1;
     Losscut.send_order "8035" 200 3800] /\
  Losscut.main_body (Losscut.build_position_dict [Scenario.falling_position])
    Scenario.finished_sell = [] /\
  exists earlier later,
    Losscut.main_iteration [Scenario.falling_position]
      [Scenario.finished_sell; Scenario.open_sell]
    = earlier
      ++ [Losscut.cancel_order "20250303A02N00000007";
          Losscut.sleep 1;
          Losscut.send_order "8035" 200 3800]
      ++ later.
Proof.
  destruct stop_loss_cancels_and_replaces_remainder
    as (Hopen & _ & Hdone & _ & Hdict & Hiter).
  assert (Hprice : Tick.adjust_price_to_tick (Py.fmul (Py.float (4000 # 1)) (95 # 100))
                   = 3800) by (vm_compute; reflexivity).
  split; [|split].
  - rewrite <- Hprice.
    apply (Hopen _ Scenario.open_sell
             {| Losscut.buy_price := Py.float (4000 # 1);
                Losscut.current_price := Py.float (3880 # 1);
                Losscut.side := "2" |} 200).
    + reflexivity.
    + apply (Hdict [] [] Scenario.falling_position "8035" (4000 # 1) (3880 # 1));
        [reflexivity|discriminate|reflexivity|reflexivity|].
      intros p Hp. now apply elem_of_nil in Hp.
    + apply Qle_bool_iff. vm_compute. reflexivity.
    + discriminate.
    + unfold Qlt; simpl; lia.
    + reflexivity.
  - apply Hdone; [reflexivity|unfold Qle; simpl; lia].
  - rewrite <- Hprice.
    apply (Hiter [] [] Scenario.falling_position (4000 # 1) (3880 # 1)
             [Scenario.finished_sell; Scenario.open_sell] Scenario.open_sell 200).
    + reflexivity.
    + discriminate.
    + reflexivity.
    + reflexivity.
    + intros p Hp. now apply elem_of_nil in Hp.
    + apply Qle_bool_iff. vm_compute. reflexivity.
    + apply elem_of_cons; right. apply elem_of_cons; left. reflexivity.
    + reflexivity.
    + discriminate.
    + unfold Qlt; simpl; lia.
    + reflexivity.
Defined.

(** C8 fails as stated, in two ways. A position in 8035 at 3880, 97% of its
    entry price of 4000, is listed before a second position in 8035 bought at
    3900: the controller keeps the second one, and the open sell order of
    8035 is left alone. And a position bought at 560 and now at 543.2, which
    is 97% of 560, does not pass the test: the binary64 product of 560 and
    0.97 lies below the float 543.2. *)
Lemma stop_loss_misses_breached_positions :
  (3880 # 1 <= (4000 # 1) * (97 # 100))%Q /\
  Losscut.main_iteration [Scenario.falling_position; Scenario.later_position]
    [Scenario.finished_sell; Scenario.open_sell]
  = [Losscut.sleep 2] /\
  (2716 # 5 <= (560 # 1) * (97 # 100))%Q /\
  (Py.fmul (Py.float (560 # 1)) (97 # 100) < Py.float (2716 # 5))%Q /\
  Losscut.main_iteration [Scenario.position_at_97_percent]
    [Scenario.finished_sell; Scenario.open_sell]
  = [Losscut.sleep 2].
Proof.
  split; [unfold Qle; simpl; lia|].
  split; [vm_compute; reflexivity|].
  split; [unfold Qle; simpl; lia|].
  split; [vm_compute; reflexivity|].
  vm_compute; reflexivity.
Qed.

(** ** The concrete computations, in binary64 *)

(** The float computations behind the concrete runs above give, in IEEE
    binary64 and in the order of operations of the source, the integers that
    the exact rationals give. *)
Lemma binary64_agrees_on_the_examples :
  (* exit price of the two fills, with and without the label multiplier *)
  Binary64.int ((0 + 1000 * 100 + 1010 * 100) / (0 + 100 + 100) * (1.03 * 1.02))%float
  = Some 1055 /\
  Binary64.int ((0 + 1000 * 100 + 1010 * 100) / (0 + 100 + 100) * 1.03)%float
  = Some 1035 /\
  (* entry prices: quote 1000 at 50e9 with and without material, quote 1000
     without capitalization, quote 1002 at 10e9 *)
  Binary64.round (1000 * 1.01 * (1 * 1.03))%float = Some 1040 /\
  Binary64.round (1000 * 1.01 * 1)%float = Some 1010 /\
  Binary64.round (1000 * 0.98 * (1 * 1.03))%float = Some 1009 /\
  Binary64.round (1002 * 0.98 * (1 * 1.03))%float = Some 1011 /\
  (* adjusted budgets *)
  Binary64.int (1000000 * 0.25)%float = Some 250000 /\
  Binary64.int (1000000 * 0.2)%float = Some 200000 /\
  Binary64.int (1500000 * 0.2)%float = Some 300000 /\
  (* stop-loss threshold and replacement price of the position at 4000 *)
  (3880 <=? 4000 * 0.97)%float = true /\
  Binary64.int (4000 * 0.95)%float = Some 3800 /\
  (* the raw price 2999.6 on the buy side and on the sell side *)
  Binary64.round 2999.6%float = Some 3000 /\
  Binary64.int 2999.6%float = Some 2999.
Proof. repeat split; vm_compute; reflexivity. Qed.

(** [Py.float] and [Py.fmul] against the primitive floats: the products of
    the stop-loss controller for 200 entry prices up to 6000 yen, with its
    test at exactly 97% of each, the budget products of the base budgets for
    the factors 0.05 to 6.00 in steps of 0.05, and the cases at which the
    exact product differs. *)
Lemma binary64_products_agree :
  forallb Binary64.stop_loss_agrees Binary64.sample_prices = true /\
  forallb (fun k => Binary64.budget_agrees 500000 k
                    && Binary64.budget_agrees 1000000 k
                    && Binary64.budget_agrees 1250000 k
                    && Binary64.budget_agrees 1500000 k)
          (map (fun i => 5 * Z.of_nat i) (seq 1 120)) = true /\
  Binary64.denotes (Py.float (2716 # 5)) 543.2%float = true /\
  Binary64.denotes (Py.fmul (Py.float (560 # 1)) (97 # 100)) (560 * 0.97)%float = true /\
  (543.2 <=? 560 * 0.97)%float = false /\
  Binary64.int (1500000 * 0.29)%float = Some 434999 /\
  Py.int (Py.fmul (inject_Z 1500000) (29 # 100)) = 434999 /\
  Binary64.denotes (Py.float (1 # 2 ^ 1074)) 0x1p-1074%float = true /\
  Binary64.denotes (Py.float (3 # 2 ^ 1075)) 0x1p-1073%float = true /\
  Binary64.denotes (Py.float (1 # 2 ^ 1075)) 0%float = true.
Proof. repeat split; vm_compute; reflexivity. Qed.

(** * Further properties of the code *)

(** ** The rows kept by the scraper *)

Section ScrapeFacts.
Import Py Entry.

Lemma unique_by_symbol_spec (l : list disclosure) :
  forall seen : gset string,
    NoDup (symbol <$> unique_by_symbol seen l) /\
    (forall d, d ∈ unique_by_symbol seen l -> d ∈ l /\ symbol d ∉ seen) /\
    (forall d, d ∈ l -> symbol d ∉ seen ->
               exists d', d' ∈ unique_by_symbol seen l /\ symbol d' = symbol d).
Proof.
  induction l as [| a rest IH]; intros seen; simpl.
  - split; [apply NoDup_nil_2|]. split; intros d Hd; now apply elem_of_nil in Hd.
  - case_bool_decide as Hseen.
    + destruct (IH seen) as (Hnd & Hsub & Hcov). split; [exact Hnd|]. split.
      * intros d Hd. destruct (Hsub d Hd). split; [now apply elem_of_cons; right|done].
      * intros d Hd Hn. apply elem_of_cons in Hd as [-> | Hd]; [contradiction|].
        now apply Hcov.
    + destruct (IH ({[symbol a]} ∪ seen)) as (Hnd & Hsub & Hcov). split; [|split].
      * rewrite fmap_cons. apply NoDup_cons. split; [|exact Hnd].
        intros Hin. apply list_elem_of_fmap in Hin as (d & Hs & Hd).
        destruct (Hsub d Hd) as [_ Hn]. apply Hn. rewrite <- Hs.
        apply elem_of_union_l. now apply elem_of_singleton.
      * intros d Hd. apply elem_of_cons in Hd as [-> | Hd].
        -- split; [apply elem_of_cons; now left|exact Hseen].
        -- destruct (Hsub d Hd) as [Hin Hn]. split; [apply elem_of_cons; now right|].
           intros Hs. apply Hn. now apply elem_of_union_r.
      * intros d Hd Hn. destruct (decide (symbol d = symbol a)) as [E | Hne].
        -- exists a. split; [apply elem_of_cons; now left|now symmetry].
        -- apply elem_of_cons in Hd as [-> | Hd]; [contradiction|].
           destruct (Hcov d Hd) as (d' & Hd' & Hs).
           { intros Hin. apply elem_of_union in Hin as [Hin | Hin]; [|contradiction].
             apply elem_of_singleton in Hin. contradiction. }
           exists d'. split; [apply elem_of_cons; now right|exact Hs].
Qed.

Lemma unique_by_symbol_first (l1 l2 : list disclosure) (d : disclosure) :
  forall seen : gset string,
    symbol d ∉ seen ->
    (forall d', d' ∈ l1 -> symbol d' <> symbol d) ->
    d ∈ unique_by_symbol seen (l1 ++ d :: l2).
Proof.
  induction l1 as [| a rest IH]; intros seen Hseen Hfirst; simpl.
  - rewrite bool_decide_false by exact Hseen. apply elem_of_cons. now left.
  - assert (Ha : symbol a <> symbol d) by (apply Hfirst, elem_of_cons; now left).
    assert (Hrest : forall d', d' ∈ rest -> symbol d' <> symbol d).
    { intros d' Hd'. apply Hfirst, elem_of_cons. now right. }
    case_bool_decide.
    + now apply IH.
    + apply elem_of_cons. right. apply IH; [|exact Hrest].
      intros Hin. apply elem_of_union in Hin as [Hin | Hin]; [|contradiction].
      apply elem_of_singleton in Hin. congruence.
Qed.

End ScrapeFacts.

(** X1. Of the rows collected from the page the scraper returns rows of
    pairwise distinct symbols, all of them collected rows; every symbol
    collected is returned, with the first row that carries it. *)
Theorem scraper_keeps_first_row_of_each_symbol (target_disclosures : list Entry.disclosure) :
  NoDup (Entry.symbol <$> Entry.unique_by_symbol ∅ target_disclosures) /\
  (forall d, d ∈ Entry.unique_by_symbol ∅ target_disclosures -> d ∈ target_disclosures) /\
  (forall d, d ∈ target_disclosures ->
             exists d', d' ∈ Entry.unique_by_symbol ∅ target_disclosures /\
                        Entry.symbol d' = Entry.symbol d) /\
  (forall l1 d l2,
      target_disclosures = l1 ++ d :: l2 ->
      (forall d', d' ∈ l1 -> Entry.symbol d' <> Entry.symbol d) ->
      d ∈ Entry.unique_by_symbol ∅ target_disclosures).
Proof.
  destruct (unique_by_symbol_spec target_disclosures ∅) as (Hnd & Hsub & Hcov).
  split; [exact Hnd|]. split; [intros d Hd; now destruct (Hsub d Hd)|].
  split; [intros d Hd; apply Hcov; [exact Hd|apply not_elem_of_empty]|].
  intros l1 d l2 -> Hfirst. apply unique_by_symbol_first; [apply not_elem_of_empty|exact Hfirst].
Qed.

(** The page of 09:01 with the row of 09:00 below the new one: the new row
    stands for symbol 7203. *)
Lemma scraper_keeps_first_row_of_each_symbol_witness :
  Scenario.revision
  ∈ Entry.unique_by_symbol ∅ [Scenario.revision; Scenario.alliance].
Proof.
  destruct (scraper_keeps_first_row_of_each_symbol
              [Scenario.revision; Scenario.alliance]) as (_ & _ & _ & H).
  apply (H [] Scenario.revision [Scenario.alliance]); [reflexivity|].
  intros d' Hd'. now apply elem_of_nil in Hd'.
Defined.

(** ** The plan of an order *)

Section PlanFacts.
Import Py Budget.

(** The body of an arm, for any cost. *)
Lemma arm_plan_cases (adj : Z) (lbl head mid tail : string) (cost : Z) :
  (cost = 0 /\ 0 <= adj /\
   arm_plan adj lbl head mid tail cost = Raise ZeroDivisionError) \/
  (~ (cost = 0 /\ 0 <= adj) /\
   exists qty reason,
     arm_plan adj lbl head mid tail cost = Ok (qty, reason, lbl) /\
     0 <= qty /\ qty mod 100 = 0 /\
     (0 < cost -> cost <= adj ->
      (qty / 100) * cost <= adj /\ adj < (qty / 100 + 1) * cost)).
Proof.
  unfold arm_plan. destruct (Z.ltb_spec adj cost) as [Hlt | Hge].
  - right. split; [lia|]. eexists _, _. split; [reflexivity|].
    repeat split; try lia; reflexivity.
  - unfold floordiv. destruct (Z.eqb_spec cost 0) as [E | Hne].
    + left. repeat split; lia.
    + right. split; [lia|].
      destruct (Z.leb_spec (adj / cost) 0) as [H0 | H1].
      * eexists _, _. split; [reflexivity|]. split; [lia|]. split; [reflexivity|].
        intros Hc _. assert (1 <= adj / cost)
          by (apply Z.div_le_lower_bound; lia). lia.
      * eexists _, _. split; [reflexivity|]. split; [lia|].
        split; [apply Z.mod_mul; lia|]. intros Hc _.
        rewrite Z.div_mul by lia.
        pose proof (Z.mul_div_le adj cost Hc).
        pose proof (Z.mul_succ_div_gt adj cost Hc). lia.
Qed.

End PlanFacts.

(** X2. [decide_order_plan] raises [ZeroDivisionError] exactly when a budget
    tier matches, [cost_per_100] is 0 and the adjusted budget, the integer
    part of the binary64 product of the base budget and the factor, is not
    negative; in every other case it returns, and the quantity it returns is
    a non-negative multiple of 100. *)
Theorem plan_is_round_lots_or_zero_division (title : string) (cost : Z) (factor : Q) :
  (Budget.decide_order_plan title cost factor = Py.Raise Py.ZeroDivisionError <->
   cost = 0 /\
   exists base, Budget.matched_base_budget title = Some base /\
                0 <= Py.int (Py.fmul (inject_Z base) factor)) /\
  (forall qty reason label,
      Budget.decide_order_plan title cost factor = Py.Ok (qty, reason, label) ->
      0 <= qty /\ qty mod 100 = 0).
Proof.
  destruct (decide_order_plan_arm title cost factor)
    as [(b & lbl & head & mid & tail & Hb & Hl & Hd) | [Hnone Hd]].
  - rewrite Hd. unfold Budget.tier_arm.
    destruct (arm_plan_cases (Py.int (Py.fmul (inject_Z b) factor)) lbl head mid tail cost)
      as [(Hc & Hadj & E) | (Hn & qty & reason & E & H0 & Hm & _)]; rewrite E.
    + split; [|intros ? ? ? H; discriminate H].
      split; [intros _|reflexivity]. split; [exact Hc|]. now exists b.
    + split.
      * split; [intros H; discriminate H|].
        intros (Hc & base & Hbase & Hadj). exfalso. apply Hn.
        assert (base = b) by congruence. subst base. now split.
      * intros q r l H. injection H as <- <- <-. now split.
  - rewrite Hd. split.
    + split; [intros H; discriminate H|].
      intros (_ & base & Hbase & _). congruence.
    + intros q r l H. injection H as <- <- <-. split; [lia|reflexivity].
Qed.

(** A business alliance and a cost of 0 yen per lot. *)
Lemma plan_is_round_lots_or_zero_division_witness :
  Budget.decide_order_plan "業務提携に関するお知らせ" 0 1
  = Py.Raise Py.ZeroDivisionError.
Proof.
  apply (plan_is_round_lots_or_zero_division "業務提携に関するお知らせ" 0 1).
  split; [reflexivity|]. eexists. split; [vm_compute; reflexivity|].
  apply Z.leb_le. vm_compute. reflexivity.
Defined.

(** X3. When a tier matches and a lot is affordable
    ([0 < cost_per_100 <= adjusted budget], the adjusted budget being the
    integer part of the binary64 product of the base budget and the factor),
    the plan spends as many whole lots as fit: the lots times the cost of a
    lot is at most the adjusted budget, and one lot more would exceed it. *)
Theorem plan_fills_the_adjusted_budget (title : string) (cost : Z) (factor : Q) (base : Z)
    (Hmatch : Budget.matched_base_budget title = Some base)
    (Hcost : 0 < cost)
    (Hfits : cost <= Py.int (Py.fmul (inject_Z base) factor)) :
  exists qty reason label,
    Budget.decide_order_plan title cost factor = Py.Ok (qty, reason, label) /\
    qty mod 100 = 0 /\
    (qty / 100) * cost <= Py.int (Py.fmul (inject_Z base) factor) /\
    Py.int (Py.fmul (inject_Z base) factor) < (qty / 100 + 1) * cost.
Proof.
  destruct (decide_order_plan_arm title cost factor)
    as [(b & lbl & head & mid & tail & Hb & Hl & Hd) | [Hnone _]]; [|congruence].
  assert (b = base) by congruence. subst b.
  rewrite Hd. unfold Budget.tier_arm.
  destruct (arm_plan_cases (Py.int (Py.fmul (inject_Z base) factor)) lbl head mid tail cost)
    as [(Hc & _) | (_ & qty & reason & E & _ & Hm & Hfill)]; [lia|].
  exists qty, reason, lbl. split; [exact E|]. split; [exact Hm|]. now apply Hfill.
Qed.

(** A lot of 145000 yen against the budget of the tier "良好" at factor
    0.29: the binary64 product of 1500000 and 0.29 lies below 435000, the
    adjusted budget is 434999 yen, and it buys two lots, not three. *)
Lemma plan_fills_the_adjusted_budget_witness :
  Py.int (Py.fmul (inject_Z 1500000) (29 # 100)) = 434999 /\
  exists qty reason label,
    Budget.decide_order_plan "業績は良好に推移" 145000 (29 # 100)
    = Py.Ok (qty, reason, label) /\
    qty mod 100 = 0 /\
    (qty / 100) * 145000 <= Py.int (Py.fmul (inject_Z 1500000) (29 # 100)) /\
    Py.int (Py.fmul (inject_Z 1500000) (29 # 100)) < (qty / 100 + 1) * 145000.
Proof.
  split; [vm_compute; reflexivity|].
  apply (plan_fills_the_adjusted_budget "業績は良好に推移" 145000 (29 # 100) 1500000).
  - reflexivity.
  - reflexivity.
  - intros H. vm_compute in H. discriminate H.
Defined.

(** ** Headlines that pass the page filter *)

Section KeywordFacts.
Import Py Budget.

Lemma any_in_intro (words : list string) (w text : string) :
  In w words -> contains w text = true -> any_in words text = true.
Proof. intros Hin Hc. apply existsb_exists. now exists w. Qed.

Lemma self_stock_words_included (text : string) :
  any_in self_stock_words text = true -> any_in Page.include_keywords text = true.
Proof.
  intros H. apply existsb_exists in H as (w & Hw & Hc).
  apply (any_in_intro _ w); [|exact Hc].
  simpl in Hw. simpl. tauto.
Qed.

Lemma matched_headline_is_included (title : string) :
  is_Some (matched_base_budget title) -> any_in Page.include_keywords title = true.
Proof.
  unfold matched_base_budget.
  destruct (contains "消却" title && any_in self_stock_words title) eqn:H1.
  { intros _. apply andb_prop in H1 as [H1 _].
    apply (any_in_intro _ "消却"); [simpl; tauto|exact H1]. }
  destruct (contains "自己株式の消却" title) eqn:H2.
  { intros _. apply (any_in_intro _ "自己株式の消却"); [simpl; tauto|exact H2]. }
  destruct (any_in self_stock_words title) eqn:H3.
  { intros _. now apply self_stock_words_included. }
  destruct (contains "上方" title && contains "増配" title) eqn:H4.
  { intros _. apply andb_prop in H4 as [H4 _].
    apply (any_in_intro _ "上方"); [simpl; tauto|exact H4]. }
  destruct (contains "良好" title) eqn:H5.
  { intros _. apply (any_in_intro _ "良好"); [simpl; tauto|exact H5]. }
  destruct (contains "株主優待" title && _) eqn:H6.
  { intros _. apply andb_prop in H6 as [H6 _].
    apply (any_in_intro _ "株主優待"); [simpl; tauto|exact H6]. }
  destruct (contains "業務提携" title) eqn:H7.
  { intros _. apply (any_in_intro _ "業務提携"); [simpl; tauto|exact H7]. }
  destruct (contains "資本提携" title) eqn:H8.
  { intros _. apply (any_in_intro _ "資本提携"); [simpl; tauto|exact H8]. }
  destruct (contains "完成" title) eqn:H9.
  { intros _. apply (any_in_intro _ "完成"); [simpl; tauto|exact H9]. }
  destruct (contains "採択" title) eqn:H10.
  { intros _. apply (any_in_intro _ "採択"); [simpl; tauto|exact H10]. }
  destruct (contains "上方" title) eqn:H11.
  { intros _. apply (any_in_intro _ "上方"); [simpl; tauto|exact H11]. }
  intros [x Hx]. discriminate Hx.
Qed.

End KeywordFacts.

(** X4. The include list of the scraper covers the budget tiers: a headline
    that matches a tier of [decide_order_plan] contains an include keyword,
    so the page filter keeps its row unless the time, an exclude keyword or
    a short row rules it out. *)
Theorem include_keywords_cover_the_tiers (now : Clock.datetime) (exclude : list string)
    (time_text code_text company_name title_text : string)
    (Htier : is_Some (Budget.matched_base_budget title_text))
    (Htoday : Page.is_today_announcement now time_text = true)
    (Hsession : Page.is_market_hours_timestr time_text = true)
    (Hexclude : Py.any_in exclude title_text = false) :
  Py.any_in Page.include_keywords title_text = true /\
  Page.collect_row now Page.include_keywords exclude
    [time_text; code_text; company_name; title_text]
  = Some {| Entry.symbol := Page.normalize_code code_text;
            Entry.company_name := company_name;
            Entry.title_text := title_text;
            Entry.time_text := time_text |}.
Proof.
  pose proof (matched_headline_is_included title_text Htier) as Hinc.
  split; [exact Hinc|].
  unfold Page.collect_row. now rewrite Htoday, Hsession, Hexclude, Hinc.
Qed.

(** A row of 09:05 for code 72030 with a headline of the tier "完成". *)
Lemma include_keywords_cover_the_tiers_witness :
  Page.collect_row (Scenario.on_the_day 9 5 2 0) Page.include_keywords
    Page.exclude_keywords
    ["09:05"; "72030"; "C社"; "新工場の完成に関するお知らせ"]
  = Some {| Entry.symbol := "7203"; Entry.company_name := "C社";
            Entry.title_text := "新工場の完成に関するお知らせ";
            Entry.time_text := "09:05" |}.
Proof.
  refine (proj2 (include_keywords_cover_the_tiers (Scenario.on_the_day 9 5 2 0)
                   Page.exclude_keywords "09:05" "72030" "C社"
                   "新工場の完成に関するお知らせ" _ _ _ _)).
  - now exists 1000000.
  - reflexivity.
  - reflexivity.
  - reflexivity.
Defined.

(** ** Orders and the purchase log *)

Section PurchaseLog.
Import Py Entry.

Lemma decide_order_plan_round_lots (title : string) (cost : Z) (factor : Q)
    (qty : Z) (reason label : string) :
  Budget.decide_order_plan title cost factor = Ok (qty, reason, label) ->
  0 <= qty /\ qty mod 100 = 0.
Proof.
  destruct (decide_order_plan_arm title cost factor)
    as [(b & lbl & head & mid & tail & Hb & Hl & Hd) | [Hnone Hd]]; rewrite Hd.
  - unfold Budget.tier_arm.
    destruct (arm_plan_cases (int (fmul (inject_Z b) factor)) lbl head mid tail cost)
      as [(_ & _ & E) | (_ & q & r & E & H0 & Hm & _)]; rewrite E;
      intros H; [discriminate H|]. injection H as <- <- <-. now split.
  - intros H. injection H as <- <- <-. split; [lia|reflexivity].
Qed.

(** How an element of [purchased_orders] stands to the order sent with it. *)
Let logged_as (p : purchased) (o : buy_order) : Prop :=
  p_symbol p = bo_Symbol o /\ p_qty p = bo_Qty o /\
  bo_Price o = Tick.adjust_price_to_tick (inject_Z (p_limit_price p)) /\
  p_total_cost p = p_limit_price p * p_qty p /\
  0 < p_qty p /\ p_qty p mod 100 = 0.

Lemma main_prod_body_logged (obs : observation) (info : disclosure)
    (st st' : cycle_state) :
  Forall2 logged_as (purchased_orders st) (sent st) ->
  main_prod_body obs info st = Ok st' ->
  Forall2 logged_as (purchased_orders st') (sent st').
Proof.
  intros Hinv. unfold main_prod_body.
  case_bool_decide as Hin; [intros E; now injection E as <-|].
  destruct (negb _); [intros E; now injection E as <-|].
  destruct (current_price obs) as [price|]; [|intros E; now injection E as <-].
  destruct (Qle_bool price 0); [intros E; now injection E as <-|].
  destruct (Budget.decide_order_plan _ _ _) as [[[qty reason] label]|e] eqn:Hplan;
    [|intros E; discriminate E].
  destruct (decide_order_plan_round_lots _ _ _ _ _ _ Hplan) as [_ Hm].
  destruct (Z.leb_spec qty 0) as [Hq | Hq]; [intros E; now injection E as <-|].
  intros E. injection E as <-. simpl.
  apply Forall2_app; [exact Hinv|]. constructor; [|constructor].
  unfold logged_as, send_buy_order; simpl.
  split; [reflexivity|]. split; [reflexivity|].
  split; [apply buy_block_is_adjust|]. now repeat split.
Qed.

Lemma main_prod_loop_logged (obs : nat -> observation) (l : list disclosure) :
  forall (i : nat) (st : cycle_state),
    Forall2 logged_as (purchased_orders st) (sent st) ->
    Forall2 logged_as (purchased_orders (main_prod_loop obs i l st).1)
                      (sent (main_prod_loop obs i l st).1).
Proof.
  induction l as [| info rest IH]; intros i st Hst; simpl; [exact Hst|].
  destruct (main_prod_body (obs i) info st) as [st'|e] eqn:Hb; [|exact Hst].
  apply IH. now apply (main_prod_body_logged (obs i) info st).
Qed.

(** A cycle that runs to its end writes one row per order, and a cycle that
    is cut short writes none. *)
Lemma main_prod_log (w : cycle_world) (p : process) (disk : Disk.t) :
  (deadline w = None -> out_exn (main_prod w p disk) = None ->
   exists rows,
     Disk.purchased_log (out_disk (main_prod w p disk))
     = Disk.purchased_log disk ++ rows /\
     Forall2 (fun row o =>
                Disk.row_time row = Clock.strftime_seconds (log_time w) /\
                Disk.row_symbol row = bo_Symbol o /\
                Disk.row_qty row = bo_Qty o /\
                bo_Price o
                = Tick.adjust_price_to_tick (inject_Z (Disk.row_limit_price row)) /\
                Disk.row_total_cost row = Disk.row_limit_price row * Disk.row_qty row /\
                0 < bo_Qty o /\ bo_Qty o mod 100 = 0)
             rows (out_sent (main_prod w p disk))) /\
  ((is_Some (deadline w) \/ is_Some (out_exn (main_prod w p disk))) ->
   out_disk (main_prod w p disk) = disk).
Proof.
  assert (H0 : Forall2 logged_as [] []) by constructor.
  unfold main_prod. destruct (deadline w) as [k|].
  - split; [intros H; discriminate H|]. intros _.
    now destruct (main_prod_loop _ _ _ _) as [st e].
  - pose proof (main_prod_loop_logged (observe w)
                  (unique_by_symbol ∅ (page_rows w)) 0
                  {| proc := p; purchased_orders := []; sent := [] |} H0) as Hinv.
    destruct (main_prod_loop _ _ _ _) as [st [e|]]; simpl in *.
    + split; [intros _ H; discriminate H|]. reflexivity.
    + split.
      * intros _ _. eexists. split; [reflexivity|].
        apply Forall2_fmap_l. eapply Forall2_impl; [exact Hinv|].
        intros pch o (Hs & Hq & Hp & Ht & Hpos & Hm). simpl.
        rewrite <- Hq. now repeat split.
      * intros [[x Hx] | [x Hx]]; discriminate Hx.
Qed.

End PurchaseLog.

(** X5. A cycle of [main_prod] that runs to its end appends to the purchase
    log one row per order it posted, in the same order, with the order's
    symbol and quantity and the time of logging; the quantity is a positive
    multiple of 100, the logged total is the logged price times the quantity,
    and the price posted is the logged price floored to its tick. A cycle
    that is terminated at the deadline or ends in an exception leaves the
    files as they were, whatever it posted. *)
Theorem purchase_log_has_a_row_per_order :
  forall (w : Entry.cycle_world) (p : Entry.process) (disk : Disk.t),
    (Entry.deadline w = None -> Entry.out_exn (Entry.main_prod w p disk) = None ->
     exists rows,
       Disk.purchased_log (Entry.out_disk (Entry.main_prod w p disk))
       = Disk.purchased_log disk ++ rows /\
       Forall2 (fun row o =>
                  Disk.row_time row = Clock.strftime_seconds (Entry.log_time w) /\
                  Disk.row_symbol row = Entry.bo_Symbol o /\
                  Disk.row_qty row = Entry.bo_Qty o /\
                  Entry.bo_Price o
                  = Tick.adjust_price_to_tick (inject_Z (Disk.row_limit_price row)) /\
                  Disk.row_total_cost row
                  = Disk.row_limit_price row * Disk.row_qty row /\
                  0 < Entry.bo_Qty o /\ Entry.bo_Qty o mod 100 = 0)
               rows (Entry.out_sent (Entry.main_prod w p disk))) /\
    ((is_Some (Entry.deadline w) \/ is_Some (Entry.out_exn (Entry.main_prod w p disk))) ->
     Entry.out_disk (Entry.main_prod w p disk) = disk).
Proof. exact main_prod_log. Qed.

(** A complete cycle for symbol 6758. *)
Lemma purchase_log_has_a_row_per_order_witness :
  exists rows,
    Disk.purchased_log
      (Entry.out_disk (Entry.main_prod Scenario.cycle_6758 Entry.fresh_process Disk.empty))
    = Disk.purchased_log Disk.empty ++ rows /\
    Forall2 (fun row o =>
               Disk.row_time row
               = Clock.strftime_seconds (Entry.log_time Scenario.cycle_6758) /\
               Disk.row_symbol row = Entry.bo_Symbol o /\
               Disk.row_qty row = Entry.bo_Qty o /\
               Entry.bo_Price o
               = Tick.adjust_price_to_tick (inject_Z (Disk.row_limit_price row)) /\
               Disk.row_total_cost row = Disk.row_limit_price row * Disk.row_qty row /\
               0 < Entry.bo_Qty o /\ Entry.bo_Qty o mod 100 = 0)
            rows
            (Entry.out_sent
               (Entry.main_prod Scenario.cycle_6758 Entry.fresh_process Disk.empty)).
Proof.
  apply (proj1 (purchase_log_has_a_row_per_order Scenario.cycle_6758
                  Entry.fresh_process Disk.empty)).
  - reflexivity.
  - vm_compute. reflexivity.
Defined.

(** ** Exceptions in a cycle *)

Section CycleExceptions.
Import Py Entry.

Lemma matched_base_budget_pos (title : string) (base : Z) :
  Budget.matched_base_budget title = Some base -> 0 < base.
Proof.
  unfold Budget.matched_base_budget.
  repeat match goal with
         | |- (if ?c then Some _ else _) = Some _ -> _ =>
             destruct c; [intros H; injection H as <-; reflexivity|]
         end.
  intros H. discriminate H.
Qed.

Lemma get_budget_multiplier_pos (market_cap : Q) :
  (0 < Budget.get_budget_multiplier market_cap)%Q.
Proof.
  unfold Budget.get_budget_multiplier.
  repeat match goal with
         | |- Qlt _ (if ?c then _ else _) => destruct c; [reflexivity|]
         end.
  reflexivity.
Qed.

Lemma int_nonneg (x : Q) : (0 <= x)%Q -> 0 <= int x.
Proof. intros H. rewrite int_nonneg_floor by exact H. now apply (floor_ge 0). Qed.

Lemma round_nonneg (x : Q) : (0 <= x)%Q -> 0 <= round x.
Proof.
  intros H. unfold round.
  assert (0 <= Qfloor x) by (now apply (floor_ge 0)).
  destruct (_ ?= _)%Q; [destruct (Z.even _)|..]; lia.
Qed.

(** When [decide_order_plan] raises. *)
Lemma decide_order_plan_raises_iff (title : string) (cost : Z) (factor : Q) :
  Budget.decide_order_plan title cost factor = Raise ZeroDivisionError <->
  cost = 0 /\
  exists base, Budget.matched_base_budget title = Some base /\
               0 <= int (fmul (inject_Z base) factor).
Proof.
  destruct (decide_order_plan_arm title cost factor)
    as [(b & lbl & head & mid & tail & Hb & Hl & Hd) | [Hnone Hd]]; rewrite Hd.
  - unfold Budget.tier_arm.
    destruct (arm_plan_cases (int (fmul (inject_Z b) factor)) lbl head mid tail cost)
      as [(Hc & Hadj & E) | (Hn & qty & reason & E & _)]; rewrite E.
    + split; [intros _|reflexivity]. split; [exact Hc|]. now exists b.
    + split; [intros H; discriminate H|].
      intros (Hc & base & Hbase & Hadj). exfalso. apply Hn.
      assert (base = b) by congruence. subst base. now split.
  - split; [intros H; discriminate H|].
    intros (_ & base & Hbase & _). congruence.
Qed.

(** In [main_prod] the adjusted budget of a matched tier is not negative. *)
Lemma adjusted_budget_nonneg (title : string) (base : Z) (market_cap : Q) :
  Budget.matched_base_budget title = Some base ->
  0 <= int (fmul (inject_Z base) (Budget.get_budget_multiplier market_cap)).
Proof.
  intros Hb. apply int_nonneg. unfold fmul. apply float_nonneg.
  apply Qmult_le_0_compat; apply float_nonneg.
  - change 0%Q with (inject_Z 0). rewrite <- Zle_Qle.
    pose proof (matched_base_budget_pos title base Hb). lia.
  - apply Qlt_le_weak, get_budget_multiplier_pos.
Qed.

Lemma main_prod_body_raises_iff (obs : observation) (info : disclosure)
    (st : cycle_state) :
  main_prod_body obs info st = Raise ZeroDivisionError <->
  (symbol info ∉ ordered_symbols (proc st)) /\
  is_within_10_seconds_of_now (now obs)
    (parse_announcement_datetime (now obs) (time_text info)) = true /\
  exists price,
    current_price obs = Some price /\ (0 < price)%Q /\
    round ((if Budget.cap_ge (default 0%Q (total_market_value obs)) 30000000000
            then price * (101 # 100) else price * (98 # 100))
           * Budget.calc_material_multiplier (title_text info)) = 0 /\
    is_Some (Budget.matched_base_budget (title_text info)).
Proof.
  unfold main_prod_body.
  case_bool_decide as Hin.
  { split; [intros E; discriminate E|]. intros (Hn & _). contradiction. }
  destruct (is_within_10_seconds_of_now _ _); simpl.
  2: { split; [intros E; discriminate E|]. intros (_ & E & _). discriminate E. }
  destruct (current_price obs) as [price|].
  2: { split; [intros E; discriminate E|].
       intros (_ & _ & q & E & _). discriminate E. }
  destruct (Qle_bool price 0) eqn:Hle.
  { split; [intros E; discriminate E|].
    intros (_ & _ & q & E & Hq & _). injection E as <-.
    apply Qle_bool_iff in Hle. exfalso. apply (Qlt_irrefl 0).
    now apply Qlt_le_trans with price. }
  assert (Hpos : (0 < price)%Q).
  { apply Qnot_le_lt. intros H. apply Qle_bool_iff in H. congruence. }
  match goal with
  | |- context [Budget.decide_order_plan ?t ?c ?f] =>
      pose proof (decide_order_plan_raises_iff t c f) as Hiff;
      destruct (Budget.decide_order_plan t c f) as [[[qty reason] label]|[]] eqn:Hplan
  end.
  - split.
    + destruct (qty <=? 0); intros E; discriminate E.
    + intros (_ & _ & q & E & _ & Hz & [base Hb]). injection E as <-.
      assert (Hr : Ok (qty, reason, label) = Raise ZeroDivisionError).
      { apply Hiff. split; [rewrite Hz; reflexivity|].
        exists base. split; [exact Hb|].
        now apply (adjusted_budget_nonneg (title_text info)). }
      discriminate Hr.
  - split; [intros _|reflexivity].
    destruct (proj1 Hiff eq_refl) as (Hc & base & Hb & _).
    split; [exact Hin|]. split; [reflexivity|].
    exists price. split; [reflexivity|]. split; [exact Hpos|].
    split; [lia|now exists base].
Qed.

End CycleExceptions.

(** X6. The loop body of [main_prod] raises [ZeroDivisionError] exactly for
    a fresh disclosure of a symbol not yet ordered whose headline matches a
    budget tier and whose positive quote gives a limit price that rounds to
    0 yen; the loop then ends at that disclosure, and the disclosures after
    it are not processed in the cycle. *)
Theorem zero_yen_limit_price_ends_the_cycle :
  forall (obs : nat -> Entry.observation) (i : nat) (info : Entry.disclosure)
         (rest : list Entry.disclosure) (st : Entry.cycle_state),
    (Entry.main_prod_body (obs i) info st = Py.Raise Py.ZeroDivisionError <->
     (Entry.symbol info ∉ Entry.ordered_symbols (Entry.proc st)) /\
     Entry.is_within_10_seconds_of_now (Entry.now (obs i))
       (Entry.parse_announcement_datetime (Entry.now (obs i)) (Entry.time_text info))
     = true /\
     exists price,
       Entry.current_price (obs i) = Some price /\ (0 < price)%Q /\
       Py.round
         ((if Budget.cap_ge (default 0%Q (Entry.total_market_value (obs i))) 30000000000
           then price * (101 # 100) else price * (98 # 100))
          * Budget.calc_material_multiplier (Entry.title_text info)) = 0 /\
       is_Some (Budget.matched_base_budget (Entry.title_text info))) /\
    (Entry.main_prod_body (obs i) info st = Py.Raise Py.ZeroDivisionError ->
     Entry.main_prod_loop obs i (info :: rest) st = (st, Some Py.ZeroDivisionError)).
Proof.
  intros obs i info rest st. split; [apply main_prod_body_raises_iff|].
  intros H. simpl. now rewrite H.
Qed.

(** A quote of 0.4 yen for the disclosure of 7203: the limit price rounds to
    0, and the disclosure listed after it is not reached. *)
Lemma zero_yen_limit_price_ends_the_cycle_witness :
  Entry.main_prod_loop
    (fun _ => {| Entry.now := Scenario.on_the_day 9 0 3 500000;
                 Entry.current_price := Some (4 # 10);
                 Entry.total_market_value := None |})
    0 [Scenario.alliance; Scenario.revision_and_dividend]
    {| Entry.proc := Entry.fresh_process; Entry.purchased_orders := [];
       Entry.sent := [] |}
  = ({| Entry.proc := Entry.fresh_process; Entry.purchased_orders := [];
        Entry.sent := [] |}, Some Py.ZeroDivisionError).
Proof.
  apply (proj2 (zero_yen_limit_price_ends_the_cycle _ 0 Scenario.alliance
                  [Scenario.revision_and_dividend] _)).
  apply (proj1 (zero_yen_limit_price_ends_the_cycle
                  (fun _ => {| Entry.now := Scenario.on_the_day 9 0 3 500000;
                               Entry.current_price := Some (4 # 10);
                               Entry.total_market_value := None |})
                  0 Scenario.alliance [] _)).
  split; [apply not_elem_of_empty|]. split; [reflexivity|].
  exists (4 # 10). split; [reflexivity|]. split; [reflexivity|].
  split; [reflexivity|]. now exists 1000000.
Defined.

(** ** Text of a disclosure time *)

Section TimeText.
Import Py Entry.

Lemma prefix_empty (s : string) : String.prefix "" s = true.
Proof. now destruct s. Qed.

(** A text without the separator is the only part of its split. *)
Lemma split_without_separator (sep : ascii) (s : string) :
  contains (String sep "") s = false -> Clock.split sep s = [s].
Proof.
  induction s as [| a rest IH]; [reflexivity|]. simpl.
  destruct (ascii_dec sep a) as [-> | Hne].
  - rewrite prefix_empty. intros H. discriminate H.
  - simpl. intros H. rewrite (IH H).
    destruct (Ascii.eqb_spec a sep) as [-> | _]; [contradiction|reflexivity].
Qed.

Lemma Qle_bool_num (a b : Z) :
  Qle_bool (inject_Z a) (b # 1000000) = (a * 1000000 <=? b).
Proof. unfold Qle_bool; simpl. now rewrite Z.mul_1_r. Qed.

Lemma Qle_bool_den (a b : Z) :
  Qle_bool (a # 1000000) (inject_Z b) = (a <=? b * 1000000).
Proof. unfold Qle_bool; simpl. now rewrite Z.mul_1_r. Qed.

Lemma fresh_window (now : Clock.datetime) (time_text : string) (hour minute : Z) :
  (String.length time_text <= 5)%nat ->
  Clock.int_of_str <$> Clock.split ":" time_text = [Some hour; Some minute] ->
  Scheduler.valid now = true ->
  Page.valid_time hour minute = true ->
  parse_announcement_datetime now time_text
  = Some {| Clock.year := Clock.year now; Clock.month := Clock.month now;
            Clock.day := Clock.day now; Clock.hour := hour;
            Clock.minute := minute; Clock.second := 0; Clock.microsecond := 0 |} /\
  (is_within_10_seconds_of_now now (parse_announcement_datetime now time_text) = true
   <-> 0 <= ((Clock.hour now * 3600 + Clock.minute now * 60 + Clock.second now) * 1000000
             + Clock.microsecond now)
            - (hour * 3600 + minute * 60) * 1000000 <= 25000000).
Proof.
  intros Hlen Hsplit Hnow Htime.
  assert (Hcolon : contains ":" time_text = true).
  { destruct (contains ":" time_text) eqn:E; [reflexivity|].
    rewrite (split_without_separator ":" time_text E) in Hsplit. discriminate Hsplit. }
  assert (Hparse : parse_announcement_datetime now time_text
                   = Clock.make (Clock.year now) (Clock.month now) (Clock.day now)
                                hour minute).
  { unfold parse_announcement_datetime.
    apply Nat.leb_le in Hlen. now rewrite Hlen, Hcolon, Hsplit. }
  unfold Scheduler.valid in Hnow. unfold Page.valid_time in Htime.
  repeat (apply andb_prop in Hnow as [Hnow ?]).
  repeat (apply andb_prop in Htime as [Htime ?]).
  assert (Hmake : Clock.make (Clock.year now) (Clock.month now) (Clock.day now)
                             hour minute
                  = Some {| Clock.year := Clock.year now;
                            Clock.month := Clock.month now;
                            Clock.day := Clock.day now; Clock.hour := hour;
                            Clock.minute := minute; Clock.second := 0;
                            Clock.microsecond := 0 |}).
  { unfold Clock.make.
    repeat match goal with H : _ = true |- _ => rewrite H; clear H end.
    reflexivity. }
  rewrite Hparse, Hmake. split; [reflexivity|].
  unfold is_within_10_seconds_of_now, Clock.diff_seconds.
  change 0%Q with (inject_Z 0). change 25%Q with (inject_Z 25).
  rewrite Qle_bool_num, Qle_bool_den. unfold Clock.to_microseconds; simpl.
  rewrite andb_true_iff, !Z.leb_le. lia.
Qed.

End TimeText.

(** X7. A disclosure whose time text is "h:m" (at most five characters, two
    numbers that make a time of day) is read as that time on the day of the
    clock, and it counts as fresh exactly while the clock of that day reads
    from h:m:00 to h:m:25, ends included: not before its minute, and not
    from the 26th second on. *)
Theorem disclosure_is_fresh_for_25_seconds (now : Clock.datetime) (time_text : string)
    (hour minute : Z)
    (Hlen : (String.length time_text <= 5)%nat)
    (Hsplit : Clock.int_of_str <$> Clock.split ":" time_text = [Some hour; Some minute])
    (Hnow : Scheduler.valid now = true)
    (Htime : Page.valid_time hour minute = true) :
  Entry.parse_announcement_datetime now time_text
  = Some {| Clock.year := Clock.year now; Clock.month := Clock.month now;
            Clock.day := Clock.day now; Clock.hour := hour;
            Clock.minute := minute; Clock.second := 0; Clock.microsecond := 0 |} /\
  (Entry.is_within_10_seconds_of_now now
     (Entry.parse_announcement_datetime now time_text) = true
   <-> 0 <= ((Clock.hour now * 3600 + Clock.minute now * 60 + Clock.second now) * 1000000
             + Clock.microsecond now)
            - (hour * 3600 + minute * 60) * 1000000 <= 25000000).
Proof. now apply fresh_window. Qed.

(** The disclosure of 09:00 is fresh at 09:00:25 and no longer at
    09:00:25.000001. *)
Lemma disclosure_is_fresh_for_25_seconds_witness :
  Entry.is_within_10_seconds_of_now (Scenario.on_the_day 9 0 25 0)
    (Entry.parse_announcement_datetime (Scenario.on_the_day 9 0 25 0) "09:00") = true /\
  Entry.is_within_10_seconds_of_now (Scenario.on_the_day 9 0 25 1)
    (Entry.parse_announcement_datetime (Scenario.on_the_day 9 0 25 1) "09:00") <> true.
Proof.
  split.
  - apply (proj2 (disclosure_is_fresh_for_25_seconds (Scenario.on_the_day 9 0 25 0)
                    "09:00" 9 0 (Nat.le_refl 5) eq_refl eq_refl eq_refl)).
    simpl. lia.
  - intros H.
    apply (proj2 (disclosure_is_fresh_for_25_seconds (Scenario.on_the_day 9 0 25 1)
                    "09:00" 9 0 (Nat.le_refl 5) eq_refl eq_refl eq_refl)) in H.
    simpl in H. lia.
Defined.

(** ** From the purchase log to the exit controller *)

Section LabelRoundTrip.
Import Py Entry.

Lemma pad_length_table :
  forallb (fun n => (String.length (Clock.pad 4 (Z.of_nat n)) =? 4)%nat
                    && (negb (n <? 100)%nat
                        || (String.length (Clock.pad 2 (Z.of_nat n)) =? 2)%nat))
          (seq 0 (Z.to_nat 10000)) = true.
Proof. vm_compute. reflexivity. Qed.

Lemma pad4_length (z : Z) : 0 <= z <= 9999 -> String.length (Clock.pad 4 z) = 4%nat.
Proof.
  intros Hz. pose proof pad_length_table as H.
  rewrite forallb_forall in H. specialize (H (Z.to_nat z)).
  rewrite Z2Nat.id in H by lia.
  assert (Hin : In (Z.to_nat z) (seq 0 (Z.to_nat 10000))) by (apply in_seq; lia).
  apply H in Hin. apply andb_prop in Hin as [Hin _]. now apply Nat.eqb_eq.
Qed.

Lemma pad2_length (z : Z) : 0 <= z <= 99 -> String.length (Clock.pad 2 z) = 2%nat.
Proof.
  intros Hz. pose proof pad_length_table as H.
  rewrite forallb_forall in H. specialize (H (Z.to_nat z)).
  rewrite Z2Nat.id in H by lia.
  assert (Hin : In (Z.to_nat z) (seq 0 (Z.to_nat 10000))) by (apply in_seq; lia).
  apply H in Hin. apply andb_prop in Hin as [_ Hin].
  assert (Hlt : (Z.to_nat z <? 100)%nat = true) by (apply Nat.ltb_lt; lia).
  rewrite Hlt in Hin. now apply Nat.eqb_eq.
Qed.

Lemma length_append (a b : string) :
  String.length (a +:+ b) = (String.length a + String.length b)%nat.
Proof. induction a as [| c a IH]; simpl; [reflexivity|now rewrite IH]. Qed.

Lemma substring_append (a b : string) :
  String.substring 0 (String.length a) (a +:+ b) = a.
Proof. induction a as [| c a IH]; simpl; [now destruct b|now rewrite IH]. Qed.

Lemma days_in_month_le_31 (y m : Z) : Clock.days_in_month y m <= 31.
Proof.
  unfold Clock.days_in_month.
  destruct (m =? 2); [destruct (Clock.is_leap y); lia|].
  destruct (_ || _); lia.
Qed.

(** The date of a valid clock reading prints as ten characters. *)
Lemma str_date_length (t : Clock.datetime) :
  Scheduler.valid t = true -> String.length (Clock.str_date t) = 10%nat.
Proof.
  intros Hv. unfold Scheduler.valid in Hv.
  repeat (apply andb_prop in Hv as [Hv ?]).
  repeat match goal with H : (_ <=? _) = true |- _ => apply Z.leb_le in H end.
  pose proof (days_in_month_le_31 (Clock.year t) (Clock.month t)).
  unfold Clock.str_date. rewrite !length_append.
  rewrite pad4_length, !pad2_length by lia. reflexivity.
Qed.

Lemma date_part_of_log_time (t : Clock.datetime) :
  Scheduler.valid t = true ->
  (10 <=? String.length (Clock.strftime_seconds t))%nat = true /\
  String.substring 0 10 (Clock.strftime_seconds t) = Clock.str_date t.
Proof.
  intros Hv. pose proof (str_date_length t Hv) as Hl.
  unfold Clock.strftime_seconds. split.
  - apply Nat.leb_le. rewrite length_append. lia.
  - rewrite <- Hl. apply substring_append.
Qed.

(** The step of [load_purchased_info_for_today] on rows logged at [t]. *)
Lemma load_after_log (today : string) (t : Clock.datetime) (l : list purchased)
    (disk : Disk.t) :
  Scheduler.valid t = true ->
  Exit.load_purchased_info_for_today today (log_purchased_orders t l disk)
  = if bool_decide (Clock.str_date t = today) then
      fold_left (fun m p => <[p_symbol p := p_budget_label p]> m) l
                (Exit.load_purchased_info_for_today today disk)
    else Exit.load_purchased_info_for_today today disk.
Proof.
  intros Hv. destruct (date_part_of_log_time t Hv) as [Hlen Hsub].
  unfold Exit.load_purchased_info_for_today, log_purchased_orders.
  cbn [Disk.purchased_log]. rewrite fold_left_app.
  match goal with
  | |- context [fold_left ?f (Disk.purchased_log disk) ?e] =>
      generalize (fold_left f (Disk.purchased_log disk) e)
  end.
  induction l as [| p rest IH]; intros m;
    cbn [map fold_left Disk.row_time Disk.row_symbol Disk.row_budget_label].
  - now case_bool_decide.
  - rewrite Hlen, Hsub, IH. now case_bool_decide.
Qed.

Lemma fold_insert_last (l2 : list purchased) (s : string) :
  forall m : gmap string string,
    (forall p', p' ∈ l2 -> p_symbol p' <> s) ->
    fold_left (fun m p => <[p_symbol p := p_budget_label p]> m) l2 m !! s = m !! s.
Proof.
  induction l2 as [| a rest IH]; intros m Hne; simpl; [reflexivity|].
  rewrite IH.
  - apply lookup_insert_ne. apply Hne, elem_of_cons. now left.
  - intros p' Hp'. apply Hne, elem_of_cons. now right.
Qed.

End LabelRoundTrip.

(** X8. What the entry controller logs, the exit controller reads back on
    the same day: after [log_purchased_orders] at a valid clock reading,
    [load_purchased_info_for_today] for the date of that reading maps the
    symbol of a logged purchase to the label of the last purchase of that
    symbol in the list, and leaves the symbols that were not purchased as
    they were; for any other date it returns what it returned before. *)
Theorem purchase_labels_round_trip (now : Clock.datetime)
    (purchased_list : list Entry.purchased) (disk : Disk.t)
    (Hnow : Scheduler.valid now = true) :
  (forall l1 p l2,
      purchased_list = l1 ++ p :: l2 ->
      (forall p', p' ∈ l2 -> Entry.p_symbol p' <> Entry.p_symbol p) ->
      Exit.load_purchased_info_for_today (Clock.str_date now)
        (Entry.log_purchased_orders now purchased_list disk) !! Entry.p_symbol p
      = Some (Entry.p_budget_label p)) /\
  (forall s,
      (forall p, p ∈ purchased_list -> Entry.p_symbol p <> s) ->
      Exit.load_purchased_info_for_today (Clock.str_date now)
        (Entry.log_purchased_orders now purchased_list disk) !! s
      = Exit.load_purchased_info_for_today (Clock.str_date now) disk !! s) /\
  (forall today,
      today <> Clock.str_date now ->
      Exit.load_purchased_info_for_today today
        (Entry.log_purchased_orders now purchased_list disk)
      = Exit.load_purchased_info_for_today today disk).
Proof.
  split; [|split].
  - intros l1 p l2 -> Hlast. rewrite load_after_log by exact Hnow.
    rewrite bool_decide_true by reflexivity.
    rewrite fold_left_app; simpl. rewrite fold_insert_last by exact Hlast.
    apply lookup_insert_eq.
  - intros s Hs. rewrite load_after_log by exact Hnow.
    rewrite bool_decide_true by reflexivity. now apply fold_insert_last.
  - intros today Hne. rewrite load_after_log by exact Hnow.
    rewrite bool_decide_false; [reflexivity|congruence].
Qed.

(** The purchase of 6758 logged at 09:00:05 on 2025-03-03, read on that day
    and on the next. *)
Lemma purchase_labels_round_trip_witness :
  Exit.load_purchased_info_for_today "2025-03-03" Scenario.disk_after_6758 !! "6758"
  = Some "上方修正 + 増配" /\
  Exit.load_purchased_info_for_today "2025-03-04" Scenario.disk_after_6758
  = Exit.load_purchased_info_for_today "2025-03-04" Disk.empty.
Proof.
  destruct (purchase_labels_round_trip (Scenario.on_the_day 9 0 5 0)
              [{| Entry.p_symbol := "6758";
                  Entry.p_title_text := "業績予想の上方修正及び増配に関するお知らせ";
                  Entry.p_budget_label := "上方修正 + 増配";
                  Entry.p_limit_price := 1011; Entry.p_qty := 200;
                  Entry.p_total_cost := 202200;
                  Entry.p_reason := "上方+増配 => 合計 2単元 (adjusted_budget=300000)";
                  Entry.p_market_cap := 10000000000 # 1 |}]
              Disk.empty eq_refl) as (Hsame & _ & Hother).
  split.
  - refine (Hsame [] _ [] eq_refl _).
    intros p' Hp'. now apply elem_of_nil in Hp'.
  - refine (Hother "2025-03-04" _). discriminate.
Defined.

(** ** Polling the order list again *)

Section ExitPolling.
Import Py Broker Exit.

(** The orders that [main] turns into a sell order when their id is new. *)
Let convertible (o : order) : bool :=
  bool_decide (Side o = "2") && (State o =? 5) && Qeq_bool (CumQty o) (OrderQty o)
  && negb (Qeq_bool (fill_totals (Details o)).2 0).

Lemma main_body_known (today : string) (labels : gmap string string) (o : order)
    (st : state) :
  (convertible o = true -> ID o ∈ processed_order_ids st) ->
  main_body today labels o st = st.
Proof.
  unfold convertible, main_body. intros Hk.
  destruct (bool_decide (Side o = "2") && (State o =? 5)
            && Qeq_bool (CumQty o) (OrderQty o)); [|reflexivity].
  simpl in Hk. destruct (fill_totals (Details o)) as [tp tq]. simpl in Hk.
  destruct (Qeq_bool tq 0); simpl in Hk.
  - now case_bool_decide.
  - rewrite bool_decide_true; [reflexivity|now apply Hk].
Qed.

Lemma main_body_ids (today : string) (labels : gmap string string) (o : order)
    (st : state) :
  processed_order_ids st ⊆ processed_order_ids (main_body today labels o st) /\
  (convertible o = true -> ID o ∈ processed_order_ids (main_body today labels o st)) /\
  current_date (main_body today labels o st) = current_date st.
Proof.
  unfold convertible, main_body.
  destruct (bool_decide (Side o = "2") && (State o =? 5)
            && Qeq_bool (CumQty o) (OrderQty o)); simpl;
    [|split; [done|split; [intros H; discriminate H|done]]].
  destruct (fill_totals (Details o)) as [tp tq]. simpl.
  case_bool_decide as Hin; [now repeat split|].
  destruct (Qeq_bool tq 0); simpl.
  - split; [done|split; [intros H; discriminate H|done]].
  - split; [apply union_subseteq_r|]. split; [|reflexivity].
    intros _. apply elem_of_union_l. now apply elem_of_singleton.
Qed.

Lemma main_loop_ids (today : string) (labels : gmap string string) (l : list order) :
  forall st : state,
    let st' := fold_left (fun st order => main_body today labels order st) l st in
    processed_order_ids st ⊆ processed_order_ids st' /\
    (forall o, o ∈ l -> convertible o = true -> ID o ∈ processed_order_ids st') /\
    current_date st' = current_date st.
Proof.
  induction l as [| a rest IH]; intros st; simpl.
  - split; [done|]. split; [|reflexivity]. intros o Ho. now apply elem_of_nil in Ho.
  - destruct (main_body_ids today labels a st) as (Hsub & Ha & Hd).
    destruct (IH (main_body today labels a st)) as (Hsub' & Hall & Hd').
    split; [now transitivity (processed_order_ids (main_body today labels a st))|].
    split; [|congruence].
    intros o Ho Hc. apply elem_of_cons in Ho as [-> | Ho].
    + apply Hsub'. now apply Ha.
    + now apply Hall.
Qed.

Lemma main_loop_known (today : string) (labels : gmap string string) (l : list order) :
  forall st : state,
    (forall o, o ∈ l -> convertible o = true -> ID o ∈ processed_order_ids st) ->
    fold_left (fun st order => main_body today labels order st) l st = st.
Proof.
  induction l as [| a rest IH]; intros st Hk; simpl; [reflexivity|].
  rewrite main_body_known.
  - apply IH. intros o Ho. apply Hk, elem_of_cons. now right.
  - apply Hk, elem_of_cons. now left.
Qed.

Lemma main_iteration_again (today : string) (orders : list order) (st : state) :
  main_iteration today orders (main_iteration today orders st)
  = main_iteration today orders st.
Proof.
  set (st1 := main_iteration today orders st).
  assert (H1 : current_date st1 = today /\
               forall o, o ∈ orders -> convertible o = true ->
                         ID o ∈ processed_order_ids st1).
  { unfold st1, main_iteration.
    match goal with
    | |- context [fold_left ?f orders ?s0] =>
        destruct (main_loop_ids today
                    (load_purchased_info_for_today today (disk st)) orders s0)
          as (_ & Hall & Hd)
    end.
    split; [|exact Hall]. rewrite Hd. now case_bool_decide. }
  destruct H1 as [Hd Hall]. unfold main_iteration at 1.
  rewrite bool_decide_false by (intros H; now apply H).
  now apply main_loop_known.
Qed.







End ExitPolling.

(** X9. Polling is idempotent within a day: an iteration of the exit loop
    on the order list that the previous iteration saw, on the same date,
    changes nothing; no second sell order is sent for an order that was
    converted and no order is sent for one that was passed over. *)
Theorem exit_poll_of_same_orders_sends_nothing (today : string)
    (orders : list Broker.order) (st : Exit.state) :
  Exit.main_iteration today orders (Exit.main_iteration today orders st)
  = Exit.main_iteration today orders st.
Proof. apply main_iteration_again. Qed.



(** ** The price of an exit *)

Section ExitPriceBounds.
Import Py Broker Exit.

(** Every multiplier of [LABEL_RATIO_MAP], and the default, is at least 1. *)
Lemma label_ratio_ge_1 (label : string) :
  (1 <= get_additional_ratio_for_label label)%Q.
Proof.
  unfold get_additional_ratio_for_label.
  destruct (LABEL_RATIO_MAP !! label) as [q|] eqn:E; simpl; [|apply Qle_refl].
  unfold LABEL_RATIO_MAP in E. apply elem_of_list_to_map_2 in E.
  repeat (apply elem_of_cons in E as [E | E];
          [injection E as -> ->; unfold Qle; simpl; lia|]).
  now apply elem_of_nil in E.
Qed.

Lemma tmp_price_ge (avg : Q) (budget_label : option string) :
  (0 <= avg)%Q -> (avg * (103 # 100) <= tmp_price avg budget_label)%Q.
Proof.
  intros Ha. unfold tmp_price.
  destruct budget_label as [label|]; [|apply Qle_refl].
  case_bool_decide; [apply Qle_refl|].
  pose proof (label_ratio_ge_1 label) as Hr.
  assert (Hp : (0 <= avg * (get_additional_ratio_for_label label - 1))%Q)
    by (apply Qmult_le_0_compat; lra).
  lra.
Qed.


End ExitPriceBounds.

(** X11. No exit below cost: for an average fill price of 34 yen or more,
    with or without a label from the purchase log, the sell limit price that
    the exit controller computes is at least the average fill price. *)
Theorem exit_limit_is_at_least_the_average_fill (avg : Q) (budget_label : option string)
    (Havg : (34 <= avg)%Q) :
  (avg <= inject_Z (Tick.round_sell_price_for_rules (Exit.tmp_price avg budget_label)))%Q.
Proof.
  assert (Ha : (0 <= avg)%Q) by lra.
  pose proof (tmp_price_ge avg budget_label Ha) as Hx.
  set (x := Exit.tmp_price avg budget_label) in *.
  assert (Hx0 : (0 <= x)%Q) by lra.
  destruct (int_nonneg_bounds x Hx0) as [Hlo Hhi].
  rewrite round_sell_is_adjust. unfold Tick.adjust_price_to_tick.
  set (n := Py.int x) in *.
  assert (Hn : 35 <= n).
  { unfold n. rewrite int_nonneg_floor by exact Hx0. apply (floor_ge 35).
    change (inject_Z 35) with 35%Q. lra. }
  set (q := n / (if n <=? 3000 then 1 else if n <=? 5000 then 5 else 10)
            * (if n <=? 3000 then 1 else if n <=? 5000 then 5 else 10)).
  assert (Hq : 100 * (n + 1) <= 103 * q).
  { unfold q. destruct (Z.leb_spec n 3000), (Z.leb_spec n 5000);
      Z.div_mod_to_equations; lia. }
  rewrite Zle_Qle in Hq. rewrite !inject_Z_mult in Hq.
  change (inject_Z 100) with 100%Q in Hq. change (inject_Z 103) with 103%Q in Hq.
  lra.
Qed.

(** The average fill of 1005 yen under the label "上方修正 + 増配". *)
Lemma exit_limit_is_at_least_the_average_fill_witness :
  (1005 # 1 <= inject_Z (Tick.round_sell_price_for_rules
                            (Exit.tmp_price (1005 # 1) (Some "上方修正 + 増配"))))%Q.
Proof.
  apply (exit_limit_is_at_least_the_average_fill (1005 # 1) (Some "上方修正 + 増配")).
  unfold Qle; simpl; lia.
Defined.



(** ** What the stop-loss controller acts on *)

Section LosscutActions.
Import Py Broker Losscut.

(** Every value of the dictionary comes from a listed position, whose
    prices it holds as floats. *)
Lemma build_position_dict_sound (positions : list position) (s : string)
    (info : pos_info) :
  build_position_dict positions !! s = Some info ->
  exists pos bp cp,
    pos ∈ positions /\ pos_Symbol pos = Some s /\
    pos_Price pos = Some bp /\ pos_CurrentPrice pos = Some cp /\
    buy_price info = float bp /\ current_price info = float cp.
Proof.
  unfold build_position_dict.
  match goal with
  | |- fold_left ?f positions ∅ !! s = Some info -> _ =>
      assert (Hgen : forall l m,
                 fold_left f l m !! s = Some info ->
                 m !! s = Some info \/
                 exists pos bp cp,
                   pos ∈ l /\ pos_Symbol pos = Some s /\
                   pos_Price pos = Some bp /\ pos_CurrentPrice pos = Some cp /\
                   buy_price info = float bp /\ current_price info = float cp)
  end.
  { induction l as [| a rest IH]; intros m; simpl; [now left|].
    intros H. apply IH in H as [H | (pos & bp & cp & Hin & Hrest)].
    - destruct (pos_Symbol a) as [sym|] eqn:Hs; [|now left].
      destruct (pos_Price a) as [bp|] eqn:Hp; [|now left].
      destruct (pos_CurrentPrice a) as [cp|] eqn:Hc; [|now left].
      case_bool_decide; [now left|].
      destruct (decide (sym = s)) as [-> | Hne].
      + rewrite lookup_insert_eq in H. injection H as <-. simpl.
        right. exists a, bp, cp. split; [apply elem_of_cons; now left|].
        now repeat split.
      + rewrite lookup_insert_ne in H by exact Hne. now left.
    - right. exists pos, bp, cp. split; [apply elem_of_cons; now right|exact Hrest]. }
  intros H. apply Hgen in H as [H | H]; [|exact H].
  rewrite lookup_empty in H. discriminate H.
Qed.

(** What justifies an action on an order: a sell order, not terminal or not
    fully filled, of a listed position that passes the test of the code, its
    current price at or below the binary64 product of its entry price and
    0.97. *)
Let breached (positions : list position) (od : order) (bp : Q) : Prop :=
  Side od = "1" /\
  (State od <> 5 \/ (CumQty od < OrderQty od)%Q) /\
  exists pos cp,
    pos ∈ positions /\ pos_Symbol pos = Some (Symbol od) /\
    pos_Price pos = Some bp /\ pos_CurrentPrice pos = Some cp /\
    (float cp <= fmul (float bp) (97 # 100))%Q.

Lemma main_body_sound (positions : list position) (od : order) (a : action) :
  a ∈ main_body (build_position_dict positions) od ->
  exists bp,
    breached positions od bp /\
    (a = cancel_order (ID od) \/ a = sleep 1 \/
     (a = send_order (Symbol od) (int (OrderQty od - CumQty od))
                     (Tick.adjust_price_to_tick (fmul (float bp) (95 # 100))) /\
      0 < int (OrderQty od - CumQty od))).
Proof.
  unfold main_body. case_bool_decide as Hside; [|intros H; now apply elem_of_nil in H].
  destruct (negb (State od =? 5) || negb (Qle_bool (OrderQty od) (CumQty od))) eqn:Hopen;
    [|intros H; now apply elem_of_nil in H].
  destruct (build_position_dict positions !! Symbol od) as [info|] eqn:Hd;
    [|intros H; now apply elem_of_nil in H].
  destruct (Qle_bool (current_price info) (fmul (buy_price info) (97 # 100))) eqn:Hb;
    [|intros H; now apply elem_of_nil in H].
  destruct (build_position_dict_sound positions _ _ Hd)
    as (pos & bp & cp & Hin & Hs & Hp & Hc & Ebp & Ecp).
  rewrite Ebp, Ecp in Hb. rewrite Ebp.
  intros Ha. exists bp. split.
  - split; [exact Hside|]. split.
    + apply orb_prop in Hopen as [H | H]; apply negb_true_iff in H.
      * left. intros E. rewrite E in H. discriminate H.
      * right. apply Qnot_le_lt. intros Hle. apply Qle_bool_iff in Hle. congruence.
    + exists pos, cp. repeat split; try assumption.
      now apply Qle_bool_iff.
  - apply elem_of_cons in Ha as [-> | Ha]; [now left|]. right.
    destruct (Z.ltb_spec 0 (int (OrderQty od - CumQty od))) as [Hr | Hr];
      [|now apply elem_of_nil in Ha].
    unfold send_cash_sell_order in Ha.
    apply elem_of_cons in Ha as [-> | Ha]; [now left|]. right.
    apply list_elem_of_singleton in Ha. now split.
Qed.

Lemma main_iteration_sound (positions : list position) (orders : list order)
    (a : action) :
  a ∈ main_iteration positions orders ->
  a = sleep 2 \/
  exists od bp,
    od ∈ orders /\ breached positions od bp /\
    (a = cancel_order (ID od) \/ a = sleep 1 \/
     (a = send_order (Symbol od) (int (OrderQty od - CumQty od))
                     (Tick.adjust_price_to_tick (fmul (float bp) (95 # 100))) /\
      0 < int (OrderQty od - CumQty od))).
Proof.
  unfold main_iteration. intros Ha. apply elem_of_app in Ha as [Ha | Ha].
  - right. apply list_elem_of_In, in_flat_map in Ha as (od & Hod & Ha).
    apply list_elem_of_In in Hod, Ha.
    destruct (main_body_sound positions od a Ha) as (bp & Hb & Hcases).
    now exists od, bp.
  - left. now apply list_elem_of_singleton in Ha.
Qed.

End LosscutActions.

(** X13. The stop-loss controller acts only on breaches: every cancellation
    and every order of an iteration belongs to a listed sell order, not
    terminal or not fully filled, whose symbol has a listed position with
    both prices that passes the test of the code, the current price, as a
    float, at or below the binary64 product of the entry price and 0.97; the
    order sent is for the integer part of the remainder, which is positive,
    at the binary64 product of the entry price and 0.95 floored to its tick.
    When every listed position has its current price above that product of
    its entry price, the iteration only sleeps. *)
Theorem stop_loss_acts_only_on_breached_positions :
  forall (positions : list Broker.position) (orders : list Broker.order),
    (forall a, a ∈ Losscut.main_iteration positions orders ->
       a = Losscut.sleep 2 \/ a = Losscut.sleep 1 \/
       exists od pos bp cp,
         od ∈ orders /\ Broker.Side od = "1" /\
         (Broker.State od <> 5 \/ (Broker.CumQty od < Broker.OrderQty od)%Q) /\
         pos ∈ positions /\ Broker.pos_Symbol pos = Some (Broker.Symbol od) /\
         Broker.pos_Price pos = Some bp /\ Broker.pos_CurrentPrice pos = Some cp /\
         (Py.float cp <= Py.fmul (Py.float bp) (97 # 100))%Q /\
         (a = Losscut.cancel_order (Broker.ID od) \/
          (a = Losscut.send_order (Broker.Symbol od)
                 (Py.int (Broker.OrderQty od - Broker.CumQty od))
                 (Tick.adjust_price_to_tick (Py.fmul (Py.float bp) (95 # 100))) /\
           0 < Py.int (Broker.OrderQty od - Broker.CumQty od)))) /\
    ((forall pos bp cp,
         pos ∈ positions -> Broker.pos_Price pos = Some bp ->
         Broker.pos_CurrentPrice pos = Some cp ->
         (Py.fmul (Py.float bp) (97 # 100) < Py.float cp)%Q) ->
     Losscut.main_iteration positions orders = [Losscut.sleep 2]).
Proof.
  intros positions orders. split.
  - intros a Ha.
    destruct (main_iteration_sound positions orders a Ha)
      as [-> | (od & bp & Hod & (Hside & Hopen & pos & cp & Hpos & Hs & Hp & Hc & Hb)
                & Hcases)]; [now left|].
    destruct Hcases as [-> | [-> | Hsend]]; [|now right; left|];
      right; right; exists od, pos, bp, cp; repeat split; try assumption.
    + now left.
    + now right.
  - intros Hcalm. unfold Losscut.main_iteration.
    assert (E : flat_map (Losscut.main_body (Losscut.build_position_dict positions))
                         orders = []).
    { induction orders as [| od rest IH]; [reflexivity|]. simpl. rewrite IH.
      rewrite app_nil_r.
      destruct (Losscut.main_body (Losscut.build_position_dict positions) od)
        as [| a l] eqn:Hbody; [reflexivity|]. exfalso.
      assert (Ha : a ∈ Losscut.main_body (Losscut.build_position_dict positions) od)
        by (rewrite Hbody; apply elem_of_cons; now left).
      destruct (main_body_sound positions od a Ha)
        as (bp & (_ & _ & pos & cp & Hpos & _ & Hp & Hc & Hb) & _).
      specialize (Hcalm pos bp cp Hpos Hp Hc).
      apply (Qlt_irrefl (Py.float cp)).
      now apply Qle_lt_trans with (Py.fmul (Py.float bp) (97 # 100)). }
    now rewrite E.
Qed.

(** The position in 8035 at 3881, one yen above the product of 4000 and
    0.97, the float 3880. *)
Lemma stop_loss_acts_only_on_breached_positions_witness :
  Losscut.main_iteration
    [{| Broker.pos_Symbol := Some "8035"; Broker.pos_Side := "2";
        Broker.pos_Price := Some (4000 # 1);
        Broker.pos_CurrentPrice := Some (3881 # 1) |}]
    [Scenario.finished_sell; Scenario.open_sell]
  = [Losscut.sleep 2].
Proof.
  apply (proj2 (stop_loss_acts_only_on_breached_positions _ _)).
  intros pos bp cp Hpos Hp Hc. apply list_elem_of_singleton in Hpos. subst pos.
  simpl in Hp, Hc. injection Hp as <-. injection Hc as <-.
  vm_compute. reflexivity.
Defined.

(** X14. A sell order that is terminal (State 5) but not fully filled, as a
    cancelled order is, is treated like an open one: while the position that
    the controller keeps for its symbol, the last one listed with the symbol
    and both prices, passes the test of the code (the current price, as a
    float, at or below the binary64 product of the entry price and 0.97),
    each iteration cancels the order and sends an order for the remainder at
    the binary64 product of the entry price and 0.95, floored to its tick. *)
Theorem terminal_unfilled_sell_is_replaced_again
    (before after : list Broker.position) (pos : Broker.position) (bp cp : Q)
    (od : Broker.order) (remainder : Z)
    (Hsym : Broker.pos_Symbol pos = Some (Broker.Symbol od))
    (Hne : Broker.Symbol od <> "")
    (Hbp : Broker.pos_Price pos = Some bp)
    (Hcp : Broker.pos_CurrentPrice pos = Some cp)
    (Hafter : forall p, p ∈ after -> Broker.pos_Symbol p = Some (Broker.Symbol od) ->
                        Broker.pos_Price p = None \/ Broker.pos_CurrentPrice p = None)
    (Hside : Broker.Side od = "1")
    (Hstate : Broker.State od = 5)
    (Hopen : (Broker.CumQty od < Broker.OrderQty od)%Q)
    (Hrem : (Broker.OrderQty od - Broker.CumQty od == inject_Z remainder)%Q)
    (Hbreach : (Py.float cp <= Py.fmul (Py.float bp) (97 # 100))%Q) :
  Losscut.main_body (Losscut.build_position_dict (before ++ pos :: after)) od
  = [Losscut.cancel_order (Broker.ID od);
     Losscut.sleep 1;
     Losscut.send_order (Broker.Symbol od) remainder
       (Tick.adjust_price_to_tick (Py.fmul (Py.float bp) (95 # 100)))] /\
  forall orders : list Broker.order,
    od ∈ orders ->
    exists earlier later,
      Losscut.main_iteration (before ++ pos :: after) orders
      = earlier
        ++ [Losscut.cancel_order (Broker.ID od);
            Losscut.sleep 1;
            Losscut.send_order (Broker.Symbol od) remainder
              (Tick.adjust_price_to_tick (Py.fmul (Py.float bp) (95 # 100)))]
        ++ later.
Proof.
  assert (Hbody :
    Losscut.main_body (Losscut.build_position_dict (before ++ pos :: after)) od
    = [Losscut.cancel_order (Broker.ID od);
       Losscut.sleep 1;
       Losscut.send_order (Broker.Symbol od) remainder
         (Tick.adjust_price_to_tick (Py.fmul (Py.float bp) (95 # 100)))]).
  { apply (main_body_breached _ od
             {| Losscut.buy_price := Py.float bp; Losscut.current_price := Py.float cp;
                Losscut.side := Broker.pos_Side pos |} remainder);
      try assumption.
    now apply build_position_dict_last. }
  split; [exact Hbody|].
  intros orders Hod.
  destruct (main_iteration_contains (before ++ pos :: after) orders od Hod)
    as (earlier & later & E).
  exists earlier, later. now rewrite E, Hbody.
Qed.

(** The open sell order of 8035 once it is cancelled: State 5, 100 of 300
    shares sold; the position at 4000 and 3880 is listed after one without a
    current price. *)
Lemma terminal_unfilled_sell_is_replaced_again_witness :
  Losscut.main_body
    (Losscut.build_position_dict
       ([{| Broker.pos_Symbol := Some "8035"; Broker.pos_Side := "2";
            Broker.pos_Price := Some (4100 # 1);
            Broker.pos_CurrentPrice := None |}]
        ++ Scenario.falling_position :: []))
    {| Broker.ID := "20250303A02N00000007"; Broker.Side := "1"; Broker.State := 5;
       Broker.CumQty := 100 # 1; Broker.OrderQty := 300 # 1;
       Broker.Symbol := "8035"; Broker.Details := [] |}
  = [Losscut.cancel_order "20250303A02N00000007";
     Losscut.sleep 1;
     Losscut.send_order "8035" 200 3800].
Proof.
  assert (Hprice : Tick.adjust_price_to_tick (Py.fmul (Py.float (4000 # 1)) (95 # 100))
                   = 3800) by (vm_compute; reflexivity).
  rewrite <- Hprice.
  refine (proj1 (terminal_unfilled_sell_is_replaced_again
                   [{| Broker.pos_Symbol := Some "8035"; Broker.pos_Side := "2";
                       Broker.pos_Price := Some (4100 # 1);
                       Broker.pos_CurrentPrice := None |}]
                   [] Scenario.falling_position (4000 # 1) (3880 # 1)
                   {| Broker.ID := "20250303A02N00000007"; Broker.Side := "1";
                      Broker.State := 5; Broker.CumQty := 100 # 1;
                      Broker.OrderQty := 300 # 1; Broker.Symbol := "8035";
                      Broker.Details := [] |}
                   200 _ _ _ _ _ _ _ _ _ _)).
  - reflexivity.
  - discriminate.
  - reflexivity.
  - reflexivity.
  - intros p Hp. now apply elem_of_nil in Hp.
  - reflexivity.
  - reflexivity.
  - unfold Qlt; simpl; lia.
  - reflexivity.
  - apply Qle_bool_iff. vm_compute. reflexivity.
Defined.

(** ** The stale-order reaper *)

Section ReaperFacts.
Import Broker Reaper.

Variable fromisoformat : string -> iso.
Variable threshold : Z.
Variable now : Z.

(** A buy order without fill, not terminal, whose time has no offset. *)
Let offsetless (o : listed) : Prop :=
  Side (order o) = "2" /\ (CumQty (order o) == 0)%Q /\ State (order o) <> 5 /\
  exists recv_time_str,
    RecvTime o = Some recv_time_str /\ recv_time_str <> "" /\
    fromisoformat recv_time_str = iso_naive.

Lemma examine_cancels (o : listed) (order_id : string) :
  examine fromisoformat threshold now o = Some (Some order_id) <->
  stale fromisoformat threshold now o /\ order_id = ID (order o).
Proof.
  unfold examine, stale.
  case_bool_decide as Hside.
  2: { split; [intros H; discriminate H|]. intros [(Hs & _) _]. contradiction. }
  destruct (Qeq_bool (CumQty (order o)) 0) eqn:Hcum; simpl.
  2: { split; [intros H; discriminate H|]. intros [(_ & Hc & _) _].
       apply Qeq_bool_iff in Hc. congruence. }
  apply Qeq_bool_iff in Hcum.
  destruct (Z.eqb_spec (State (order o)) 5) as [Hst | Hst]; simpl.
  { split; [intros H; discriminate H|]. intros [(_ & _ & Hn & _) _]. contradiction. }
  destruct (RecvTime o) as [s|].
  2: { split; [intros H; discriminate H|].
       intros [(_ & _ & _ & s & t & E & _) _]. discriminate E. }
  case_bool_decide as Hempty.
  { split; [intros H; discriminate H|].
    intros [(_ & _ & _ & s' & t & E & Hne & _) _]. injection E as <-. contradiction. }
  destruct (fromisoformat s) as [| | t] eqn:Hiso.
  1, 2: split; [intros H; discriminate H|];
        intros [(_ & _ & _ & s' & t & E & _ & Hf & _) _]; injection E as <-; congruence.
  rewrite Qle_bool_num.
  destruct (Z.leb_spec (threshold * 1000000) (now - t)) as [Hold | Hyoung].
  - split.
    + intros H. injection H as <-. split; [|reflexivity].
      repeat split; try assumption. now exists s, t.
    + intros [_ ->]. reflexivity.
  - split; [intros H; discriminate H|].
    intros [(_ & _ & _ & s' & t' & E & _ & Hf & Hage) _]. injection E as <-.
    rewrite Hiso in Hf. injection Hf as <-. lia.
Qed.

Lemma examine_raises (o : listed) :
  examine fromisoformat threshold now o = None <-> offsetless o.
Proof.
  unfold examine, offsetless.
  case_bool_decide as Hside.
  2: { split; [intros H; discriminate H|]. intros (Hs & _). contradiction. }
  destruct (Qeq_bool (CumQty (order o)) 0) eqn:Hcum; simpl.
  2: { split; [intros H; discriminate H|]. intros (_ & Hc & _).
       apply Qeq_bool_iff in Hc. congruence. }
  apply Qeq_bool_iff in Hcum.
  destruct (Z.eqb_spec (State (order o)) 5) as [Hst | Hst]; simpl.
  { split; [intros H; discriminate H|]. intros (_ & _ & Hn & _). contradiction. }
  destruct (RecvTime o) as [s|].
  2: { split; [intros H; discriminate H|].
       intros (_ & _ & _ & s & E & _). discriminate E. }
  case_bool_decide as Hempty.
  { split; [intros H; discriminate H|].
    intros (_ & _ & _ & s' & E & Hne & _). injection E as <-. contradiction. }
  destruct (fromisoformat s) as [| | t] eqn:Hiso.
  - split; [intros H; discriminate H|].
    intros (_ & _ & _ & s' & E & _ & Hf). injection E as <-. congruence.
  - split; [intros _|reflexivity]. repeat split; try assumption. now exists s.
  - split; [destruct (Qle_bool _ _); intros H; discriminate H|].
    intros (_ & _ & _ & s' & E & _ & Hf). injection E as <-. congruence.
Qed.

Lemma sweep_sound (orders : list listed) (order_id : string) :
  order_id ∈ (sweep fromisoformat threshold now orders).1 ->
  exists o, o ∈ orders /\ stale fromisoformat threshold now o /\
            order_id = ID (order o).
Proof.
  induction orders as [| a rest IH]; simpl; [intros H; now apply elem_of_nil in H|].
  destruct (examine fromisoformat threshold now a) as [[id|]|] eqn:E.
  - destruct (sweep fromisoformat threshold now rest) as [ids e]. simpl in *.
    intros H. apply elem_of_cons in H as [-> | H].
    + apply examine_cancels in E as [Hs ->].
      exists a. split; [apply elem_of_cons; now left|now split].
    + destruct (IH H) as (o & Ho & Hrest).
      exists o. split; [apply elem_of_cons; now right|exact Hrest].
  - intros H. destruct (IH H) as (o & Ho & Hrest).
    exists o. split; [apply elem_of_cons; now right|exact Hrest].
  - intros H. now apply elem_of_nil in H.
Qed.

Lemma sweep_complete (orders : list listed) :
  (forall o, o ∈ orders -> ~ offsetless o) ->
  (sweep fromisoformat threshold now orders).2 = finished /\
  forall o, o ∈ orders -> stale fromisoformat threshold now o ->
            ID (order o) ∈ (sweep fromisoformat threshold now orders).1.
Proof.
  induction orders as [| a rest IH]; intros Hno; simpl.
  - split; [reflexivity|]. intros o Ho. now apply elem_of_nil in Ho.
  - destruct IH as [Hend Hall].
    { intros o Ho. apply Hno, elem_of_cons. now right. }
    destruct (examine fromisoformat threshold now a) as [[id|]|] eqn:E.
    + destruct (sweep fromisoformat threshold now rest) as [ids e]. simpl in *.
      split; [exact Hend|]. intros o Ho Hs. apply elem_of_cons in Ho as [-> | Ho].
      * apply examine_cancels in E as [_ ->]. apply elem_of_cons. now left.
      * apply elem_of_cons. right. now apply Hall.
    + split; [exact Hend|]. intros o Ho Hs. apply elem_of_cons in Ho as [-> | Ho].
      * assert (Hx : examine fromisoformat threshold now a = Some (Some (ID (order a))))
          by (now apply examine_cancels).
        congruence.
      * now apply Hall.
    + exfalso. apply (Hno a); [apply elem_of_cons; now left|].
      now apply examine_raises.
Qed.

Lemma sweep_aborts (l1 l2 : list listed) (o : listed) :
  (forall o', o' ∈ l1 -> ~ offsetless o') -> offsetless o ->
  sweep fromisoformat threshold now (l1 ++ o :: l2)
  = ((sweep fromisoformat threshold now l1).1, type_error).
Proof.
  intros Hno Ho. induction l1 as [| a rest IH]; simpl.
  - apply examine_raises in Ho. now rewrite Ho.
  - rewrite IH by (intros o' Ho'; apply Hno, elem_of_cons; now right).
    destruct (examine fromisoformat threshold now a) as [[id|]|] eqn:E.
    + now destruct (sweep fromisoformat threshold now rest) as [ids e].
    + reflexivity.
    + exfalso. apply (Hno a); [apply elem_of_cons; now left|].
      now apply examine_raises.
Qed.

End ReaperFacts.

(** X15. The reaper cancels exactly the stale orders: every id it passes to
    [cancel_order] is that of a listed buy order with no fill, not terminal,
    whose receipt time parses with an offset and lies the threshold or more
    in the past; and when no unfilled open buy order has a receipt time
    without offset, the pass finishes and cancels every such order. Sell
    orders, filled or terminal orders and orders without a readable receipt
    time are never cancelled. *)
Theorem reaper_cancels_exactly_the_stale_buys :
  forall (fromisoformat : string -> Reaper.iso) (threshold now : Z)
         (orders : list Reaper.listed),
    (forall order_id,
        order_id ∈ (Reaper.sweep fromisoformat threshold now orders).1 ->
        exists o, o ∈ orders /\ Reaper.stale fromisoformat threshold now o /\
                  order_id = Broker.ID (Reaper.order o)) /\
    ((forall o, o ∈ orders ->
        ~ (Broker.Side (Reaper.order o) = "2" /\
           (Broker.CumQty (Reaper.order o) == 0)%Q /\
           Broker.State (Reaper.order o) <> 5 /\
           exists recv_time_str,
             Reaper.RecvTime o = Some recv_time_str /\ recv_time_str <> "" /\
             fromisoformat recv_time_str = Reaper.iso_naive)) ->
     (Reaper.sweep fromisoformat threshold now orders).2 = Reaper.finished /\
     forall o, o ∈ orders -> Reaper.stale fromisoformat threshold now o ->
               Broker.ID (Reaper.order o)
               ∈ (Reaper.sweep fromisoformat threshold now orders).1).
Proof.
  intros f th now orders. split.
  - apply sweep_sound.
  - apply sweep_complete.
Qed.

(** Two unfilled open buy orders at 18:01:00, received 40 s and 50 s before,
    and a sell order of the same age: the two buy orders are cancelled. *)
Lemma reaper_cancels_exactly_the_stale_buys_witness :
  Reaper.sweep
    (fun s => if bool_decide (s = "2025-03-03T18:00:20+09:00")
                then Reaper.iso_aware 20000000
                else if bool_decide (s = "2025-03-03T18:00:10+09:00")
                     then Reaper.iso_aware 10000000
                     else Reaper.iso_error)
    30 60000000
    [{| Reaper.order :=
           {| Broker.ID := "A1"; Broker.Side := "2"; Broker.State := 3;
              Broker.CumQty := 0; Broker.OrderQty := 100 # 1;
              Broker.Symbol := "7203"; Broker.Details := [] |};
         Reaper.RecvTime := Some "2025-03-03T18:00:20+09:00" |};
      {| Reaper.order :=
           {| Broker.ID := "A2"; Broker.Side := "1"; Broker.State := 3;
              Broker.CumQty := 0; Broker.OrderQty := 100 # 1;
              Broker.Symbol := "7203"; Broker.Details := [] |};
         Reaper.RecvTime := Some "2025-03-03T18:00:10+09:00" |};
      {| Reaper.order :=
           {| Broker.ID := "A3"; Broker.Side := "2"; Broker.State := 3;
              Broker.CumQty := 0; Broker.OrderQty := 100 # 1;
              Broker.Symbol := "7203"; Broker.Details := [] |};
         Reaper.RecvTime := Some "2025-03-03T18:00:10+09:00" |}]
  = (["A1"; "A3"], Reaper.finished) /\
  "A3" ∈ ["A1"; "A3"].
Proof.
  pose (fromisoformat := fun s : string =>
          if bool_decide (s = "2025-03-03T18:00:20+09:00")
          then Reaper.iso_aware 20000000
          else if bool_decide (s = "2025-03-03T18:00:10+09:00")
               then Reaper.iso_aware 10000000
               else Reaper.iso_error).
  pose (listed := fun order_id side recv_time_str =>
          {| Reaper.order :=
               {| Broker.ID := order_id; Broker.Side := side; Broker.State := 3;
                  Broker.CumQty := 0; Broker.OrderQty := 100 # 1;
                  Broker.Symbol := "7203"; Broker.Details := [] |};
             Reaper.RecvTime := Some recv_time_str |}).
  pose (orders := [listed "A1" "2" "2025-03-03T18:00:20+09:00";
                   listed "A2" "1" "2025-03-03T18:00:10+09:00";
                   listed "A3" "2" "2025-03-03T18:00:10+09:00"]).
  change (Reaper.sweep fromisoformat 30 60000000 orders
          = (["A1"; "A3"], Reaper.finished) /\ "A3" ∈ ["A1"; "A3"]).
  assert (E : Reaper.sweep fromisoformat 30 60000000 orders
              = (["A1"; "A3"], Reaper.finished)) by (vm_compute; reflexivity).
  split; [exact E|].
  destruct (reaper_cancels_exactly_the_stale_buys fromisoformat 30 60000000 orders)
    as [_ H].
  destruct H as [_ Hall].
  - intros o Ho (_ & _ & _ & r & Hr & _ & Hnaive).
    repeat (apply elem_of_cons in Ho as [-> | Ho]); [..|now apply elem_of_nil in Ho];
      simpl in Hr; injection Hr as <-; vm_compute in Hnaive; discriminate Hnaive.
  - change ["A1"; "A3"] with (["A1"; "A3"], Reaper.finished).1. rewrite <- E.
    apply (Hall (listed "A3" "2" "2025-03-03T18:00:10+09:00")).
    + unfold orders. apply elem_of_cons; right. apply elem_of_cons; right.
      apply elem_of_cons; left. reflexivity.
    + split; [reflexivity|]. split; [reflexivity|]. split; [discriminate|].
      exists "2025-03-03T18:00:10+09:00", 10000000.
      split; [reflexivity|]. split; [discriminate|]. split; [vm_compute; reflexivity|].
      lia.
Defined.

(** X16. A receipt time without offset stops the pass: at the first
    unfilled open buy order whose receipt time parses without an offset the
    subtraction from [now] raises, and the orders listed after it are not
    examined in that pass, however old they are. *)
Theorem reaper_pass_stops_at_offsetless_time
    (fromisoformat : string -> Reaper.iso) (threshold now : Z)
    (l1 l2 : list Reaper.listed) (o : Reaper.listed) (recv_time_str : string)
    (Hbefore : forall o', o' ∈ l1 ->
        forall s, Reaper.RecvTime o' = Some s -> fromisoformat s <> Reaper.iso_naive)
    (Hside : Broker.Side (Reaper.order o) = "2")
    (Hcum : (Broker.CumQty (Reaper.order o) == 0)%Q)
    (Hstate : Broker.State (Reaper.order o) <> 5)
    (Hrecv : Reaper.RecvTime o = Some recv_time_str)
    (Hne : recv_time_str <> "")
    (Hnaive : fromisoformat recv_time_str = Reaper.iso_naive) :
  Reaper.sweep fromisoformat threshold now (l1 ++ o :: l2)
  = ((Reaper.sweep fromisoformat threshold now l1).1, Reaper.type_error).
Proof.
  apply sweep_aborts.
  - intros o' Ho' (_ & _ & _ & s & Hs & _ & Hf). now apply (Hbefore o' Ho' s).
  - repeat split; try assumption. now exists recv_time_str.
Qed.

(** Three buy orders without fill at 09:01:00 UTC with a threshold of 30 s:
    one received 40 s before with an offset, one whose time has no offset,
    one received 50 s before. The first is cancelled, the third is not
    reached. Times are microseconds since 09:00:00. *)
Lemma reaper_pass_stops_at_offsetless_time_witness :
  Reaper.sweep
    (fun s => if bool_decide (s = "2025-03-03T18:00:20+09:00")
              then Reaper.iso_aware 20000000
              else if bool_decide (s = "2025-03-03T18:00:10+09:00")
                   then Reaper.iso_aware 10000000
                   else Reaper.iso_naive)
    30 60000000
    ([{| Reaper.order :=
           {| Broker.ID := "A1"; Broker.Side := "2"; Broker.State := 3;
              Broker.CumQty := 0; Broker.OrderQty := 100 # 1;
              Broker.Symbol := "7203"; Broker.Details := [] |};
         Reaper.RecvTime := Some "2025-03-03T18:00:20+09:00" |}]
     ++ {| Reaper.order :=
             {| Broker.ID := "A2"; Broker.Side := "2"; Broker.State := 3;
                Broker.CumQty := 0; Broker.OrderQty := 100 # 1;
                Broker.Symbol := "6758"; Broker.Details := [] |};
           Reaper.RecvTime := Some "2025-03-03T18:00:30" |}
     :: [{| Reaper.order :=
              {| Broker.ID := "A3"; Broker.Side := "2"; Broker.State := 3;
                 Broker.CumQty := 0; Broker.OrderQty := 100 # 1;
                 Broker.Symbol := "8035"; Broker.Details := [] |};
            Reaper.RecvTime := Some "2025-03-03T18:00:10+09:00" |}])
  = (["A1"], Reaper.type_error).
Proof.
  refine (reaper_pass_stops_at_offsetless_time _ 30 60000000 _ _ _
            "2025-03-03T18:00:30" _ _ _ _ _ _ _).
  - intros o' Ho' s Hs. apply list_elem_of_singleton in Ho'. subst o'.
    simpl in Hs. injection Hs as <-. discriminate.
  - reflexivity.
  - reflexivity.
  - discriminate.
  - reflexivity.
  - discriminate.
  - reflexivity.
Defined.

(** ** The scheduling loop *)

Section SchedulerFacts.
Import Clock Scheduler.

Lemma days_before_month_next (y m : Z) :
  1 <= m <= 11 ->
  days_before_month y (m + 1) = days_before_month y m + days_in_month y m.
Proof.
  intros Hm.
  assert (m = 1 \/ m = 2 \/ m = 3 \/ m = 4 \/ m = 5 \/ m = 6 \/ m = 7 \/ m = 8
          \/ m = 9 \/ m = 10 \/ m = 11) as Hcases by lia.
  unfold days_before_month. generalize (days_in_month y). intros f.
  repeat (destruct Hcases as [-> | Hcases]); [..|subst m];
    simpl; cbv [Z.of_nat Pos.of_succ_nat Pos.succ]; lia.
Qed.

Lemma days_before_year_next (y : Z) :
  days_before_year (y + 1)
  = days_before_year y + days_before_month y 12 + 31.
Proof.
  unfold days_before_year, days_before_month; simpl.
  replace (y + 1 - 1) with y by lia.
  unfold days_in_month; simpl. unfold is_leap.
  destruct (Z.eqb_spec (y mod 4) 0), (Z.eqb_spec (y mod 100) 0),
           (Z.eqb_spec (y mod 400) 0); simpl;
    Z.div_mod_to_equations; lia.
Qed.

(** Adding a minute moves the clock by sixty million microseconds. *)
Lemma plus_one_minute_spec (t : datetime) :
  valid t = true ->
  to_microseconds (plus_one_minute t) = to_microseconds t + 60000000 /\
  second (plus_one_minute t) = second t /\
  microsecond (plus_one_minute t) = microsecond t.
Proof.
  intros Hv. unfold valid in Hv.
  repeat (apply andb_prop in Hv as [Hv ?]).
  repeat match goal with H : (_ <=? _) = true |- _ => apply Z.leb_le in H end.
  unfold plus_one_minute.
  destruct (Z.ltb_spec (minute t) 59);
    [unfold to_microseconds; simpl; split; [lia|now split]|].
  destruct (Z.ltb_spec (hour t) 23);
    [unfold to_microseconds; simpl; split; [lia|now split]|].
  destruct (Z.ltb_spec (day t) (days_in_month (year t) (month t)));
    [unfold to_microseconds, ymd2ord; simpl; split; [lia|now split]|].
  destruct (Z.ltb_spec (month t) 12).
  - unfold to_microseconds, ymd2ord; simpl.
    rewrite days_before_month_next by lia. split; [lia|now split].
  - unfold to_microseconds, ymd2ord; simpl.
    assert (Hm : month t = 12) by lia.
    rewrite days_before_year_next. rewrite Hm in *.
    change (days_before_month (year t + 1) 1) with 0.
    assert (days_in_month (year t) 12 = 31) by reflexivity.
    split; [lia|now split].
Qed.

(** The target lies one and a half seconds into the minute after the one of
    the clock reading. *)
Lemma next_run_spec (t : datetime) :
  valid t = true ->
  to_microseconds (next_run t)
  = to_microseconds t - (second t * 1000000 + microsecond t) + 61500000 /\
  second (next_run t) = 1 /\ microsecond (next_run t) = 500000.
Proof.
  intros Hv. destruct (plus_one_minute_spec t Hv) as (Hus & Hs & Hu).
  unfold next_run, replace_second. split; [|now split].
  revert Hus Hs Hu. generalize (plus_one_minute t). intros t' Hus Hs Hu.
  unfold to_microseconds in *; simpl. lia.
Qed.

(** The whole minutes of a clock reading. *)
Lemma to_microseconds_minutes (t : datetime) :
  to_microseconds t
  = 60000000 * (ymd2ord (year t) (month t) (day t) * 1440 + hour t * 60 + minute t)
    + (second t * 1000000 + microsecond t).
Proof. unfold to_microseconds. lia. Qed.

Lemma valid_seconds (t : datetime) :
  valid t = true -> 0 <= second t * 1000000 + microsecond t < 60000000.
Proof.
  intros Hv. unfold valid in Hv.
  repeat (apply andb_prop in Hv as [Hv ?]).
  repeat match goal with H : (_ <=? _) = true |- _ => apply Z.leb_le in H end.
  lia.
Qed.

End SchedulerFacts.

(** X17. For every valid clock reading the loop finds its target in the
    future: the wait is more than 1.5 s and at most 61.5 s, so the branch for
    a target already passed is never taken; the target is second 1.5 of the
    next minute; and the loop first sleeps for the wait less 20 s exactly
    when the wait exceeds 20 s. *)
Theorem scheduler_target_is_ahead (now : Clock.datetime)
    (Hnow : Scheduler.valid now = true) :
  (Scheduler.wait_seconds now
   == (61500000 - (Clock.second now * 1000000 + Clock.microsecond now)) # 1000000)%Q /\
  (15 # 10 < Scheduler.wait_seconds now)%Q /\
  (Scheduler.wait_seconds now <= 615 # 10)%Q /\
  Clock.second (Scheduler.next_run now) = 1 /\
  Clock.microsecond (Scheduler.next_run now) = 500000 /\
  exists sleep_first,
    Scheduler.turn now = Some (sleep_first, Scheduler.next_run now) /\
    (sleep_first = None <-> (Scheduler.wait_seconds now <= 20)%Q) /\
    (forall d, sleep_first = Some d -> (d == Scheduler.wait_seconds now - 20)%Q).
Proof.
  destruct (next_run_spec now Hnow) as (Hus & Hs & Hu).
  pose proof (valid_seconds now Hnow) as Hsec.
  assert (Hw : Scheduler.wait_seconds now
               = (61500000 - (Clock.second now * 1000000 + Clock.microsecond now))
                 # 1000000).
  { unfold Scheduler.wait_seconds, Clock.diff_seconds. f_equal. lia. }
  assert (Hlo : (15 # 10 < Scheduler.wait_seconds now)%Q)
    by (rewrite Hw; unfold Qlt; simpl; lia).
  assert (Hhi : (Scheduler.wait_seconds now <= 615 # 10)%Q)
    by (rewrite Hw; unfold Qle; simpl; lia).
  split; [now rewrite Hw|]. split; [exact Hlo|]. split; [exact Hhi|].
  split; [exact Hs|]. split; [exact Hu|].
  unfold Scheduler.turn.
  destruct (Qle_bool (Scheduler.wait_seconds now) 0) eqn:E0.
  { apply Qle_bool_iff in E0. lra. }
  destruct (Qle_bool (Scheduler.wait_seconds now) 20) eqn:E20.
  - exists None. split; [reflexivity|]. split.
    + split; [intros _; now apply Qle_bool_iff|reflexivity].
    + intros d H. discriminate H.
  - eexists. split; [reflexivity|]. split.
    + split; [intros H; discriminate H|].
      intros H. apply Qle_bool_iff in H. congruence.
    + intros d H. injection H as <-. reflexivity.
Qed.

(** The clock at 09:00:41.25: the target is 09:01:01.5, 20.25 s ahead, and
    the loop sleeps a quarter of a second before it polls. *)
Lemma scheduler_target_is_ahead_witness :
  Scheduler.next_run (Scenario.on_the_day 9 0 41 250000)
  = Scenario.on_the_day 9 1 1 500000 /\
  (Scheduler.wait_seconds (Scenario.on_the_day 9 0 41 250000) == 2025 # 100)%Q /\
  (15 # 10 < Scheduler.wait_seconds (Scenario.on_the_day 9 0 41 250000))%Q.
Proof.
  destruct (scheduler_target_is_ahead (Scenario.on_the_day 9 0 41 250000) eq_refl)
    as (Hw & Hlo & _).
  split; [reflexivity|]. split; [|exact Hlo].
  rewrite Hw. reflexivity.
Defined.

(** X18. No minute is skipped while a turn is short: when the loop reads the
    clock again at or after a target and less than 58.5 s after it, the new
    target is the old one plus one minute. Read 58.5 s or more after the
    target, the new target is at least two minutes after the old one. *)
Theorem scheduler_skips_no_minute (now later : Clock.datetime)
    (Hnow : Scheduler.valid now = true)
    (Hlater : Scheduler.valid later = true)
    (Hafter : Clock.to_microseconds (Scheduler.next_run now)
              <= Clock.to_microseconds later) :
  (Clock.to_microseconds later
   < Clock.to_microseconds (Scheduler.next_run now) + 58500000 ->
   Clock.to_microseconds (Scheduler.next_run later)
   = Clock.to_microseconds (Scheduler.next_run now) + 60000000) /\
  (Clock.to_microseconds (Scheduler.next_run now) + 58500000
   <= Clock.to_microseconds later ->
   Clock.to_microseconds (Scheduler.next_run now) + 120000000
   <= Clock.to_microseconds (Scheduler.next_run later)).
Proof.
  destruct (next_run_spec now Hnow) as (Hn & _).
  destruct (next_run_spec later Hlater) as (Hl & _).
  pose proof (valid_seconds now Hnow) as Hs1.
  pose proof (valid_seconds later Hlater) as Hs2.
  pose proof (to_microseconds_minutes now) as Hm1.
  pose proof (to_microseconds_minutes later) as Hm2.
  revert Hn Hl Hm1 Hm2 Hafter.
  generalize (Clock.to_microseconds (Scheduler.next_run now)).
  generalize (Clock.to_microseconds (Scheduler.next_run later)).
  generalize (Clock.to_microseconds now). generalize (Clock.to_microseconds later).
  generalize (Clock.ymd2ord (Clock.year now) (Clock.month now) (Clock.day now) * 1440
              + Clock.hour now * 60 + Clock.minute now).
  generalize (Clock.ymd2ord (Clock.year later) (Clock.month later) (Clock.day later)
              * 1440 + Clock.hour later * 60 + Clock.minute later).
  intros k2 k1 u2 u1 n2 n1 Hn Hl Hm1 Hm2 Hafter. split; intros H; lia.
Qed.

(** A cycle begun at 23:59:01.5 on 2025-03-03 that returns 40 s later: the
    next target is 00:00:01.5 of the next day. *)
Lemma scheduler_skips_no_minute_witness :
  Clock.to_microseconds
    (Scheduler.next_run
       {| Clock.year := 2025; Clock.month := 3; Clock.day := 3; Clock.hour := 23;
          Clock.minute := 59; Clock.second := 41; Clock.microsecond := 500000 |})
  = Clock.to_microseconds
      (Scheduler.next_run
         {| Clock.year := 2025; Clock.month := 3; Clock.day := 3; Clock.hour := 23;
            Clock.minute := 58; Clock.second := 30; Clock.microsecond := 0 |})
    + 60000000.
Proof.
  apply (proj1 (scheduler_skips_no_minute
                  {| Clock.year := 2025; Clock.month := 3; Clock.day := 3;
                     Clock.hour := 23; Clock.minute := 58; Clock.second := 30;
                     Clock.microsecond := 0 |}
                  {| Clock.year := 2025; Clock.month := 3; Clock.day := 3;
                     Clock.hour := 23; Clock.minute := 59; Clock.second := 41;
                     Clock.microsecond := 500000 |} eq_refl eq_refl
                  ltac:(vm_compute; discriminate))).
  vm_compute. reflexivity.
Defined.

(** ** The rows that the page filter keeps *)

Section PageFacts.
Import Py Entry Page.

(** The characters of a text. *)
Let chars := list_ascii_of_string.

(** A character that a text accepted by [int] can hold. *)
Let numeric (c : ascii) : Prop :=
  Clock.digit_of c <> None \/ c = "_"%char \/ c = "+"%char \/ c = "-"%char
  \/ Clock.is_space c = true.

Lemma chars_append (a b : string) : chars (a +:+ b) = chars a ++ chars b.
Proof. induction a as [| c a IH]; simpl; [reflexivity|now rewrite IH]. Qed.

Lemma chars_rev_app (s1 s2 : string) :
  chars (String.rev_app s1 s2) = rev (chars s1) ++ chars s2.
Proof.
  revert s2. induction s1 as [| c s1 IH]; intros s2; simpl; [reflexivity|].
  rewrite IH. simpl. now rewrite <- app_assoc.
Qed.

Lemma In_chars_rev (c : ascii) (s : string) :
  In c (chars (String.rev s)) <-> In c (chars s).
Proof.
  unfold String.rev. rewrite chars_rev_app. simpl. rewrite app_nil_r.
  symmetry. apply in_rev.
Qed.

Lemma In_chars_lstrip (c : ascii) (s : string) :
  In c (chars s) -> Clock.is_space c = true \/ In c (chars (Clock.lstrip s)).
Proof.
  induction s as [| a rest IH]; simpl; [tauto|].
  destruct (Clock.is_space a) eqn:Ha.
  - intros [<- | H]; [now left|now apply IH].
  - intros H. now right.
Qed.

Lemma In_chars_strip (c : ascii) (s : string) :
  In c (chars s) -> Clock.is_space c = true \/ In c (chars (Clock.strip s)).
Proof.
  intros H. unfold Clock.strip.
  apply In_chars_lstrip in H as [H | H]; [now left|].
  apply In_chars_rev in H. apply In_chars_lstrip in H as [H | H]; [now left|].
  right. now apply In_chars_rev.
Qed.

Lemma digits_chars (s : string) :
  forall (b : bool) (acc z : Z),
    Clock.digits s b acc = Some z ->
    forall c, In c (chars s) -> Clock.digit_of c <> None \/ c = "_"%char.
Proof.
  induction s as [| a rest IH]; intros b acc z H c Hc; simpl in *; [contradiction|].
  destruct (Clock.digit_of a) as [d|] eqn:Hd.
  - destruct Hc as [<- | Hc]; [left; congruence|]. now apply (IH _ _ _ H).
  - destruct (Ascii.eqb_spec a "_") as [-> | Hne]; simpl in H; [|discriminate H].
    destruct b; simpl in H; [|discriminate H].
    destruct Hc as [<- | Hc]; [now right|]. now apply (IH _ _ _ H).
Qed.

(** The text that [int] reads after the sign. *)
Lemma int_of_str_cases (s : string) (z : Z) :
  Clock.int_of_str s = Some z ->
  exists t z',
    (Clock.strip s = t \/ Clock.strip s = String "+" t \/ Clock.strip s = String "-" t)
    /\ Clock.digits t false 0 = Some z'.
Proof.
  unfold Clock.int_of_str. destruct (Clock.strip s) as [| a rest].
  - intros H. exists EmptyString, z. split; [now left|exact H].
  - destruct (Ascii.eqb_spec a "+") as [-> | Hplus].
    { intros H. exists rest, z. split; [right; left; reflexivity|exact H]. }
    destruct (Ascii.eqb_spec a "-") as [-> | Hminus].
    { intros H. destruct (Clock.digits rest false 0) as [z'|] eqn:E; [|discriminate H].
      exists rest, z'. split; [right; right; reflexivity|exact E]. }
    intros H. exists (String a rest), z. split; [now left|].
    destruct a as [[] [] [] [] [] [] [] []]; first [exact H | congruence].
Qed.

Lemma int_of_str_numeric (s : string) (z : Z) :
  Clock.int_of_str s = Some z -> forall c, In c (chars s) -> numeric c.
Proof.
  intros H c Hc. unfold numeric.
  apply In_chars_strip in Hc as [Hc | Hc]; [tauto|].
  destruct (int_of_str_cases s z H) as (t & z' & Hcases & Hd).
  assert (Ht : In c (chars t) -> Clock.digit_of c <> None \/ c = "_"%char)
    by (apply (digits_chars t false 0 z' Hd)).
  destruct Hcases as [E | [E | E]]; rewrite E in Hc.
  - destruct (Ht Hc); tauto.
  - destruct Hc as [<- | Hc]; [tauto|]. destruct (Ht Hc); tauto.
  - destruct Hc as [<- | Hc]; [tauto|]. destruct (Ht Hc); tauto.
Qed.

Lemma prefix_chars (w s : string) :
  String.prefix w s = true -> forall c, In c (chars w) -> In c (chars s).
Proof.
  revert s. induction w as [| a w IH]; intros s H c Hc; simpl in *; [contradiction|].
  destruct s as [| b s]; simpl in H; [discriminate H|]. simpl.
  destruct (ascii_dec a b) as [-> | _]; [|discriminate H].
  destruct Hc as [<- | Hc]; [now left|]. right. now apply (IH s).
Qed.

Lemma contains_chars (w s : string) :
  contains w s = true -> forall c, In c (chars w) -> In c (chars s).
Proof.
  induction s as [| b s IH]; intros H c Hc.
  - simpl in H. rewrite orb_false_r in H. now apply (prefix_chars w "" H).
  - cbn [contains] in H. apply orb_prop in H as [H | H].
    + now apply (prefix_chars w _ H).
    + simpl. right. now apply IH.
Qed.

Lemma split_chars (sep c : ascii) (s : string) :
  In c (chars s) -> c <> sep ->
  exists p, In p (Clock.split sep s) /\ In c (chars p).
Proof.
  intros Hc Hne. induction s as [| a rest IH]; simpl in *; [contradiction|].
  destruct (Ascii.eqb_spec a sep) as [-> | Ha].
  - destruct Hc as [<- | Hc]; [contradiction|].
    destruct (IH Hc) as (p & Hp & Hcp). exists p. split; [now right|exact Hcp].
  - destruct (Clock.split sep rest) as [| w ws] eqn:Hs.
    + destruct Hc as [<- | Hc].
      * exists (String a ""). split; [now left|now left].
      * destruct (IH Hc) as (p & Hp & _). destruct Hp.
    + destruct Hc as [<- | Hc].
      * exists (String a w). split; [now left|now left].
      * destruct (IH Hc) as (p & [<- | Hp] & Hcp).
        -- exists (String a w). split; [now left|now right].
        -- exists p. split; [now right|exact Hcp].
Qed.

Lemma substring_length_le (n : nat) (s : string) :
  (String.length (String.substring 0 n s) <= n)%nat.
Proof.
  revert s. induction n as [| n IH]; intros [| a s]; simpl; try lia.
  specialize (IH s). lia.
Qed.

Lemma normalize_code_length (code_text : string) :
  (String.length (normalize_code code_text) <= 4)%nat.
Proof.
  unfold normalize_code.
  destruct (Nat.ltb_spec 4 (String.length (remove_char "-" (remove_char " " code_text)))).
  - apply substring_length_le.
  - assumption.
Qed.

(** A time text that passes both filters of the page. *)
Lemma filtered_time_text (now : Clock.datetime) (t : string) :
  is_today_announcement now t = true ->
  is_market_hours_timestr t = true ->
  String.length t = 5%nat /\
  exists hour minute,
    Clock.int_of_str <$> Clock.split ":" t = [Some hour; Some minute] /\
    valid_time hour minute = true /\ in_session hour minute = true.
Proof.
  intros Htoday Hsession. unfold is_market_hours_timestr in Hsession.
  destruct (Nat.ltb_spec (String.length t) 5) as [Hshort | Hlong];
    [discriminate Hsession|].
  destruct (contains ":" t) eqn:Hcolon; [|discriminate Hsession].
  cbn [orb negb] in Hsession.
  destruct (Clock.split ":" t) as [| p1 [| p2 [| p3 ps]]] eqn:Hsplit;
    try discriminate Hsession; cbn [fmap list_fmap] in Hsession |- *.
  1:{ destruct (Clock.int_of_str p1); discriminate Hsession. }
  2:{ destruct (Clock.int_of_str p1), (Clock.int_of_str p2); discriminate Hsession. }
  destruct (Clock.int_of_str p1) as [hour|] eqn:H1; [|discriminate Hsession].
  destruct (Clock.int_of_str p2) as [minute|] eqn:H2; [|discriminate Hsession].
  destruct (valid_time hour minute) eqn:Hv; [|discriminate Hsession].
  unfold is_today_announcement in Htoday. rewrite Hcolon in Htoday.
  assert (Hslash : ~ In "/"%char (chars t)).
  { intros Hin. destruct (split_chars ":" "/" t Hin) as (p & Hp & Hcp); [discriminate|].
    rewrite Hsplit in Hp.
    assert (Hnum : numeric "/").
    { destruct Hp as [<- | [<- | []]].
      - now apply (int_of_str_numeric p1 hour H1).
      - now apply (int_of_str_numeric p2 minute H2). }
    unfold numeric in Hnum.
    destruct Hnum as [H | [H | [H | [H | H]]]];
      [now apply H|discriminate H..]. }
  split.
  - destruct (Nat.leb_spec (String.length t) 5) as [Hle | Hgt]; [lia|].
    exfalso. apply Hslash. apply (contains_chars _ t Htoday).
    unfold Clock.strftime_slashes. fold chars. rewrite !chars_append.
    apply in_or_app. right. now left.
  - now exists hour, minute.
Qed.

(** What a collected row looks like. *)
Let well_formed (include exclude : list string) (d : disclosure) : Prop :=
  String.length (time_text d) = 5%nat /\
  (String.length (symbol d) <= 4)%nat /\
  any_in include (title_text d) = true /\
  any_in exclude (title_text d) = false /\
  exists hour minute,
    Clock.int_of_str <$> Clock.split ":" (time_text d) = [Some hour; Some minute] /\
    valid_time hour minute = true /\ in_session hour minute = true.

Lemma collect_row_well_formed (now : Clock.datetime) (include exclude : list string)
    (cols : list string) (d : disclosure) :
  collect_row now include exclude cols = Some d -> well_formed include exclude d.
Proof.
  unfold collect_row.
  destruct cols as [| t [| code [| company [| title rest]]]];
    try (intros H; discriminate H).
  destruct (is_today_announcement now t) eqn:Htoday; simpl; [|intros H; discriminate H].
  destruct (is_market_hours_timestr t) eqn:Hsession; simpl;
    [|intros H; discriminate H].
  destruct (any_in exclude title) eqn:Hex; [intros H; discriminate H|].
  destruct (any_in include title) eqn:Hinc; [|intros H; discriminate H].
  intros H. injection H as <-. unfold well_formed; simpl.
  destruct (filtered_time_text now t Htoday Hsession) as (Hlen & Hrest).
  split; [exact Hlen|]. split; [apply normalize_code_length|]. now repeat split.
Qed.

Lemma collect_rows_well_formed (clock : nat -> Clock.datetime)
    (include exclude : list string) (rows : list (list string)) :
  forall (i : nat) (d : disclosure),
    d ∈ collect_rows clock include exclude i rows -> well_formed include exclude d.
Proof.
  induction rows as [| cols rest IH]; intros i d; simpl;
    [intros H; now apply elem_of_nil in H|].
  destruct (collect_row (clock i) include exclude cols) as [d'|] eqn:E.
  - intros H. apply elem_of_cons in H as [-> | H]; [|now apply (IH (S i))].
    now apply (collect_row_well_formed (clock i) include exclude cols).
  - apply IH.
Qed.

Lemma process_disclosure_page_well_formed (clock : nat -> Clock.datetime)
    (include exclude : list string) (target : list disclosure)
    (rows : list (list string)) (d : disclosure) :
  d ∈ process_disclosure_page clock include exclude target rows ->
  d ∈ target \/ well_formed include exclude d.
Proof.
  unfold process_disclosure_page. destruct rows as [| first rest]; [now left|].
  intros H. apply elem_of_app in H as [H | H]; [now left|]. right.
  now apply (collect_rows_well_formed clock include exclude _ _ d H).
Qed.

End PageFacts.

(** X19. Every disclosure that [process_disclosure_page] adds has a time
    text of exactly five characters, two numbers around a colon that make a
    time of day within the sessions 8:55-11:30 or 12:30-15:40, which
    [parse_announcement_datetime] reads as that time on the day of any valid
    clock reading; rows stamped with a date, as in "YYYY/MM/DD HH:MM", are
    never added, today's date included. Its symbol has at most four characters
    and its headline holds an include keyword and no exclude keyword. Time
    texts are ASCII, as the page gives them. *)
Theorem page_keeps_rows_of_the_sessions :
  forall (clock : nat -> Clock.datetime) (include exclude : list string)
         (target_disclosures : list Entry.disclosure) (rows : list (list string))
         (d : Entry.disclosure),
    d ∈ Page.process_disclosure_page clock include exclude target_disclosures rows ->
    d ∈ target_disclosures \/
    (String.length (Entry.time_text d) = 5%nat /\
     (String.length (Entry.symbol d) <= 4)%nat /\
     Py.any_in include (Entry.title_text d) = true /\
     Py.any_in exclude (Entry.title_text d) = false /\
     exists hour minute,
       Clock.int_of_str <$> Clock.split ":" (Entry.time_text d)
       = [Some hour; Some minute] /\
       Page.valid_time hour minute = true /\ Page.in_session hour minute = true /\
       forall now, Scheduler.valid now = true ->
         Entry.parse_announcement_datetime now (Entry.time_text d)
         = Some {| Clock.year := Clock.year now; Clock.month := Clock.month now;
                   Clock.day := Clock.day now; Clock.hour := hour;
                   Clock.minute := minute; Clock.second := 0;
                   Clock.microsecond := 0 |}).
Proof.
  intros clock include exclude target rows d Hd.
  destruct (process_disclosure_page_well_formed clock include exclude target rows d Hd)
    as [H | (Hlen & Hsym & Hinc & Hex & hour & minute & Hsplit & Hv & Hs)];
    [now left|right].
  split; [exact Hlen|]. split; [exact Hsym|]. split; [exact Hinc|].
  split; [exact Hex|]. exists hour, minute.
  split; [exact Hsplit|]. split; [exact Hv|]. split; [exact Hs|].
  intros now Hnow.
  apply (fresh_window now (Entry.time_text d) hour minute); try assumption. lia.
Qed.

(** A page of 2025-03-03 with a header, a row of 09:05, the same row stamped
    with the date, a row of the lunch break and a row with an exclude
    keyword: only the first is kept. *)
Lemma page_keeps_rows_of_the_sessions_witness :
  Page.process_disclosure_page (fun _ => Scenario.on_the_day 9 5 2 0)
    Page.include_keywords Page.exclude_keywords []
    [["時刻"; "コード"; "会社名"; "表題"];
     ["09:05"; "72030"; "C社"; "新工場の完成に関するお知らせ"];
     ["2025/03/03 09:05"; "72030"; "C社"; "新工場の完成に関するお知らせ"];
     ["12:00"; "67580"; "B社"; "業務提携に関するお知らせ"];
     ["09:05"; "80350"; "D社"; "業務提携の解消に関するお知らせ"]]
  = [{| Entry.symbol := "7203"; Entry.company_name := "C社";
        Entry.title_text := "新工場の完成に関するお知らせ";
        Entry.time_text := "09:05" |}] /\
  String.length "09:05" = 5%nat.
Proof.
  split; [vm_compute; reflexivity|].
  destruct (page_keeps_rows_of_the_sessions (fun _ => Scenario.on_the_day 9 5 2 0)
              Page.include_keywords Page.exclude_keywords []
              [["時刻"; "コード"; "会社名"; "表題"];
               ["09:05"; "72030"; "C社"; "新工場の完成に関するお知らせ"]]
              {| Entry.symbol := "7203"; Entry.company_name := "C社";
                 Entry.title_text := "新工場の完成に関するお知らせ";
                 Entry.time_text := "09:05" |}) as [H | (Hlen & _)].
  - apply list_elem_of_singleton. reflexivity.
  - now apply elem_of_nil in H.
  - exact Hlen.
Defined.

(** ** Order of prices through the quantizers *)

Section QuantizerOrder.
Import Py Tick.

Lemma int_mono (x y : Q) : (x <= y)%Q -> int x <= int y.
Proof.
  intros Hxy. destruct (Qlt_le_dec x 0) as [Hx | Hx];
    destruct (Qlt_le_dec y 0) as [Hy | Hy].
  - assert (Hx' : (0 <= - x)%Q) by lra. assert (Hy' : (0 <= - y)%Q) by lra.
    assert (Hle : (- y <= - x)%Q) by lra. apply Qfloor_resp_le in Hle.
    rewrite <- (int_nonneg_floor _ Hx'), <- (int_nonneg_floor _ Hy') in Hle.
    rewrite !int_opp in Hle. lia.
  - assert (int x <= 0) by (apply int_nonpos; lra).
    assert (0 <= int y) by (now apply int_nonneg). lia.
  - lra.
  - rewrite (int_nonneg_floor x Hx), (int_nonneg_floor y Hy).
    now apply Qfloor_resp_le.
Qed.

Lemma round_between (x : Q) : Qfloor x <= round x <= Qfloor x + 1.
Proof.
  unfold round. destruct (x - inject_Z (Qfloor x) ?= 1 # 2)%Q;
    [destruct (Z.even (Qfloor x))|..]; lia.
Qed.

Lemma round_mono (x y : Q) : (x <= y)%Q -> round x <= round y.
Proof.
  intros Hxy. pose proof (Qfloor_resp_le x y Hxy) as Hf.
  destruct (Z.eq_dec (Qfloor x) (Qfloor y)) as [E | Hne].
  - unfold round. rewrite <- E.
    destruct (x - inject_Z (Qfloor x) ?= 1 # 2)%Q eqn:Cx;
      destruct (y - inject_Z (Qfloor x) ?= 1 # 2)%Q eqn:Cy;
      try (destruct (Z.even (Qfloor x))); try lia; exfalso;
      first [apply Qeq_alt in Cx | apply Qlt_alt in Cx | apply Qgt_alt in Cx];
      first [apply Qeq_alt in Cy | apply Qlt_alt in Cy | apply Qgt_alt in Cy];
      lra.
  - pose proof (round_between x). pose proof (round_between y). lia.
Qed.

(** The three quantizers on whole yen. *)
Lemma adjust_mono (p q : Z) :
  p <= q ->
  p / (if p <=? 3000 then 1 else if p <=? 5000 then 5 else 10)
    * (if p <=? 3000 then 1 else if p <=? 5000 then 5 else 10)
  <= q / (if q <=? 3000 then 1 else if q <=? 5000 then 5 else 10)
    * (if q <=? 3000 then 1 else if q <=? 5000 then 5 else 10).
Proof.
  intros H.
  destruct (Z.leb_spec p 3000), (Z.leb_spec p 5000),
    (Z.leb_spec q 3000), (Z.leb_spec q 5000);
    Z.div_mod_to_equations; lia.
Qed.

Lemma round_sell_mono (p q : Z) :
  p <= q ->
  (if 5000 <? p then p / 10 * 10 else if 3000 <? p then p / 5 * 5 else p)
  <= (if 5000 <? q then q / 10 * 10 else if 3000 <? q then q / 5 * 5 else q).
Proof.
  intros H.
  destruct (Z.ltb_spec 5000 p), (Z.ltb_spec 3000 p),
    (Z.ltb_spec 5000 q), (Z.ltb_spec 3000 q);
    Z.div_mod_to_equations; lia.
Qed.

Lemma buy_block_mono (p q : Z) :
  p <= q ->
  (if 5000 <? p then p - p mod 10 else if 3000 <? p then p - p mod 5 else p)
  <= (if 5000 <? q then q - q mod 10 else if 3000 <? q then q - q mod 5 else q).
Proof.
  intros H.
  destruct (Z.ltb_spec 5000 p), (Z.ltb_spec 3000 p),
    (Z.ltb_spec 5000 q), (Z.ltb_spec 3000 q);
    Z.div_mod_to_equations; lia.
Qed.

End QuantizerOrder.

(** X20. The three price quantizers keep the order of prices: of two prices,
    negative ones included, the higher never becomes the lower order price,
    although the tick changes from 1 to 5 to 10 yen at 3000 and 5000 yen. *)
Theorem quantizers_keep_the_order_of_prices :
  forall p q : Q,
    (p <= q)%Q ->
    Tick.adjust_price_to_tick p <= Tick.adjust_price_to_tick q /\
    Tick.round_sell_price_for_rules p <= Tick.round_sell_price_for_rules q /\
    Tick.send_buy_order_price p <= Tick.send_buy_order_price q.
Proof.
  intros p q H. unfold Tick.adjust_price_to_tick, Tick.round_sell_price_for_rules,
    Tick.send_buy_order_price. cbv zeta.
  pose proof (int_mono p q H) as Hi. pose proof (round_mono p q H) as Hr.
  split; [now apply adjust_mono|]. split; [now apply round_sell_mono|].
  now apply buy_block_mono.
Qed.

(** 2999.6 and 3004.9 yen, on the two sides of the first change of tick. *)
Lemma quantizers_keep_the_order_of_prices_witness :
  Tick.adjust_price_to_tick (29996 # 10) <= Tick.adjust_price_to_tick (30049 # 10) /\
  Tick.round_sell_price_for_rules (29996 # 10)
  <= Tick.round_sell_price_for_rules (30049 # 10) /\
  Tick.send_buy_order_price (29996 # 10) <= Tick.send_buy_order_price (30049 # 10).
Proof.
  apply (quantizers_keep_the_order_of_prices (29996 # 10) (30049 # 10)).
  unfold Qle; simpl; lia.
Defined.
